(** * simple_threat_report: a shallow embedding of the indicator
      classification engine of [simple_threat_report.py]

    The development follows the source file top-down:

    - [Py]      : the fragments of Python the script relies on (string
                  methods, truthiness, insertion-ordered dictionaries,
                  [collections.Counter]);
    - [Runtime] : the world the script runs in (files, the log of remote
                  calls, the output streams) and the state-and-exception
                  monad the effectful functions are written in;
    - [Sample]  : a closed instance of the collaborators, to run the model;
    - [Report]  : the functions of the script, in source order, over
                  arbitrary collaborators, then their properties.

    Conventions.  Python [int] is [Z]; [str] is [string] (the model works on
    the ASCII range); a naive [datetime] is the number of microseconds that
    separate it from [datetime.datetime.fromtimestamp(0)], so that the seed
    of the accumulators of [checktide] is [0] and [>] on datetimes is [>] on
    [Z].  A JSON response is represented by the part of its decoded value
    that the script reads, with [None] for what is absent.  The recursion
    of [checkactive] and [checktide] is on a call-depth budget: a call that
    finds the budget exhausted raises [RecursionError], as the interpreter
    does when its frame limit is reached. *)

From Stdlib Require Import ZArith List String Ascii Bool Arith Lia.
Import ListNotations.

#[local] Open Scope string_scope.
#[local] Open Scope Z_scope.

(* ===================================================================== *)
(** ** Python fragments *)
(* ===================================================================== *)

Module Py.

(** [c.lower()] on one character. *)
Definition lower_ascii (c : ascii) : ascii :=
  let n := nat_of_ascii c in
  if (Nat.leb 65 n && Nat.leb n 90)%bool then ascii_of_nat (n + 32) else c.

(** [s.lower()] *)
Fixpoint lower (s : string) : string :=
  match s with
  | EmptyString => EmptyString
  | String c s' => String (lower_ascii c) (lower s')
  end.

(** [s.startswith(p)] *)
Fixpoint startswith (p s : string) : bool :=
  match p, s with
  | EmptyString, _ => true
  | String _ _, EmptyString => false
  | String a p', String b s' => (Ascii.eqb a b && startswith p' s')%bool
  end.

(** [needle in hay] on strings: a left-to-right scan of the start
    positions. *)
Fixpoint str_in (needle hay : string) : bool :=
  if startswith needle hay then true
  else match hay with
       | EmptyString => false
       | String _ hay' => str_in needle hay'
       end.

(** The characters [str.isspace] accepts in the ASCII range. *)
Definition isspace (c : ascii) : bool :=
  let n := nat_of_ascii c in
  ((Nat.leb 9 n && Nat.leb n 13) || (Nat.leb 28 n && Nat.leb n 32))%bool.

(** [s.rstrip()] *)
Fixpoint rstrip (s : string) : string :=
  match s with
  | EmptyString => EmptyString
  | String c s' =>
      match rstrip s' with
      | EmptyString => if isspace c then EmptyString else String c EmptyString
      | r => String c r
      end
  end.

(** Truthiness of a string, of a list, and of a value that may be [None]
    or [False]. *)
Definition truthy_str (s : string) : bool :=
  match s with EmptyString => false | _ => true end.

Definition truthy_list {A} (l : list A) : bool :=
  match l with [] => false | _ => true end.

Definition truthy_opt {A} (truthy : A -> bool) (o : option A) : bool :=
  match o with None => false | Some a => truthy a end.

(** Insertion-ordered dictionaries with string keys: [d[k] = v] keeps the
    position of a key that is already present and appends a new one. *)
Definition dict (V : Type) : Type := list (string * V).

Fixpoint dict_get {V} (d : dict V) (k : string) : option V :=
  match d with
  | [] => None
  | (k', v) :: d' => if String.eqb k' k then Some v else dict_get d' k
  end.

Fixpoint dict_set {V} (d : dict V) (k : string) (v : V) : dict V :=
  match d with
  | [] => [(k, v)]
  | (k', v') :: d' =>
      if String.eqb k' k then (k', v) :: d' else (k', v') :: dict_set d' k v
  end.

Definition dict_keys {V} (d : dict V) : list string := map fst d.

Definition dict_len {V} (d : dict V) : Z := Z.of_nat (List.length d).

(** [collections.Counter]: a dictionary of counts; [cc[k] += 1] reads a
    missing key as 0. *)
Definition Counter : Type := dict Z.

Definition counter_incr (cc : Counter) (k : string) : Counter :=
  match dict_get cc k with
  | Some n => dict_set cc k (n + 1)
  | None => dict_set cc k (0 + 1)
  end.

End Py.

Import Py.

(* ===================================================================== *)
(** ** The world of the script and its monad *)
(* ===================================================================== *)

Module Runtime.

(** A naive [datetime], see the conventions above. *)
Definition datetime : Type := Z.

(** [datetime.datetime.fromtimestamp(0)] *)
Definition epoch : datetime := 0.

(** One element of the ['threat'] array of a TIDE answer.  ['expiration']
    is the only key the script tests for. *)
Record Threat : Type := mkThreat {
  profile : string;
  class : string;
  imported : datetime;
  expiration : option datetime
}.

(** What the script reads of a response: the status code and
    [json.loads(response.text).get('threat')]. *)
Record Response : Type := mkResponse {
  status_code : Z;
  threat : option (list Threat)
}.

(** One row of the local database. *)
Record DbRow : Type := mkDbRow {
  row_profile : string;
  row_class : string
}.

(** The part of a dossier answer that the script reads.  [None] is
    Python's [None]: the value of [.get] for a key that is absent or null.
    [data_results] is [.get('results')] of a 'data' object, with the
    [cat.get('name')] of each of its elements; [result_data] is
    [.get('data')] of a result; [dossier_results] is [.get('results')] of
    the decoded body. *)
Record DossierData : Type := mkData {
  data_results : option (list string)
}.

Record DossierResult : Type := mkResult {
  result_data : option DossierData
}.

Record DossierResponse : Type := mkDossier {
  dossier_status : Z;
  dossier_results : option (list DossierResult)
}.

(** The [profiles] slot of a result holds the list of profile names or,
    after a failed query, a message. *)
Inductive Profiles : Type :=
| ProfileList (l : list string)
| ProfileMsg (s : string).

(** The date slots of a [checktide] result hold a datetime or ['']. *)
Inductive DateField : Type :=
| DateTime (t : datetime)
| NoDate.

(** [results] of [checkactive]:
    [[ totalthreats, profiles, tclasses, domain_checked ]]. *)
Record ActiveResult : Type := mkActive {
  a_totalthreats : Z;
  a_profiles : Profiles;
  a_tclasses : list string;
  a_domain_checked : bool
}.

(** [results] of [checktide]: [[ totalthreats, profiles, tclasses,
    last_available, last_expiration, domain_checked ]]. *)
Record TideResult : Type := mkTide {
  t_totalthreats : Z;
  t_profiles : Profiles;
  t_tclasses : list string;
  t_last_available : DateField;
  t_last_expiration : DateField;
  t_domain_checked : bool
}.

(** The value of [activethreats[query]]: the list [checkactive] returns or
    the triple [checkoffline] returns.  [gen_report] reads the slots 0, 1
    and 2, which both have. *)
Inductive ActiveEntry : Type :=
| FromTide (r : ActiveResult)
| FromLocal (totalthreats : Z) (profiles : list string) (tclasses : list string).

Definition slot0 (e : ActiveEntry) : Z :=
  match e with
  | FromTide r => a_totalthreats r
  | FromLocal n _ _ => n
  end.

Definition slot1 (e : ActiveEntry) : Profiles :=
  match e with
  | FromTide r => a_profiles r
  | FromLocal _ p _ => ProfileList p
  end.

Definition slot2 (e : ActiveEntry) : list string :=
  match e with
  | FromTide r => a_tclasses r
  | FromLocal _ _ c => c
  end.

(** Calls that leave the process, in the order they are made. *)
Inductive ApiCall : Type :=
| QueryTideState (qtype query : string)
| QueryTide (qtype query : string)
| DossierQuery (query qtype : string)
| DbQuery (qtype query : string).

(** The lines [gen_report] prints, by format string; the arguments are the
    values substituted into it. *)
Inductive Line : Type :=
| ActiveHeader
    (* 'Host,Active Threats,Active Profiles,Active Classes' *)
| ActiveCsvRow (item : string) (count : Z) (profiles : Profiles)
    (classes : list string)
| ActiveHumanRow (item : string) (count : Z) (profiles : Profiles)
    (classes : list string)
| ActiveSummary (total active not_active : Z)
    (* 'Summary: Total = {}, Active = {}, Not active = {}' *)
| FullHeader
    (* 'Host,Action,Active Threats,Active Profiles,Total Indicators, ...' *)
| FullCsvRow (item action : string) (active : Z) (active_profiles : Profiles)
    (total : Z) (profiles : Profiles) (classes : list string)
    (last_seen last_expiry : DateField) (domain_checked : bool)
    (web_categories : option (list string))
| FullHumanRow (item action : string) (active : Z)
    (active_profiles : Profiles) (total : Z) (profiles : Profiles)
    (classes : list string) (last_seen last_expiry : DateField)
    (domain_checked : bool) (web_categories : option (list string))
| FullSummary (total active threats no_info : Z)
    (* 'Summary: Total = {}, Active = {}, Threats = {}, No info = {}' *)
| CsvWritten (name : string).
    (* 'CSV output written to {}' *)

(** The state the script acts on.  [files] maps the name of a readable
    file to its lines (each with its line end); the three streams are
    standard output, the CSV file and the file of bogus lines. *)
Record World : Type := mkWorld {
  files : string -> option (list string);
  api_log : list ApiCall;
  stdout : list Line;
  csv_out : list Line;
  bogus_out : list (Z * string)
}.

Inductive Exn : Type :=
| IOError (filename : string)
| KeyError (key : string)
| RecursionError
| SystemExit (code : Z)
| TypeError (message : string)
| IndexError (message : string)
| AttributeError (message : string).

Inductive Outcome (A : Type) : Type :=
| Ret (a : A)
| Raise (e : Exn).

Arguments Ret {A} a.
Arguments Raise {A} e.

(** State and exceptions: an exception keeps the effects that precede
    it. *)
Definition M (A : Type) : Type := World -> Outcome A * World.

Definition ret {A} (a : A) : M A := fun w => (Ret a, w).

Definition raise {A} (e : Exn) : M A := fun w => (Raise e, w).

Definition bind {A B} (m : M A) (k : A -> M B) : M B :=
  fun w =>
    match m w with
    | (Ret a, w') => k a w'
    | (Raise e, w') => (Raise e, w')
    end.

(** [try: m  except IOError: handler] *)
Definition except_IOError {A} (m : M A) (handler : string -> M A) : M A :=
  fun w =>
    match m w with
    | (Raise (IOError f), w') => handler f w'
    | r => r
    end.

Definition when (c : bool) (m : M unit) : M unit :=
  if c then m else ret tt.

(** [for x in l: acc = body(acc, x)] *)
Fixpoint for_in {A S} (l : list A) (body : S -> A -> M S) (acc : S) : M S :=
  match l with
  | [] => ret acc
  | x :: l' => bind (body acc x) (for_in l' body)
  end.

Definition log_call (c : ApiCall) : M unit :=
  fun w => (Ret tt, mkWorld (files w) (api_log w ++ [c]) (stdout w)
                            (csv_out w) (bogus_out w)).

(** [print(line)] *)
Definition print (l : Line) : M unit :=
  fun w => (Ret tt, mkWorld (files w) (api_log w) (stdout w ++ [l])
                            (csv_out w) (bogus_out w)).

(** [print(line, file=filehandle)] *)
Definition print_file (l : Line) : M unit :=
  fun w => (Ret tt, mkWorld (files w) (api_log w) (stdout w)
                            (csv_out w ++ [l]) (bogus_out w)).

(** [open(filename)] for reading, followed by the iteration on its
    lines. *)
Definition read_lines (filename : string) : M (list string) :=
  fun w =>
    match files w filename with
    | Some ls => (Ret ls, w)
    | None => (Raise (IOError filename), w)
    end.

End Runtime.

Import Runtime.

Declare Scope py_scope.
Notation "x <- m ;; k" := (bind m (fun x => k))
  (at level 61, m at next level, right associativity) : py_scope.
Notation "m ;;; k" := (bind m (fun _ => k))
  (at level 61, right associativity) : py_scope.
#[local] Open Scope py_scope.

(* ===================================================================== *)
(** ** A sample installation *)
(* ===================================================================== *)

(** A small, closed instance of the collaborators, on which the model is
    run: a TIDE service that knows [evil.com], answers 500 for
    [down.example] and has nothing on any other name; a local database
    [tide.db]; an input file and the two list files. *)
Module Sample.

Definition return_codes_ok : list Z := [200; 201; 204].

(** Drops the first label of a name that has one. *)
Definition strip_host (fqdn : string) : string :=
  match index 0 "." fqdn with
  | Some n => substring (S n) (String.length fqdn - S n) fqdn
  | None => fqdn
  end.

Definition iid_phishing : Threat :=
  mkThreat "IID" "Phishing" 1700000000000000 (Some 1800000000000000).

Definition ais_malware : Threat :=
  mkThreat "AISCOMM" "Malware" 1600000000000000 None.

Definition old_phishing : Threat :=
  mkThreat "IID" "Phishing" 1500000000000000 None.

Definition querytidestate (qtype query : string) : Response :=
  if String.eqb query "evil.com" then
    mkResponse 200 (Some [iid_phishing; ais_malware])
  else if String.eqb query "down.example" then mkResponse 500 None
  else if String.eqb query "bare" then mkResponse 200 (Some [])
  else mkResponse 200 None.

Definition querytide (qtype query : string) : Response :=
  if String.eqb query "evil.com" then
    mkResponse 200 (Some [iid_phishing; ais_malware; old_phishing])
  else if String.eqb query "old.example" then
    mkResponse 200 (Some [old_phishing])
  else if String.eqb query "down.example" then mkResponse 500 None
  else mkResponse 200 None.

Definition dossierquery (query qtype : string) : DossierResponse :=
  if String.eqb query "shop.example" then
    mkDossier 200 (Some [mkResult (Some (mkData (Some ["Malware-ish"])))])
  else if String.eqb query "new.example" then mkDossier 200 (Some [])
  else mkDossier 200 (Some [mkResult (Some (mkData None))]).

Definition has_space (s : string) : bool :=
  match index 0 " " s with Some _ => true | None => false end.

Definition data_type (query : string) : string :=
  if (negb (truthy_str query) || has_space query)%bool then "invalid"
  else "host".

Definition opendb (database : string) : option unit :=
  if String.eqb database "tide.db" then Some tt else None.

Definition get_table (db_cursor : unit) : option unit := Some tt.

Definition db_query (db_cursor db_table : unit) (qtype query : string)
  : list DbRow :=
  if String.eqb query "evil.com" then [mkDbRow "IID" "Phishing"] else [].

Definition isfile (filename : string) : bool := false.
Definition can_backup (filename : string) : bool := true.
Definition can_write (filename : string) : bool := true.

(** A line of a text file: the text and its line feed. *)
Definition line (text : string) : string :=
  text ++ String (ascii_of_nat 10) EmptyString.

Definition input_lines : list string :=
  [line "evil.com"; line "not valid"; line "old.example";
   line "shop.example"; line "site.ru"; line "bare"].

Definition files (filename : string) : option (list string) :=
  if String.eqb filename "iocs.txt" then Some input_lines
  else if String.eqb filename "block_categories" then Some [line "malware"]
  else if String.eqb filename "country_codes" then Some [line ".ru"; line ".cn"]
  else None.

(** The same directory without the two list files. *)
Definition files_without_lists (filename : string) : option (list string) :=
  if String.eqb filename "iocs.txt" then Some input_lines else None.

Definition world : World := mkWorld files [] [] [] [].

(** The maps of a full run on three of the indicators. *)
Definition nothing_active : ActiveEntry :=
  FromTide (mkActive 0 (ProfileList []) [] true).

Definition activethreats : dict ActiveEntry :=
  [("evil.com",
    FromTide (mkActive 2 (ProfileList ["IID"; "AISCOMM"])
                       ["Phishing"; "Malware"] false));
   ("shop.example", nothing_active);
   ("site.ru", nothing_active)].

Definition nothing_known : TideResult :=
  mkTide 0 (ProfileList []) [] NoDate NoDate true.

Definition totalthreats : dict TideResult :=
  [("evil.com",
    mkTide 3 (ProfileList ["IID"; "AISCOMM"]) ["Phishing"; "Malware"]
           (DateTime 1700000000000000) (DateTime 1800000000000000) false);
   ("shop.example", nothing_known);
   ("site.ru", nothing_known)].

Definition web_categories : dict (list string) :=
  [("shop.example", ["Malware-ish"])].

Definition world_without_lists : World :=
  mkWorld files_without_lists [] [] [] [].

End Sample.

(* ===================================================================== *)
(** ** The functions of the script *)
(* ===================================================================== *)

Module Report.

Section Script.

(** The collaborators of the script: the [bloxone.b1td] object, the
    helpers of [bloxone.utils] and the file-system tests of [open_file]. *)
Variable return_codes_ok : list Z.
Variable querytidestate : string -> string -> Response.
Variable querytide : string -> string -> Response.
Variable dossierquery : string -> string -> DossierResponse.
Variable strip_host : string -> string.
Variable data_type : string -> string.
Variables Cursor Table : Type.
Variable opendb : string -> option Cursor.
Variable get_table : Cursor -> option Table.
Variable db_query : Cursor -> Table -> string -> string -> list DbRow.
Variable isfile : string -> bool.
Variable can_backup : string -> bool.
Variable can_write : string -> bool.

(** [code in b1td.return_codes_ok] *)
Definition status_ok (code : Z) : bool :=
  existsb (Z.eqb code) return_codes_ok.

(** [open_file]: the handler (known by its file name) or [False]. *)
Definition open_file (filename : string) : option string :=
  if isfile filename then
    if can_backup filename then
      if can_write filename then Some filename else None
    else None
  else
    if can_write filename then Some filename else None.

Definition getkeys (cc : Counter) : list string :=
  fold_left (fun keys item => keys ++ [fst item])%list cc [].

Definition most_recent (t1 t2 : datetime) : datetime :=
  if t1 >? t2 then t1 else t2.

Definition api_exception : string := "API Exception Occurred".

(** The body of [for threat in parsed_json['threat']] in [checkactive],
    on the locals [(totalthreats, profile_stats, class_stats)]. *)
Definition active_step (acc : Z * Counter * Counter) (th : Threat)
  : Z * Counter * Counter :=
  let '(totalthreats, profile_stats, class_stats) := acc in
  (totalthreats + 1,
   counter_incr profile_stats (profile th),
   counter_incr class_stats (class th)).

Fixpoint checkactive (depth : nat) (query qtype : string)
    (check_domain domain_checked : bool) {struct depth} : M ActiveResult :=
  match depth with
  | O => raise RecursionError
  | S depth' =>
      let totalthreats := 0 in
      let profile_stats : Counter := [] in
      let class_stats : Counter := [] in
      let profiles : list string := [] in
      let tclasses : list string := [] in
      let results :=
        mkActive totalthreats (ProfileList profiles) tclasses domain_checked in
      log_call (QueryTideState qtype query) ;;;
      let response := querytidestate qtype query in
      if status_ok (status_code response) then
        match threat response with
        | Some ((_ :: _) as threats) =>
            let '(totalthreats, profile_stats, class_stats) :=
              fold_left active_step threats
                        (totalthreats, profile_stats, class_stats) in
            let profiles := getkeys profile_stats in
            let tclasses := getkeys class_stats in
            ret (mkActive totalthreats (ProfileList profiles) tclasses
                          domain_checked)
        | _ =>
            if check_domain then
              let domain := strip_host query in
              if negb (String.eqb domain query) then
                checkactive depth' domain qtype false true
              else ret results
            else ret results
        end
      else
        let totalthreats := -1 in
        let profiles := ProfileMsg api_exception in
        ret (mkActive totalthreats profiles tclasses domain_checked)
  end.

(** The body of [for threat in parsed_json['threat']] in [checktide], on
    the locals [(totalthreats, profile_stats, class_stats, last_available,
    last_expiration)]. *)
Definition tide_step (acc : Z * Counter * Counter * datetime * datetime)
    (th : Threat) : Z * Counter * Counter * datetime * datetime :=
  let '(totalthreats, profile_stats, class_stats,
        last_available, last_expiration) := acc in
  let available := imported th in
  let last_available := most_recent last_available available in
  let last_expiration :=
    match expiration th with
    | Some expiration => most_recent last_expiration expiration
    | None => last_expiration
    end in
  (totalthreats + 1,
   counter_incr profile_stats (profile th),
   counter_incr class_stats (class th),
   last_available, last_expiration).

(** [d == datetime.datetime.fromtimestamp(0)]; [''] is not a datetime. *)
Definition is_epoch (d : DateField) : bool :=
  match d with
  | DateTime t => t =? epoch
  | NoDate => false
  end.

(** The locals of [checktide] are carried in a [TideResult]: they are the
    six values the function packs at its end. *)
Fixpoint checktide (depth : nat) (query qtype : string)
    (check_domain domain_checked : bool) {struct depth} : M TideResult :=
  match depth with
  | O => raise RecursionError
  | S depth' =>
      let totalthreats := 0 in
      let profile_stats : Counter := [] in
      let class_stats : Counter := [] in
      let last_available := epoch in
      let last_expiration := epoch in
      let profiles : list string := [] in
      let tclasses : list string := [] in
      let locals :=
        mkTide totalthreats (ProfileList profiles) tclasses
               (DateTime last_available) (DateTime last_expiration)
               domain_checked in
      log_call (QueryTide qtype query) ;;;
      let response := querytide qtype query in
      locals <-
        (if status_ok (status_code response) then
           match threat response with
           | Some ((_ :: _) as threats) =>
               let '(totalthreats, profile_stats, class_stats,
                     last_available, last_expiration) :=
                 fold_left tide_step threats
                           (totalthreats, profile_stats, class_stats,
                            last_available, last_expiration) in
               let profiles := getkeys profile_stats in
               let tclasses := getkeys class_stats in
               ret (mkTide totalthreats (ProfileList profiles) tclasses
                           (DateTime last_available)
                           (DateTime last_expiration) domain_checked)
           | _ =>
               if check_domain then
                 let domain := strip_host query in
                 if negb (String.eqb domain query) then
                   results <- checktide depth' domain qtype false true ;;
                   (* [if results:] a list of six values is true *)
                   ret (mkTide (t_totalthreats results) (t_profiles results)
                               (t_tclasses results)
                               (t_last_available results)
                               (t_last_expiration results)
                               (t_domain_checked results))
                 else ret locals
               else ret locals
           end
         else
           let totalthreats := -1 in
           let profiles := ProfileMsg api_exception in
           ret (mkTide totalthreats profiles tclasses
                       (DateTime last_available) (DateTime last_expiration)
                       domain_checked)) ;;
      (* Check whether dates were updated *)
      let last_available :=
        if is_epoch (t_last_available locals) then NoDate
        else t_last_available locals in
      let last_expiration :=
        if is_epoch (t_last_expiration locals) then NoDate
        else t_last_expiration locals in
      ret (mkTide (t_totalthreats locals) (t_profiles locals)
                  (t_tclasses locals) last_available last_expiration
                  (t_domain_checked locals))
  end.

(** The body of [for row in rows] in [checkoffline]. *)
Definition offline_step (acc : Z * Counter * Counter) (row : DbRow)
  : Z * Counter * Counter :=
  let '(totalthreats, profile_stats, class_stats) := acc in
  (totalthreats + 1,
   counter_incr profile_stats (row_profile row),
   counter_incr class_stats (row_class row)).

Definition checkoffline (query qtype : string) (db_cursor : Cursor)
    (db_table : Table) : M (Z * list string * list string) :=
  let totalthreats := 0 in
  let profile_stats : Counter := [] in
  let class_stats : Counter := [] in
  let profiles : list string := [] in
  let tclasses : list string := [] in
  log_call (DbQuery qtype query) ;;;
  let rows := db_query db_cursor db_table qtype query in
  if truthy_list rows then
    let '(totalthreats, profile_stats, class_stats) :=
      fold_left offline_step rows (totalthreats, profile_stats, class_stats) in
    let profiles := getkeys profile_stats in
    let tclasses := getkeys class_stats in
    ret (totalthreats, profiles, tclasses)
  else
    ret (totalthreats, profiles, tclasses).

(** [results[0]] *)
Definition first_item {A} (results : option (list A)) : M A :=
  match results with
  | Some (first :: _) => ret first
  | Some [] => raise (IndexError "list index out of range")
  | None => raise (TypeError "'NoneType' object is not subscriptable")
  end.

(** The object whose [.get] is called. *)
Definition get_of {A} (object : option A) : M A :=
  match object with
  | Some d => ret d
  | None => raise (AttributeError "'NoneType' object has no attribute 'get'")
  end.

Definition get_web_categories (query qtype : string) : M (list string) :=
  let web_categories : list string := [] in
  log_call (DossierQuery query qtype) ;;;
  let response := dossierquery query qtype in
  if status_ok (dossier_status response) then
    let results := dossier_results response in
    first <- first_item results ;;
    d <- get_of (result_data first) ;;
    let data := data_results d in
    if truthy_opt truthy_list data then
      match data with
      | Some data =>
          ret (fold_left (fun cats name => cats ++ [name])%list data
                         web_categories)
      | None => ret web_categories
      end
    else ret ["Uncategorised"]
  else ret web_categories.

Definition load_list (filename : string) : M (list string) :=
  let items : list string := [] in
  file <- read_lines filename ;;
  ret (fold_left (fun items line => items ++ [rstrip line])%list file items).

(** The loop [for cat in webcats] of [checkwebcat] for one [item]: the
    value of [flag] when the loop is left, and the membership tests it
    evaluated, in order. *)
Fixpoint webcat_cats (item : string) (webcats : list string)
  : bool * list (string * string) :=
  match webcats with
  | [] => (false, [])
  | cat :: webcats' =>
      if str_in (lower item) (lower cat) then
        (* result = True; flag = True; break *)
        (true, [(item, cat)])
      else
        let '(flag, tests) := webcat_cats item webcats' in
        (flag, (item, cat) :: tests)
  end.

(** The loop [for item in block_list]. *)
Fixpoint webcat_items (block_list webcats : list string)
  : bool * list (string * string) :=
  match block_list with
  | [] => (false, [])
  | item :: block_list' =>
      let '(flag, tests) := webcat_cats item webcats in
      if flag then
        (* break *)
        (true, tests)
      else
        let '(result, tests') := webcat_items block_list' webcats in
        (result, (tests ++ tests')%list)
  end.

(** [checkwebcat] with the tests it evaluates; [webcats] is [None] for an
    indicator without categories ([web_categories.get(item)]). *)
Definition checkwebcat_run (webcats : option (list string))
    (block_list : list string) : bool * list (string * string) :=
  match webcats with
  | Some ((_ :: _) as webcats) => webcat_items block_list webcats
  | _ => (false, [])
  end.

Definition checkwebcat (webcats : option (list string))
    (block_list : list string) : bool :=
  fst (checkwebcat_run webcats block_list).

(** The loop [for co in country_codes] of [checkcountry]. *)
Fixpoint country_codes_loop (domain : string) (country_codes : list string)
  : bool :=
  match country_codes with
  | [] => false
  | co :: country_codes' =>
      if str_in co domain then true
      else country_codes_loop domain country_codes'
  end.

Definition checkcountry (domain : string) (country_codes : list string)
  : bool :=
  if truthy_str domain then country_codes_loop domain country_codes
  else false.

(** [d[item]] *)
Definition subscript {V} (d : dict V) (item : string) : M V :=
  match dict_get d item with
  | Some v => ret v
  | None => raise (KeyError item)
  end.

(** The [if]/[elif] chain that sets [action] in the full report. *)
Definition action_of (active total : Z) (webcats : option (list string))
    (item : string) (block_categories country_codes : list string)
  : string :=
  if active >? 0 then "Active"
  else if total >? 0 then "Not Active"
  else if checkwebcat webcats block_categories then "Category Block"
  else if checkcountry item country_codes then "Country Block"
  else "".

(** The body of the loop of the active-only report, on the local
    [with_active]. *)
Definition active_only_item (activethreats : dict ActiveEntry)
    (filehandle : option string) (with_active : Z) (item : string) : M Z :=
  a <- subscript activethreats item ;;
  let with_active :=
    if slot0 a >? 0 then with_active + 1 else with_active in
  match filehandle with
  | Some _ =>
      print_file (ActiveCsvRow item (slot0 a) (slot1 a) (slot2 a))
  | None =>
      print (ActiveHumanRow item (slot0 a) (slot1 a) (slot2 a))
  end ;;;
  ret with_active.

(** The body of the loop of the full report, on the locals
    [(with_active, with_threats)]. *)
Definition full_item (activethreats : dict ActiveEntry)
    (totalthreats : dict TideResult) (web_categories : dict (list string))
    (filehandle : option string)
    (block_categories country_codes : list string)
    (acc : Z * Z) (item : string) : M (Z * Z) :=
  let '(with_active, with_threats) := acc in
  a <- subscript activethreats item ;;
  let with_active :=
    if slot0 a >? 0 then with_active + 1 else with_active in
  t <- subscript totalthreats item ;;
  let with_threats :=
    if t_totalthreats t >? 0 then with_threats + 1 else with_threats in
  let action :=
    action_of (slot0 a) (t_totalthreats t) (dict_get web_categories item)
              item block_categories country_codes in
  match filehandle with
  | Some _ =>
      print_file
        (FullCsvRow item action (slot0 a) (slot1 a) (t_totalthreats t)
           (t_profiles t) (t_tclasses t) (t_last_available t)
           (t_last_expiration t) (t_domain_checked t)
           (dict_get web_categories item))
  | None =>
      print
        (FullHumanRow item action (slot0 a) (slot1 a) (t_totalthreats t)
           (t_profiles t) (t_tclasses t) (t_last_available t)
           (t_last_expiration t) (t_domain_checked t)
           (dict_get web_categories item))
  end ;;;
  ret (with_active, with_threats).

Definition is_some {A} (o : option A) : bool :=
  match o with Some _ => true | None => false end.

Definition gen_report (activethreats : dict ActiveEntry)
    (totalthreats : dict TideResult) (web_categories : dict (list string))
    (filehandle : option string) : M unit :=
  let total_hosts := dict_len activethreats in
  let with_active := 0 in
  let with_threats := 0 in
  block_categories <- load_list "block_categories" ;;
  country_codes <- load_list "country_codes" ;;
  (if dict_len totalthreats =? 0 then
     (* Assert Active Only *)
     when (is_some filehandle) (print_file ActiveHeader) ;;;
     with_active <-
       for_in (dict_keys activethreats)
              (active_only_item activethreats filehandle) with_active ;;
     print (ActiveSummary total_hosts with_active
                          (total_hosts - with_active)) ;;;
     when (is_some filehandle)
          (print_file (ActiveSummary total_hosts with_active
                                     (total_hosts - with_active)))
   else
     (* Assert active and total threats *)
     when (is_some filehandle) (print_file FullHeader) ;;;
     counts <-
       for_in (dict_keys activethreats)
              (full_item activethreats totalthreats web_categories
                         filehandle block_categories country_codes)
              (with_active, with_threats) ;;
     let '(with_active, with_threats) := counts in
     print (FullSummary total_hosts with_active with_threats
                        (total_hosts - with_threats)) ;;;
     when (is_some filehandle)
          (print_file (FullSummary total_hosts with_active with_threats
                                   (total_hosts - with_threats)))) ;;;
  match filehandle with
  | Some name => print (CsvWritten name)
  | None => ret tt
  end.

(** The options [parseargs] returns that [main] reads. *)
Record Args : Type := mkArgs {
  arg_input : string;
  arg_output : option string;
  arg_bogus : option string;
  arg_active : bool;
  arg_check_domains : bool;
  arg_webcat : bool;
  arg_local : option string
}.

(** [-i iocs.txt -C -w] and [-i iocs.txt -o out.csv -C -w -l tide.db] *)
Definition sample_args : Args :=
  mkArgs "iocs.txt" None None false true true None.

Definition sample_args_local : Args :=
  mkArgs "iocs.txt" (Some "out.csv") None false true true (Some "tide.db").

(** What [parse.parse_args()] makes of the command line: the options, or
    the exit of [argparse]. *)
Variable command_line : Outcome Args.

(** [parseargs] is declared without parameters. *)
Definition parseargs : M Args := fun w => (command_line, w).

(** A call [f(x)] of a function [f] declared without parameters: the
    interpreter raises [TypeError] before the body of [f] runs. *)
Definition call_with_one_argument {A B} (name : string) (f : M A) (x : B)
  : M A :=
  raise (TypeError
           (name ++ "() takes 0 positional arguments but 1 was given")).

(** The locals of [main] that the loop on the input lines updates. *)
Record Locals : Type := mkLocals {
  activethreats : dict ActiveEntry;
  totalthreats : dict TideResult;
  web_cats : dict (list string);
  linecount : Z;
  bogus_lines : Z
}.

(** [output_bogus] *)
Definition output_bogus (data : string) (line_number : Z) : M unit :=
  fun w => (Ret tt, mkWorld (files w) (api_log w) (stdout w) (csv_out w)
                            (bogus_out w ++ [(line_number, data)])).

(** The body of [for line in file] in [main].  [database] holds the
    cursor and the table when the local database is in use. *)
Definition process_line (depth : nat) (database : option (Cursor * Table))
    (activeonly check_domain webcat : bool) (bogus_out : option string)
    (st : Locals) (line : string) : M Locals :=
  let query := rstrip line in
  let linecount := linecount st + 1 in
  let qtype := data_type query in
  if negb (String.eqb qtype "invalid") then
    a <- match database with
         | Some (db_cursor, db_table) =>
             r <- checkoffline query qtype db_cursor db_table ;;
             let '(n, profiles, tclasses) := r in
             ret (FromLocal n profiles tclasses)
         | None =>
             r <- checkactive depth query qtype check_domain false ;;
             ret (FromTide r)
         end ;;
    let activethreats := dict_set (activethreats st) query a in
    totalthreats <-
      (if negb activeonly then
         t <- checktide depth query qtype check_domain false ;;
         ret (dict_set (totalthreats st) query t)
       else ret (totalthreats st)) ;;
    web_cats <-
      (if (String.eqb qtype "host" && webcat)%bool then
         c <- get_web_categories query qtype ;;
         ret (dict_set (web_cats st) query c)
       else ret (web_cats st)) ;;
    ret (mkLocals activethreats totalthreats web_cats linecount
                  (bogus_lines st))
  else
    let bogus_lines := bogus_lines st + 1 in
    when (is_some bogus_out) (output_bogus query linecount) ;;;
    ret (mkLocals (activethreats st) (totalthreats st) (web_cats st)
                  linecount bogus_lines).

(** What [main] sets up before it opens the input: the value of
    [activeonly], the local database, and the two output handlers. *)
Definition main_setup (args : Args)
  : M (bool * option (Cursor * Table) * option string * option string) :=
  let activeonly := arg_active args in
  r <- (if truthy_opt truthy_str (arg_local args) then
          match arg_local args with
          | Some database =>
              (* Force activeonly *)
              let activeonly := true in
              match opendb database with
              | Some db_cursor =>
                  match get_table db_cursor with
                  | Some db_table =>
                      ret (activeonly, Some (db_cursor, db_table))
                  | None => raise (SystemExit 1)
                  end
              | None => raise (SystemExit 1)
              end
          | None => ret (activeonly, None)
          end
        else ret (activeonly, None)) ;;
  let '(activeonly, database) := r in
  bogus_out <-
    (if truthy_opt truthy_str (arg_bogus args) then
       match arg_bogus args with
       | Some bogusfilename =>
           match open_file bogusfilename with
           | Some h => ret (Some h)
           | None => raise (SystemExit 1)
           end
       | None => ret None
       end
     else ret None) ;;
  let outfile :=
    if truthy_opt truthy_str (arg_output args) then
      match arg_output args with
      | Some outputfile => open_file outputfile
      | None => None
      end
    else None in
  ret (activeonly, database, bogus_out, outfile).

Definition initial_locals : Locals := mkLocals [] [] [] 0 0.

(** The loop of [main] on the lines of the input file. *)
Definition process_file (depth : nat) (database : option (Cursor * Table))
    (activeonly check_domain webcat : bool) (bogus_out : option string)
    (inputfile : string) : M Locals :=
  file <- read_lines inputfile ;;
  for_in file
         (process_line depth database activeonly check_domain webcat
                       bogus_out)
         initial_locals.

(** The [try] statement of [main]: the loop on the input, the report, and
    the handler of [IOError]; the value is [exitcode].  [depth] is the
    number of frames left for the lookups. *)
Definition main_try (depth : nat) (activeonly : bool)
    (database : option (Cursor * Table)) (bogus_out outfile : option string)
    (check_domain webcat : bool) (inputfile : string) : M Z :=
  let exitcode := 0 in
  except_IOError
    (st <- process_file depth database activeonly check_domain webcat
                        bogus_out inputfile ;;
     (* Output Report *)
     gen_report (activethreats st) (totalthreats st) (web_cats st)
                outfile ;;;
     ret exitcode)
    (fun _ => ret 1).

(** The statements of [main] that follow [args = parseargs(raw_args)],
    for the options [args]: the set-up, then the [try] statement. *)
Definition main_from_options (depth : nat) (args : Args) : M Z :=
  s <- main_setup args ;;
  let '(activeonly, database, bogus_out, outfile) := s in
  let webcat := arg_webcat args in
  let check_domain := arg_check_domains args in
  main_try depth activeonly database bogus_out outfile check_domain webcat
           (arg_input args).

(** [main]: its first statement calls [parseargs] with one argument. *)
Definition main (depth : nat) (raw_args : option (list string)) : M Z :=
  args <- call_with_one_argument "parseargs" parseargs raw_args ;;
  main_from_options depth args.

(* --------------------------------------------------------------------- *)
(** *** Vocabulary of the specification *)
(* --------------------------------------------------------------------- *)

(** [needle] occurs in [hay] as a substring. *)
Definition occurs_in (needle hay : string) : Prop :=
  exists pre post, hay = pre ++ needle ++ post.

(** The membership test of [checkwebcat] on a pair (entry, category). *)
Definition hit (test : string * string) : bool :=
  str_in (lower (fst test)) (lower (snd test)).

(** The set of records of a response: the ['threat'] array, empty when
    the key is missing. *)
Definition records (r : Response) : list Threat :=
  match threat r with
  | Some l => l
  | None => []
  end.

(** The lines of the 4-column, active-only report. *)
Definition active_schema (l : Line) : bool :=
  match l with
  | ActiveHeader | ActiveCsvRow _ _ _ _ | ActiveHumanRow _ _ _ _
  | ActiveSummary _ _ _ | CsvWritten _ => true
  | _ => false
  end.

(** The data rows of the active-only report. *)
Definition active_row (l : Line) : bool :=
  match l with
  | ActiveCsvRow _ _ _ _ | ActiveHumanRow _ _ _ _ => true
  | _ => false
  end.

(** The calls to the full-history service. *)
Definition is_querytide (c : ApiCall) : bool :=
  match c with
  | QueryTide _ _ => true
  | _ => false
  end.

(** The number of entries of [activethreats] whose count is positive. *)
Definition count_active (activethreats : dict ActiveEntry) : Z :=
  Z.of_nat (List.length (filter (fun e => 0 <? slot0 (snd e)) activethreats)).

(** The world after one more remote call. *)
Definition called (c : ApiCall) (w : World) : World :=
  mkWorld (files w) (api_log w ++ [c]) (stdout w) (csv_out w) (bogus_out w).

(** The worlds after [rows] went to standard output, to the CSV file, and
    to the stream [gen_report] sends its rows to. *)
Definition printed (rows : list Line) (w : World) : World :=
  mkWorld (files w) (api_log w) (stdout w ++ rows) (csv_out w) (bogus_out w).

Definition written (rows : list Line) (w : World) : World :=
  mkWorld (files w) (api_log w) (stdout w) (csv_out w ++ rows) (bogus_out w).

Definition emit (filehandle : option string) (rows : list Line) (w : World)
  : World :=
  match filehandle with
  | Some _ => written rows w
  | None => printed rows w
  end.

(** The indicator and the action label of a row of the full report. *)
Definition row_label (l : Line) : option (string * string) :=
  match l with
  | FullCsvRow item action _ _ _ _ _ _ _ _ _
  | FullHumanRow item action _ _ _ _ _ _ _ _ _ => Some (item, action)
  | _ => None
  end.

(** The date slot [checktide] reports for the accumulator [t]. *)
Definition reported (t : datetime) : DateField :=
  if is_epoch (DateTime t) then NoDate else DateTime t.

(** [activethreats[item][0] > 0], false for a missing key. *)
Definition is_active (activethreats : dict ActiveEntry) (item : string)
  : bool :=
  match dict_get activethreats item with
  | Some a => slot0 a >? 0
  | None => false
  end.

(** A run on the local database leaves the files and the two report
    streams as they are and makes no call to the full-history service. *)
Definition offline_step_of (w w' : World) : Prop :=
  files w' = files w /\ stdout w' = stdout w /\ csv_out w' = csv_out w /\
  exists calls,
    api_log w' = (api_log w ++ calls)%list /\
    forallb (fun c => negb (is_querytide c)) calls = true.

(** The dossier answer lets [get_web_categories] return: the query
    failed, or the first result of the answer has a 'data'. *)
Definition has_data (query qtype : string) : bool :=
  let response := dossierquery query qtype in
  (negb (status_ok (dossier_status response)) ||
   match dossier_results response with
   | Some (first :: _) => is_some (result_data first)
   | _ => false
   end)%bool.

(** The keys of a dictionary after [d[k] = v]. *)
Fixpoint keys_add (keys : list string) (k : string) : list string :=
  match keys with
  | [] => [k]
  | k' :: keys' =>
      if String.eqb k' k then k' :: keys' else k' :: keys_add keys' k
  end.

(** The lines of the input that [main] looks up. *)
Definition is_valid (line : string) : bool :=
  negb (String.eqb (data_type (rstrip line)) "invalid").

(** The category lookups of a run on [file] find the data they read. *)
Definition lookups_have_data (webcat : bool) (file : list string) : Prop :=
  webcat = true ->
  forall line,
    In line file -> data_type (rstrip line) = "host" ->
    has_data (rstrip line) "host" = true.

(** The lookups leave the files and the two report streams alone. *)
Definition frame (w w' : World) : Prop :=
  files w' = files w /\ stdout w' = stdout w /\ csv_out w' = csv_out w.

(** What the loop of [main] maintains: [activethreats] has one entry for
    each indicator, and [totalthreats] has the same keys in a full run and
    none in an active-only run. *)
Definition run_inv (activeonly : bool) (st : Locals) : Prop :=
  NoDup (dict_keys (activethreats st)) /\
  if activeonly then totalthreats st = []
  else dict_keys (totalthreats st) = dict_keys (activethreats st).

(** The distinct elements of a list, each at its first occurrence. *)
Definition dedup (l : list string) : list string :=
  fold_left keys_add l [].

(** The most recent of the seed and the timestamps of a list. *)
Definition latest (ts : list datetime) : datetime :=
  fold_left Z.max ts epoch.

(** The expiration timestamps the records of a list carry. *)
Definition expirations (threats : list Threat) : list datetime :=
  flat_map (fun th => match expiration th with
                      | Some e => [e]
                      | None => []
                      end) threats.

(** A string of white space only (the empty string included). *)
Fixpoint all_space (s : string) : bool :=
  match s with
  | EmptyString => true
  | String c s' => (isspace c && all_space s')%bool
  end.

(** The indicator of a data row of a report. *)
Definition row_item (l : Line) : option string :=
  match l with
  | ActiveCsvRow item _ _ _ | ActiveHumanRow item _ _ _
  | FullCsvRow item _ _ _ _ _ _ _ _ _ _
  | FullHumanRow item _ _ _ _ _ _ _ _ _ _ => Some item
  | _ => None
  end.

(** [totalthreats[item][0] > 0], false for a missing key. *)
Definition has_threats (totalthreats : dict TideResult) (item : string)
  : bool :=
  match dict_get totalthreats item with
  | Some t => t_totalthreats t >? 0
  | None => false
  end.

(** The number of entries of [totalthreats] whose count is positive. *)
Definition count_threats (totalthreats : dict TideResult) : Z :=
  Z.of_nat (List.length
              (filter (fun e => 0 <? t_totalthreats (snd e)) totalthreats)).

(** The row of the active-only report for an entry of [activethreats]. *)
Definition active_line (filehandle : option string)
    (e : string * ActiveEntry) : Line :=
  match filehandle with
  | Some _ => ActiveCsvRow (fst e) (slot0 (snd e)) (slot1 (snd e))
                           (slot2 (snd e))
  | None => ActiveHumanRow (fst e) (slot0 (snd e)) (slot1 (snd e))
                           (slot2 (snd e))
  end.

(** The world after the remote calls [calls] and the bogus lines [bogus]
    of a stretch of the input. *)
Definition ran (calls : list ApiCall) (bogus : list (Z * string))
    (w : World) : World :=
  mkWorld (files w) (api_log w ++ calls) (stdout w) (csv_out w)
          (bogus_out w ++ bogus).

(** What [output_bogus] writes for the lines that follow line [n]: each
    invalid line with its number. *)
Fixpoint bogus_lines_of (n : Z) (lines : list string) : list (Z * string) :=
  match lines with
  | [] => []
  | line :: lines' =>
      if is_valid line then bogus_lines_of (n + 1) lines'
      else (n + 1, rstrip line) :: bogus_lines_of (n + 1) lines'
  end.

(** The indicators of an input: the valid lines, stripped, each at its
    first occurrence. *)
Definition indicators (lines : list string) : list string :=
  dedup (map rstrip (filter is_valid lines)).

(** What [checkoffline] returns for an indicator, as an entry of
    [activethreats]. *)
Definition local_entry (db_cursor : Cursor) (db_table : Table)
    (query : string) : ActiveEntry :=
  let rows := db_query db_cursor db_table (data_type query) query in
  FromLocal (Z.of_nat (List.length rows)) (dedup (map row_profile rows))
            (dedup (map row_class rows)).

(* --------------------------------------------------------------------- *)
(** *** Strings *)
(* --------------------------------------------------------------------- *)

Lemma startswith_spec (p s : string) :
  startswith p s = true <-> exists post, s = p ++ post.
Proof.
  revert s. induction p as [|a p IH]; intros s; simpl.
  - split; [intros _; exists s; reflexivity | reflexivity].
  - destruct s as [|b s].
    + split; [discriminate | intros [post H]; discriminate].
    + rewrite andb_true_iff, Ascii.eqb_eq, IH. split.
      * intros [-> [post ->]]. exists post. reflexivity.
      * intros [post H]. injection H as -> ->. split; [reflexivity|].
        exists post. reflexivity.
Qed.

Lemma str_in_unfold (needle hay : string) :
  str_in needle hay =
  if startswith needle hay then true
  else match hay with
       | EmptyString => false
       | String _ hay' => str_in needle hay'
       end.
Proof. destruct hay; reflexivity. Qed.

Lemma str_in_spec (needle hay : string) :
  str_in needle hay = true <-> occurs_in needle hay.
Proof.
  unfold occurs_in. split.
  - induction hay as [|c hay IH]; rewrite str_in_unfold;
      destruct (startswith needle _) eqn:E.
    + intros _. apply startswith_spec in E. destruct E as [post E].
      exists EmptyString, post. exact E.
    + discriminate.
    + intros _. apply startswith_spec in E. destruct E as [post E].
      exists EmptyString, post. exact E.
    + intros H. destruct (IH H) as [pre [post E']].
      exists (String c pre), post. simpl. rewrite E'. reflexivity.
  - intros [pre [post E]]. revert hay E.
    induction pre as [|c pre IH]; intros hay E; rewrite str_in_unfold.
    + simpl in E. replace (startswith needle hay) with true; [reflexivity|].
      symmetry. apply startswith_spec. exists post. exact E.
    + destruct (startswith needle hay); [reflexivity|].
      subst hay. simpl. apply IH. reflexivity.
Qed.

(* --------------------------------------------------------------------- *)
(** *** The category evaluator *)
(* --------------------------------------------------------------------- *)

Lemma webcat_cats_false (item : string) (webcats : list string) tests :
  webcat_cats item webcats = (false, tests) ->
  forall cat, In cat webcats -> hit (item, cat) = false.
Proof.
  revert tests. induction webcats as [|c webcats IH]; intros tests H cat Hin.
  - destruct Hin.
  - simpl in H. destruct (str_in (lower item) (lower c)) eqn:E;
      [discriminate|].
    destruct (webcat_cats item webcats) as [flag tests'] eqn:E'.
    injection H as -> _. destruct Hin as [<- | Hin].
    + exact E.
    + exact (IH _ eq_refl cat Hin).
Qed.

Lemma webcat_cats_true (item : string) (webcats : list string) tests :
  webcat_cats item webcats = (true, tests) ->
  exists earlier cat,
    tests = (earlier ++ [(item, cat)])%list /\ In cat webcats /\
    hit (item, cat) = true /\ forallb (fun t => negb (hit t)) earlier = true.
Proof.
  revert tests. induction webcats as [|c webcats IH]; intros tests H.
  - discriminate.
  - simpl in H. destruct (str_in (lower item) (lower c)) eqn:E.
    + injection H as <-. exists [], c. simpl. auto.
    + destruct (webcat_cats item webcats) as [flag tests'] eqn:E'.
      injection H as -> <-.
      destruct (IH _ eq_refl) as [earlier [cat [-> [Hin [Hhit Hall]]]]].
      exists ((item, c) :: earlier), cat.
      repeat split; auto; [right; exact Hin|].
      change (negb (str_in (lower item) (lower c)) &&
              forallb (fun t => negb (hit t)) earlier = true)%bool.
      rewrite E. exact Hall.
Qed.

Lemma webcat_cats_tests_false (item : string) (webcats : list string) tests :
  webcat_cats item webcats = (false, tests) ->
  forallb (fun t => negb (hit t)) tests = true.
Proof.
  revert tests. induction webcats as [|c webcats IH]; intros tests H.
  - injection H as <-. reflexivity.
  - simpl in H. destruct (str_in (lower item) (lower c)) eqn:E;
      [discriminate|].
    destruct (webcat_cats item webcats) as [flag tests'] eqn:E'.
    injection H as -> <-.
    change (negb (str_in (lower item) (lower c)) &&
            forallb (fun t => negb (hit t)) tests' = true)%bool.
    rewrite E. exact (IH _ eq_refl).
Qed.

Lemma webcat_items_false (block_list webcats : list string) tests :
  webcat_items block_list webcats = (false, tests) ->
  forall item cat,
    In item block_list -> In cat webcats -> hit (item, cat) = false.
Proof.
  revert tests. induction block_list as [|i block_list IH];
    intros tests H item cat Hi Hc.
  - destruct Hi.
  - simpl in H. destruct (webcat_cats i webcats) as [flag t1] eqn:E1.
    destruct flag; [discriminate|].
    destruct (webcat_items block_list webcats) as [result t2] eqn:E2.
    injection H as -> _. destruct Hi as [<- | Hi].
    + exact (webcat_cats_false _ _ _ E1 cat Hc).
    + exact (IH _ eq_refl item cat Hi Hc).
Qed.

Lemma webcat_items_true (block_list webcats : list string) tests :
  webcat_items block_list webcats = (true, tests) ->
  exists earlier item cat,
    tests = (earlier ++ [(item, cat)])%list /\
    In item block_list /\ In cat webcats /\
    hit (item, cat) = true /\ forallb (fun t => negb (hit t)) earlier = true.
Proof.
  revert tests. induction block_list as [|i block_list IH]; intros tests H.
  - discriminate.
  - simpl in H. destruct (webcat_cats i webcats) as [flag t1] eqn:E1.
    destruct flag.
    + injection H as <-.
      destruct (webcat_cats_true _ _ _ E1)
        as [earlier [cat [-> [Hin [Hhit Hall]]]]].
      exists earlier, i, cat. simpl. auto.
    + destruct (webcat_items block_list webcats) as [result t2] eqn:E2.
      injection H as -> <-.
      destruct (IH _ eq_refl)
        as [earlier [item [cat [-> [Hi [Hc [Hhit Hall]]]]]]].
      exists (t1 ++ earlier)%list, item, cat. rewrite app_assoc.
      repeat split; simpl; auto.
      rewrite forallb_app, Hall, (webcat_cats_tests_false _ _ _ E1).
      reflexivity.
Qed.

(** C8.  [checkwebcat] answers true exactly when some entry of the block
    list occurs, both sides lowered, inside some category name; an empty
    or missing category list gives false; and when the answer is true the
    last test evaluated is the first one that succeeds. *)
Theorem C8_checkwebcat_substring_match :
  forall (webcats block_list : list string),
    (checkwebcat (Some webcats) block_list = true <->
     exists item cat,
       In item block_list /\ In cat webcats /\
       occurs_in (lower item) (lower cat)) /\
    checkwebcat (Some []) block_list = false /\
    checkwebcat None block_list = false /\
    (forall tests,
        checkwebcat_run (Some webcats) block_list = (true, tests) ->
        exists earlier item cat,
          tests = (earlier ++ [(item, cat)])%list /\
          hit (item, cat) = true /\
          forallb (fun t => negb (hit t)) earlier = true).
Proof.
  intros webcats block_list. repeat split.
  - unfold checkwebcat, checkwebcat_run. destruct webcats as [|c webcats].
    + discriminate.
    + destruct (webcat_items block_list (c :: webcats)) as [r tests] eqn:E.
      simpl. intros ->.
      destruct (webcat_items_true _ _ _ E)
        as [earlier [item [cat [_ [Hi [Hc [Hhit _]]]]]]].
      exists item, cat. repeat split; auto. apply str_in_spec. exact Hhit.
  - intros [item [cat [Hi [Hc Hocc]]]].
    unfold checkwebcat, checkwebcat_run. destruct webcats as [|c webcats].
    + destruct Hc.
    + destruct (webcat_items block_list (c :: webcats)) as [r tests] eqn:E.
      simpl. destruct r; [reflexivity|].
      pose proof (webcat_items_false _ _ _ E item cat Hi Hc) as Hno.
      apply str_in_spec in Hocc. unfold hit in Hno. simpl in Hno.
      congruence.
  - unfold checkwebcat_run. destruct webcats as [|c webcats];
      [discriminate|].
    intros tests H.
    destruct (webcat_items_true _ _ _ H)
      as [earlier [item [cat [-> [_ [_ [Hhit Hall]]]]]]].
    exists earlier, item, cat. auto.
Qed.

(* --------------------------------------------------------------------- *)
(** *** The aggregation loops *)
(* --------------------------------------------------------------------- *)

Lemma active_loop_count (threats : list Threat) n ps cs n' ps' cs' :
  fold_left active_step threats (n, ps, cs) = (n', ps', cs') ->
  n' = n + Z.of_nat (List.length threats).
Proof.
  revert n ps cs. induction threats as [|th threats IH]; intros n ps cs H.
  - injection H as <- _ _. simpl. lia.
  - simpl in H. apply IH in H. rewrite H. simpl List.length. lia.
Qed.

Lemma offline_loop_count (rows : list DbRow) n ps cs n' ps' cs' :
  fold_left offline_step rows (n, ps, cs) = (n', ps', cs') ->
  n' = n + Z.of_nat (List.length rows).
Proof.
  revert n ps cs. induction rows as [|row rows IH]; intros n ps cs H.
  - injection H as <- _ _. simpl. lia.
  - simpl in H. apply IH in H. rewrite H. simpl List.length. lia.
Qed.

Lemma tide_loop_spec (threats : list Threat) n ps cs la le n' ps' cs' la' le' :
  fold_left tide_step threats (n, ps, cs, la, le) = (n', ps', cs', la', le') ->
  n' = n + Z.of_nat (List.length threats) /\
  ((forall th, In th threats -> expiration th = None) -> le' = le).
Proof.
  revert n ps cs la le.
  induction threats as [|th threats IH]; intros n ps cs la le H.
  - injection H as <- _ _ _ <-. simpl. split; [lia | reflexivity].
  - simpl in H. apply IH in H. destruct H as [Hn Hle]. split.
    + rewrite Hn. simpl List.length. lia.
    + intros Hnone. rewrite Hle.
      * rewrite (Hnone th (or_introl eq_refl)). reflexivity.
      * intros th' Hin. apply Hnone. right. exact Hin.
Qed.

(* --------------------------------------------------------------------- *)
(** *** The active-state adapter, case by case *)
(* --------------------------------------------------------------------- *)

Lemma records_nil (r : Response) :
  records r = [] -> threat r = None \/ threat r = Some [].
Proof.
  unfold records. destruct (threat r) as [l|]; [|auto].
  intros ->. auto.
Qed.

Lemma checkactive_failed depth query qtype check_domain domain_checked w :
  status_ok (status_code (querytidestate qtype query)) = false ->
  checkactive (S depth) query qtype check_domain domain_checked w =
  (Ret (mkActive (-1) (ProfileMsg api_exception) [] domain_checked),
   called (QueryTideState qtype query) w).
Proof.
  intros H. simpl. unfold bind, log_call. rewrite H. reflexivity.
Qed.

Lemma checkactive_found depth query qtype check_domain domain_checked w :
  status_ok (status_code (querytidestate qtype query)) = true ->
  records (querytidestate qtype query) <> [] ->
  exists profiles tclasses,
    checkactive (S depth) query qtype check_domain domain_checked w =
    (Ret (mkActive
            (Z.of_nat (List.length (records (querytidestate qtype query))))
            (ProfileList profiles) tclasses domain_checked),
     called (QueryTideState qtype query) w).
Proof.
  intros Hok Hrec. simpl. unfold bind, log_call. rewrite Hok.
  unfold records in *.
  destruct (threat (querytidestate qtype query)) as [[|th ths]|];
    try congruence.
  match goal with
  | |- context [fold_left active_step ?l ?a] =>
      destruct (fold_left active_step l a) as [[n ps] cs] eqn:E
  end.
  apply active_loop_count in E. subst n.
  exists (getkeys ps), (getkeys cs). reflexivity.
Qed.

Lemma checkactive_nothing depth query qtype check_domain domain_checked w :
  status_ok (status_code (querytidestate qtype query)) = true ->
  records (querytidestate qtype query) = [] ->
  check_domain = false \/ strip_host query = query ->
  checkactive (S depth) query qtype check_domain domain_checked w =
  (Ret (mkActive 0 (ProfileList []) [] domain_checked),
   called (QueryTideState qtype query) w).
Proof.
  intros Hok Hrec Hno. simpl. unfold bind, log_call. rewrite Hok.
  assert (Hback :
    (if check_domain
     then if negb (String.eqb (strip_host query) query)
          then checkactive depth (strip_host query) qtype false true
          else ret (mkActive 0 (ProfileList []) [] domain_checked)
     else ret (mkActive 0 (ProfileList []) [] domain_checked))
    = ret (mkActive 0 (ProfileList []) [] domain_checked)).
  { destruct Hno as [-> | ->]; [reflexivity|].
    rewrite String.eqb_refl. destruct check_domain; reflexivity. }
  destruct (records_nil _ Hrec) as [-> | ->]; rewrite Hback; reflexivity.
Qed.

Lemma checkactive_fallback depth query qtype domain_checked w :
  status_ok (status_code (querytidestate qtype query)) = true ->
  records (querytidestate qtype query) = [] ->
  strip_host query <> query ->
  checkactive (S depth) query qtype true domain_checked w =
  checkactive depth (strip_host query) qtype false true
              (called (QueryTideState qtype query) w).
Proof.
  intros Hok Hrec Hne. simpl. unfold bind, log_call. rewrite Hok.
  apply String.eqb_neq in Hne. rewrite Hne.
  destruct (records_nil _ Hrec) as [-> | ->]; reflexivity.
Qed.

(** A call with the fallback disabled is answered in its own frame, with
    one query. *)
Lemma checkactive_direct depth query qtype domain_checked w :
  exists r,
    checkactive (S depth) query qtype false domain_checked w =
    (Ret r, called (QueryTideState qtype query) w) /\
    a_domain_checked r = domain_checked.
Proof.
  destruct (status_ok (status_code (querytidestate qtype query))) eqn:Hok.
  - destruct (records (querytidestate qtype query)) as [|th ths] eqn:Hrec.
    + eexists. split; [apply checkactive_nothing; auto|reflexivity].
    + destruct (checkactive_found depth query qtype false domain_checked w Hok)
        as [ps [cs H]]; [congruence|].
      eexists. split; [exact H|reflexivity].
  - eexists. split; [apply checkactive_failed; exact Hok|reflexivity].
Qed.

(* --------------------------------------------------------------------- *)
(** *** The full-history adapter, case by case *)
(* --------------------------------------------------------------------- *)

Lemma reported_not_epoch (t : datetime) : reported t <> DateTime epoch.
Proof.
  unfold reported, is_epoch. destruct (t =? epoch) eqn:E; [discriminate|].
  apply Z.eqb_neq in E. congruence.
Qed.

Lemma checktide_failed depth query qtype check_domain domain_checked w :
  status_ok (status_code (querytide qtype query)) = false ->
  checktide (S depth) query qtype check_domain domain_checked w =
  (Ret (mkTide (-1) (ProfileMsg api_exception) [] NoDate NoDate
               domain_checked),
   called (QueryTide qtype query) w).
Proof.
  intros H. simpl. unfold bind, log_call. rewrite H. reflexivity.
Qed.

Lemma checktide_found depth query qtype check_domain domain_checked w :
  status_ok (status_code (querytide qtype query)) = true ->
  records (querytide qtype query) <> [] ->
  exists profiles tclasses la le,
    checktide (S depth) query qtype check_domain domain_checked w =
    (Ret (mkTide (Z.of_nat (List.length (records (querytide qtype query))))
                 (ProfileList profiles) tclasses (reported la) (reported le)
                 domain_checked),
     called (QueryTide qtype query) w) /\
    ((forall th, In th (records (querytide qtype query)) ->
                 expiration th = None) -> le = epoch).
Proof.
  intros Hok Hrec. simpl. unfold bind, log_call. rewrite Hok.
  unfold records in *.
  destruct (threat (querytide qtype query)) as [[|th ths]|];
    try congruence.
  match goal with
  | |- context [fold_left tide_step ?l ?a] =>
      destruct (fold_left tide_step l a) as [[[[n ps] cs] la] le] eqn:E
  end.
  apply tide_loop_spec in E. destruct E as [-> Hle].
  exists (getkeys ps), (getkeys cs), la, le. split; [reflexivity|exact Hle].
Qed.

Lemma checktide_nothing depth query qtype check_domain domain_checked w :
  status_ok (status_code (querytide qtype query)) = true ->
  records (querytide qtype query) = [] ->
  check_domain = false \/ strip_host query = query ->
  checktide (S depth) query qtype check_domain domain_checked w =
  (Ret (mkTide 0 (ProfileList []) [] NoDate NoDate domain_checked),
   called (QueryTide qtype query) w).
Proof.
  intros Hok Hrec Hno. simpl. unfold bind, log_call. rewrite Hok.
  destruct (records_nil _ Hrec) as [-> | ->];
    (destruct Hno as [-> | ->];
     [reflexivity
     |rewrite String.eqb_refl; destruct check_domain; reflexivity]).
Qed.

Lemma checktide_fallback depth query qtype domain_checked w r w' :
  status_ok (status_code (querytide qtype query)) = true ->
  records (querytide qtype query) = [] ->
  strip_host query <> query ->
  checktide depth (strip_host query) qtype false true
            (called (QueryTide qtype query) w) = (Ret r, w') ->
  t_last_available r <> DateTime epoch ->
  t_last_expiration r <> DateTime epoch ->
  checktide (S depth) query qtype true domain_checked w = (Ret r, w').
Proof.
  intros Hok Hrec Hne Hin Ha He. simpl. unfold bind, log_call. rewrite Hok.
  apply String.eqb_neq in Hne. rewrite Hne. unfold called in Hin.
  assert (Hna : is_epoch (t_last_available r) = false).
  { destruct (t_last_available r) as [t|]; [|reflexivity]. simpl.
    apply Z.eqb_neq. congruence. }
  assert (Hne' : is_epoch (t_last_expiration r) = false).
  { destruct (t_last_expiration r) as [t|]; [|reflexivity]. simpl.
    apply Z.eqb_neq. congruence. }
  destruct (records_nil _ Hrec) as [-> | ->]; simpl; rewrite Hin; simpl;
    rewrite Hna, Hne'; destruct r; reflexivity.
Qed.

Lemma checktide_fallback_raises query qtype domain_checked w :
  status_ok (status_code (querytide qtype query)) = true ->
  records (querytide qtype query) = [] ->
  strip_host query <> query ->
  checktide 1 query qtype true domain_checked w =
  (Raise RecursionError, called (QueryTide qtype query) w).
Proof.
  intros Hok Hrec Hne. simpl. unfold bind, log_call. rewrite Hok.
  apply String.eqb_neq in Hne. rewrite Hne.
  destruct (records_nil _ Hrec) as [-> | ->]; reflexivity.
Qed.

(** A call with the fallback disabled is answered in its own frame, with
    one query, and neither date is the seed of the accumulators. *)
Lemma checktide_direct depth query qtype domain_checked w :
  exists r,
    checktide (S depth) query qtype false domain_checked w =
    (Ret r, called (QueryTide qtype query) w) /\
    t_domain_checked r = domain_checked /\
    t_last_available r <> DateTime epoch /\
    t_last_expiration r <> DateTime epoch.
Proof.
  destruct (status_ok (status_code (querytide qtype query))) eqn:Hok.
  - destruct (records (querytide qtype query)) as [|th ths] eqn:Hrec.
    + eexists. split; [apply checktide_nothing; auto|].
      simpl. repeat split; discriminate.
    + destruct (checktide_found depth query qtype false domain_checked w Hok)
        as [ps [cs [la [le [H _]]]]]; [congruence|].
      eexists. split; [exact H|]. simpl.
      repeat split; apply reported_not_epoch.
  - eexists. split; [apply checktide_failed; exact Hok|].
    simpl. repeat split; discriminate.
Qed.

(** Either [checktide] answers from its own query, or it is in the one
    situation in which it falls back on the parent domain. *)
Lemma checktide_cases depth query qtype check_domain domain_checked w :
  (exists r,
      checktide (S depth) query qtype check_domain domain_checked w =
      (Ret r, called (QueryTide qtype query) w) /\
      t_domain_checked r = domain_checked /\
      t_last_available r <> DateTime epoch /\
      t_last_expiration r <> DateTime epoch /\
      ((forall th, In th (records (querytide qtype query)) ->
                   expiration th = None) ->
       t_last_expiration r = NoDate) /\
      (records (querytide qtype query) = [] -> t_last_available r = NoDate))
  \/
  (check_domain = true /\
   status_ok (status_code (querytide qtype query)) = true /\
   records (querytide qtype query) = [] /\
   strip_host query <> query).
Proof.
  destruct (status_ok (status_code (querytide qtype query))) eqn:Hok.
  - destruct (records (querytide qtype query)) as [|th ths] eqn:Hrec.
    + destruct check_domain.
      * destruct (String.eqb_spec (strip_host query) query) as [Heq|Hne].
        -- left. eexists. split; [apply checktide_nothing; auto|].
           simpl. repeat split; auto; discriminate.
        -- right. auto.
      * left. eexists. split; [apply checktide_nothing; auto|].
        simpl. repeat split; auto; discriminate.
    + left.
      destruct (checktide_found depth query qtype check_domain
                                domain_checked w Hok)
        as [ps [cs [la [le [H Hle]]]]]; [congruence|].
      eexists. split; [exact H|]. simpl.
      repeat split; try apply reported_not_epoch.
      * intros Hnone. rewrite Hle; [reflexivity|].
        rewrite Hrec in *. exact Hnone.
      * discriminate.
  - left. eexists. split; [apply checktide_failed; exact Hok|].
    simpl. repeat split; auto; discriminate.
Qed.

(** The same alternative for [checkactive]. *)
Lemma checkactive_cases depth query qtype check_domain domain_checked w :
  (exists r,
      checkactive (S depth) query qtype check_domain domain_checked w =
      (Ret r, called (QueryTideState qtype query) w) /\
      a_domain_checked r = domain_checked)
  \/
  (check_domain = true /\
   status_ok (status_code (querytidestate qtype query)) = true /\
   records (querytidestate qtype query) = [] /\
   strip_host query <> query).
Proof.
  destruct (status_ok (status_code (querytidestate qtype query))) eqn:Hok.
  - destruct (records (querytidestate qtype query)) as [|th ths] eqn:Hrec.
    + destruct check_domain.
      * destruct (String.eqb_spec (strip_host query) query) as [Heq|Hne].
        -- left. eexists. split; [apply checkactive_nothing; auto|].
           reflexivity.
        -- right. auto.
      * left. eexists. split; [apply checkactive_nothing; auto|].
        reflexivity.
    + left.
      destruct (checkactive_found depth query qtype check_domain
                                  domain_checked w Hok)
        as [ps [cs H]]; [congruence|].
      eexists. split; [exact H|reflexivity].
  - left. eexists. split; [apply checkactive_failed; exact Hok|reflexivity].
Qed.

(** The fallback of [checktide] hands back what the call on the parent
    domain returns. *)
Lemma checktide_fallback_eq depth query qtype domain_checked w :
  status_ok (status_code (querytide qtype query)) = true ->
  records (querytide qtype query) = [] ->
  strip_host query <> query ->
  checktide (S (S depth)) query qtype true domain_checked w =
  checktide (S depth) (strip_host query) qtype false true
            (called (QueryTide qtype query) w).
Proof.
  intros Hok Hrec Hne.
  destruct (checktide_direct depth (strip_host query) qtype true
                             (called (QueryTide qtype query) w))
    as [r [H [_ [Ha He]]]].
  rewrite H. exact (checktide_fallback _ _ _ _ _ _ _ Hok Hrec Hne H Ha He).
Qed.

(* --------------------------------------------------------------------- *)
(** *** Properties of the two remote adapters *)
(* --------------------------------------------------------------------- *)

(** C2.  A query answered with a status outside [return_codes_ok] makes
    the adapter return the count -1 and the message
    'API Exception Occurred' in the profile slot, in [checkactive] and in
    [checktide] alike, whether it is the query on the indicator or the
    query on its parent domain; that result has neither the count 0 nor
    the empty profile list of the outcome without records. *)
Theorem C2_failed_query_sentinel :
  forall depth query qtype check_domain domain_checked w,
    (status_ok (status_code (querytidestate qtype query)) = false ->
     exists r,
       checkactive (S depth) query qtype check_domain domain_checked w =
       (Ret r, called (QueryTideState qtype query) w) /\
       r = mkActive (-1) (ProfileMsg "API Exception Occurred") []
                    domain_checked /\
       a_totalthreats r <> 0 /\ a_profiles r <> ProfileList []) /\
    (status_ok (status_code (querytide qtype query)) = false ->
     exists r,
       checktide (S depth) query qtype check_domain domain_checked w =
       (Ret r, called (QueryTide qtype query) w) /\
       r = mkTide (-1) (ProfileMsg "API Exception Occurred") [] NoDate
                  NoDate domain_checked /\
       t_totalthreats r <> 0 /\ t_profiles r <> ProfileList []) /\
    (status_ok (status_code (querytidestate qtype query)) = true ->
     records (querytidestate qtype query) = [] ->
     strip_host query <> query ->
     status_ok (status_code (querytidestate qtype (strip_host query)))
       = false ->
     checkactive (S (S depth)) query qtype true domain_checked w =
     (Ret (mkActive (-1) (ProfileMsg "API Exception Occurred") [] true),
      called (QueryTideState qtype (strip_host query))
             (called (QueryTideState qtype query) w))) /\
    (status_ok (status_code (querytide qtype query)) = true ->
     records (querytide qtype query) = [] ->
     strip_host query <> query ->
     status_ok (status_code (querytide qtype (strip_host query))) = false ->
     checktide (S (S depth)) query qtype true domain_checked w =
     (Ret (mkTide (-1) (ProfileMsg "API Exception Occurred") [] NoDate
                  NoDate true),
      called (QueryTide qtype (strip_host query))
             (called (QueryTide qtype query) w))).
Proof.
  intros depth query qtype check_domain domain_checked w.
  split; [|split; [|split]].
  - intros H. eexists. split; [apply checkactive_failed; exact H|].
    repeat split; simpl; discriminate.
  - intros H. eexists. split; [apply checktide_failed; exact H|].
    repeat split; simpl; discriminate.
  - intros Hok Hrec Hne Hfail.
    rewrite checkactive_fallback by assumption.
    apply checkactive_failed. exact Hfail.
  - intros Hok Hrec Hne Hfail.
    rewrite checktide_fallback_eq by assumption.
    apply checktide_failed. exact Hfail.
Qed.

(** C3.  A call with the fallback disabled is answered in its own frame
    with a single query; the call a fallback makes is such a call, on the
    parent domain; hence every call of [checkactive] and of [checktide]
    returns within two frames, after one query or after two. *)
Theorem C3_fallback_at_most_once :
  forall depth query qtype check_domain domain_checked w,
    (exists r,
        checkactive (S depth) query qtype false domain_checked w =
        (Ret r, called (QueryTideState qtype query) w)) /\
    (exists r,
        checktide (S depth) query qtype false domain_checked w =
        (Ret r, called (QueryTide qtype query) w)) /\
    (exists r w',
        checkactive (S (S depth)) query qtype check_domain domain_checked w
        = (Ret r, w') /\
        (w' = called (QueryTideState qtype query) w \/
         checkactive (S (S depth)) query qtype check_domain domain_checked w
         = checkactive (S depth) (strip_host query) qtype false true
                       (called (QueryTideState qtype query) w) /\
         w' = called (QueryTideState qtype (strip_host query))
                     (called (QueryTideState qtype query) w))) /\
    (exists r w',
        checktide (S (S depth)) query qtype check_domain domain_checked w
        = (Ret r, w') /\
        (w' = called (QueryTide qtype query) w \/
         checktide (S (S depth)) query qtype check_domain domain_checked w
         = checktide (S depth) (strip_host query) qtype false true
                     (called (QueryTide qtype query) w) /\
         w' = called (QueryTide qtype (strip_host query))
                     (called (QueryTide qtype query) w))).
Proof.
  intros depth query qtype check_domain domain_checked w.
  split; [|split; [|split]].
  - destruct (checkactive_direct depth query qtype domain_checked w)
      as [r [H _]].
    exists r. exact H.
  - destruct (checktide_direct depth query qtype domain_checked w)
      as [r [H _]].
    exists r. exact H.
  - destruct (checkactive_cases (S depth) query qtype check_domain
                                domain_checked w)
      as [[r [H _]] | [-> [Hok [Hrec Hne]]]].
    + exists r, (called (QueryTideState qtype query) w). auto.
    + destruct (checkactive_direct depth (strip_host query) qtype true
                  (called (QueryTideState qtype query) w)) as [r [H _]].
      pose proof (checkactive_fallback (S depth) query qtype domain_checked
                                       w Hok Hrec Hne) as Heq.
      exists r. eexists. split; [rewrite Heq; exact H|].
      right. split; [exact Heq|reflexivity].
  - destruct (checktide_cases (S depth) query qtype check_domain
                              domain_checked w)
      as [[r [H _]] | [-> [Hok [Hrec Hne]]]].
    + exists r, (called (QueryTide qtype query) w). auto.
    + destruct (checktide_direct depth (strip_host query) qtype true
                  (called (QueryTide qtype query) w)) as [r [H _]].
      pose proof (checktide_fallback_eq depth query qtype domain_checked
                                        w Hok Hrec Hne) as Heq.
      exists r. eexists. split; [rewrite Heq; exact H|].
      right. split; [exact Heq|reflexivity].
Qed.

(** C4.  For an indicator without direct records, looked up with the
    fallback enabled as [main] does (the flag [domain_checked] at its
    default): when [strip_host] changes the indicator the adapter returns
    what the call on the parent domain returns, and that result has
    [domain_checked] true; when [strip_host] leaves the indicator
    unchanged the adapter makes its one query and returns the count 0 with
    [domain_checked] false. *)
Theorem C4_domain_fallback :
  forall depth query qtype w,
    (status_ok (status_code (querytidestate qtype query)) = true ->
     records (querytidestate qtype query) = [] ->
     (strip_host query <> query ->
      exists r w',
        checkactive (S (S depth)) query qtype true false w = (Ret r, w') /\
        checkactive (S depth) (strip_host query) qtype false true
                    (called (QueryTideState qtype query) w) = (Ret r, w') /\
        w' = called (QueryTideState qtype (strip_host query))
                    (called (QueryTideState qtype query) w) /\
        a_domain_checked r = true) /\
     (strip_host query = query ->
      checkactive (S depth) query qtype true false w =
      (Ret (mkActive 0 (ProfileList []) [] false),
       called (QueryTideState qtype query) w))) /\
    (status_ok (status_code (querytide qtype query)) = true ->
     records (querytide qtype query) = [] ->
     (strip_host query <> query ->
      exists r w',
        checktide (S (S depth)) query qtype true false w = (Ret r, w') /\
        checktide (S depth) (strip_host query) qtype false true
                  (called (QueryTide qtype query) w) = (Ret r, w') /\
        w' = called (QueryTide qtype (strip_host query))
                    (called (QueryTide qtype query) w) /\
        t_domain_checked r = true) /\
     (strip_host query = query ->
      checktide (S depth) query qtype true false w =
      (Ret (mkTide 0 (ProfileList []) [] NoDate NoDate false),
       called (QueryTide qtype query) w))).
Proof.
  intros depth query qtype w. split; intros Hok Hrec; split.
  - intros Hne.
    destruct (checkactive_direct depth (strip_host query) qtype true
                (called (QueryTideState qtype query) w)) as [r [H Hdc]].
    exists r. eexists. rewrite checkactive_fallback by assumption.
    repeat split; [exact H | exact H | exact Hdc].
  - intros Heq. apply checkactive_nothing; auto.
  - intros Hne.
    destruct (checktide_direct depth (strip_host query) qtype true
                (called (QueryTide qtype query) w)) as [r [H [Hdc _]]].
    exists r. eexists. rewrite checktide_fallback_eq by assumption.
    repeat split; [exact H | exact H | exact Hdc].
  - intros Heq. apply checktide_nothing; auto.
Qed.

Lemma checkoffline_spec query qtype (db_cursor : Cursor) (db_table : Table) w :
  exists profiles tclasses,
    checkoffline query qtype db_cursor db_table w =
    (Ret (Z.of_nat (List.length (db_query db_cursor db_table qtype query)),
          profiles, tclasses),
     called (DbQuery qtype query) w) /\
    (db_query db_cursor db_table qtype query = [] ->
     profiles = [] /\ tclasses = []).
Proof.
  unfold checkoffline, bind, log_call.
  destruct (db_query db_cursor db_table qtype query) as [|row rows] eqn:E.
  - exists [], []. split; [reflexivity|auto].
  - cbn [truthy_list].
    match goal with
    | |- context [fold_left offline_step ?l ?a] =>
        destruct (fold_left offline_step l a) as [[n ps] cs] eqn:El
    end.
    apply offline_loop_count in El. subst n.
    exists (getkeys ps), (getkeys cs). split; [reflexivity|discriminate].
Qed.

(** C6.  When an adapter call aggregates the records [R] of its query
    (the query succeeded and no fallback took its place), the count it
    returns is the number of records of [R]; for [R] empty the result is
    the count 0 with empty profiles and classes and, in [checktide], both
    dates absent.  The local adapter counts the rows of its query in the
    same way. *)
Theorem C6_count_is_number_of_records :
  forall depth query qtype check_domain domain_checked w,
    (status_ok (status_code (querytidestate qtype query)) = true ->
     records (querytidestate qtype query) <> [] \/
       check_domain = false \/ strip_host query = query ->
     exists r,
       checkactive (S depth) query qtype check_domain domain_checked w =
       (Ret r, called (QueryTideState qtype query) w) /\
       a_totalthreats r =
         Z.of_nat (List.length (records (querytidestate qtype query))) /\
       (records (querytidestate qtype query) = [] ->
        r = mkActive 0 (ProfileList []) [] domain_checked)) /\
    (status_ok (status_code (querytide qtype query)) = true ->
     records (querytide qtype query) <> [] \/
       check_domain = false \/ strip_host query = query ->
     exists r,
       checktide (S depth) query qtype check_domain domain_checked w =
       (Ret r, called (QueryTide qtype query) w) /\
       t_totalthreats r =
         Z.of_nat (List.length (records (querytide qtype query))) /\
       (records (querytide qtype query) = [] ->
        r = mkTide 0 (ProfileList []) [] NoDate NoDate domain_checked)) /\
    (forall (db_cursor : Cursor) (db_table : Table),
        exists profiles tclasses,
          checkoffline query qtype db_cursor db_table w =
          (Ret (Z.of_nat
                  (List.length (db_query db_cursor db_table qtype query)),
                profiles, tclasses),
           called (DbQuery qtype query) w) /\
          (db_query db_cursor db_table qtype query = [] ->
           profiles = [] /\ tclasses = [])).
Proof.
  intros depth query qtype check_domain domain_checked w.
  split; [|split].
  - intros Hok Hdirect.
    destruct (records (querytidestate qtype query)) as [|th ths] eqn:Hrec.
    + destruct Hdirect as [H | H]; [congruence|].
      eexists. split; [apply checkactive_nothing; auto|].
      split; [reflexivity|auto].
    + destruct (checkactive_found depth query qtype check_domain
                                  domain_checked w Hok)
        as [ps [cs H]]; [congruence|].
      rewrite Hrec in H. eexists. split; [exact H|].
      split; [reflexivity|discriminate].
  - intros Hok Hdirect.
    destruct (records (querytide qtype query)) as [|th ths] eqn:Hrec.
    + destruct Hdirect as [H | H]; [congruence|].
      eexists. split; [apply checktide_nothing; auto|].
      split; [reflexivity|auto].
    + destruct (checktide_found depth query qtype check_domain
                                domain_checked w Hok)
        as [ps [cs [la [le [H _]]]]]; [congruence|].
      rewrite Hrec in H. eexists. split; [exact H|].
      split; [reflexivity|discriminate].
  - intros db_cursor db_table. apply checkoffline_spec.
Qed.

(** C7.  [checktide] never returns the seed of its accumulators in a date
    slot.  It makes one query, on the indicator, or two, the second on the
    parent domain; when no record of the queries it made carries an
    expiration, [last_expiration] is the empty value, and when the queries
    it made have no record at all, so is [last_available]. *)
Theorem C7_dates_absent_not_epoch :
  forall depth query qtype check_domain domain_checked w,
  exists r w' queries,
    checktide (S (S depth)) query qtype check_domain domain_checked w
    = (Ret r, w') /\
    api_log w' = (api_log w ++ map (QueryTide qtype) queries)%list /\
    (queries = [query] \/ queries = [query; strip_host query]) /\
    t_last_expiration r <> DateTime epoch /\
    t_last_available r <> DateTime epoch /\
    ((forall q th, In q queries ->
                   In th (records (querytide qtype q)) ->
                   expiration th = None) ->
     t_last_expiration r = NoDate) /\
    ((forall q, In q queries -> records (querytide qtype q) = []) ->
     t_last_available r = NoDate).
Proof.
  intros depth query qtype check_domain domain_checked w.
  destruct (checktide_cases (S depth) query qtype check_domain
                            domain_checked w)
    as [[r [H [_ [Ha [He [Hnone Hempty]]]]]] | [-> [Hok [Hrec Hne]]]].
  - exists r. eexists. exists [query]. split; [exact H|].
    split; [reflexivity|]. split; [left; reflexivity|].
    split; [exact He|]. split; [exact Ha|]. split.
    + intros Hall. apply Hnone. intros th Hth.
      exact (Hall query th (or_introl eq_refl) Hth).
    + intros Hall. apply Hempty. exact (Hall query (or_introl eq_refl)).
  - destruct (checktide_cases depth (strip_host query) qtype false true
                (called (QueryTide qtype query) w))
      as [[r [H [_ [Ha [He [Hnone Hempty]]]]]] | [Habs _]];
      [|discriminate].
    exists r. eexists. exists [query; strip_host query].
    rewrite checktide_fallback_eq by assumption.
    split; [exact H|].
    split; [cbn [api_log called map]; rewrite <- app_assoc; reflexivity|].
    split; [right; reflexivity|].
    split; [exact He|]. split; [exact Ha|]. split.
    + intros Hall. apply Hnone. intros th Hth.
      exact (Hall (strip_host query) th (or_intror (or_introl eq_refl)) Hth).
    + intros Hall. apply Hempty.
      exact (Hall (strip_host query) (or_intror (or_introl eq_refl))).
Qed.

(* --------------------------------------------------------------------- *)
(** *** The list files and the report *)
(* --------------------------------------------------------------------- *)

Lemma fold_append_map {A B} (f : A -> B) (l : list A) (acc : list B) :
  fold_left (fun acc x => acc ++ [f x])%list l acc = (acc ++ map f l)%list.
Proof.
  revert acc. induction l as [|x l IH]; intros acc; simpl.
  - rewrite app_nil_r. reflexivity.
  - rewrite IH, <- app_assoc. reflexivity.
Qed.

Lemma load_list_present (w : World) (filename : string) ls :
  files w filename = Some ls ->
  load_list filename w = (Ret (map rstrip ls), w).
Proof.
  intros H. unfold load_list, bind, read_lines. rewrite H.
  rewrite fold_append_map. reflexivity.
Qed.

Lemma load_list_missing (w : World) (filename : string) :
  files w filename = None ->
  load_list filename w = (Raise (IOError filename), w).
Proof.
  intros H. unfold load_list, bind, read_lines. rewrite H. reflexivity.
Qed.

Lemma emit_nil filehandle (w : World) : emit filehandle [] w = w.
Proof.
  destruct w, filehandle; unfold emit, written, printed; simpl;
    rewrite app_nil_r; reflexivity.
Qed.

Lemma emit_app filehandle rows1 rows2 (w : World) :
  emit filehandle rows2 (emit filehandle rows1 w) =
  emit filehandle (rows1 ++ rows2) w.
Proof.
  destruct filehandle; unfold emit, written, printed; simpl;
    rewrite <- app_assoc; reflexivity.
Qed.

Lemma dict_get_key {V} (d : dict V) (k : string) :
  In k (dict_keys d) -> exists v, dict_get d k = Some v.
Proof.
  induction d as [|[k' v'] d IH]; simpl; [intros []|].
  intros H. destruct (String.eqb_spec k' k) as [_|Hne].
  - exists v'. reflexivity.
  - destruct H as [H|H]; [contradiction|]. exact (IH H).
Qed.

Lemma dict_get_some_key {V} (d : dict V) (k : string) v :
  dict_get d k = Some v -> In k (dict_keys d).
Proof.
  induction d as [|[k' v'] d IH]; simpl; [discriminate|].
  destruct (String.eqb_spec k' k) as [->|Hne]; [auto|].
  intros H. right. exact (IH H).
Qed.

Lemma active_only_loop (activethreats : dict ActiveEntry) filehandle keys :
  forall acc w,
    (forall k, In k keys -> In k (dict_keys activethreats)) ->
    exists rows,
      for_in keys (active_only_item activethreats filehandle) acc w =
      (Ret (acc + Z.of_nat (List.length
                              (filter (is_active activethreats) keys))),
       emit filehandle rows w) /\
      forallb active_row rows = true.
Proof.
  induction keys as [|k keys IH]; intros acc w Hkeys.
  - exists []. rewrite emit_nil. simpl. rewrite Z.add_0_r. auto.
  - destruct (dict_get_key activethreats k (Hkeys k (or_introl eq_refl)))
      as [a Ha].
    set (row := match filehandle with
                | Some _ => ActiveCsvRow k (slot0 a) (slot1 a) (slot2 a)
                | None => ActiveHumanRow k (slot0 a) (slot1 a) (slot2 a)
                end).
    destruct (IH (if slot0 a >? 0 then acc + 1 else acc)
                 (emit filehandle [row] w)) as [rows [Hloop Hrows]].
    { intros k' Hin. apply Hkeys. right. exact Hin. }
    exists (row :: rows). split.
    + cbn [for_in]. unfold bind at 1.
      assert (Hstep :
        active_only_item activethreats filehandle acc k w =
        (Ret (if slot0 a >? 0 then acc + 1 else acc),
         emit filehandle [row] w)).
      { unfold active_only_item, bind, subscript. rewrite Ha.
        unfold row. destruct filehandle; reflexivity. }
      rewrite Hstep, Hloop, emit_app. cbn [filter].
      unfold is_active at 2. rewrite Ha.
      destruct (slot0 a >? 0); cbn [app]; [|reflexivity].
      cbn [List.length]. rewrite Nat2Z.inj_succ.
      do 2 f_equal. lia.
    + cbn [forallb]. rewrite Hrows. unfold row.
      destruct filehandle; reflexivity.
Qed.

Lemma full_loop (activethreats : dict ActiveEntry)
    (totalthreats : dict TideResult) (web_categories : dict (list string))
    filehandle block_categories country_codes keys :
  forall acc w,
    (forall k, In k keys ->
               In k (dict_keys activethreats) /\
               In k (dict_keys totalthreats)) ->
    exists acc' rows,
      for_in keys
             (full_item activethreats totalthreats web_categories filehandle
                        block_categories country_codes) acc w =
      (Ret acc', emit filehandle rows w) /\
      map row_label rows =
      map (fun k =>
             match dict_get activethreats k, dict_get totalthreats k with
             | Some a, Some t =>
                 Some (k, action_of (slot0 a) (t_totalthreats t)
                                    (dict_get web_categories k) k
                                    block_categories country_codes)
             | _, _ => None
             end) keys.
Proof.
  induction keys as [|k keys IH]; intros acc w Hkeys.
  - exists acc, []. rewrite emit_nil. auto.
  - destruct (Hkeys k (or_introl eq_refl)) as [HkA HkT].
    destruct (dict_get_key activethreats k HkA) as [a Ha].
    destruct (dict_get_key totalthreats k HkT) as [t Ht].
    destruct acc as [with_active with_threats].
    set (action := action_of (slot0 a) (t_totalthreats t)
                             (dict_get web_categories k) k
                             block_categories country_codes).
    set (row :=
      match filehandle with
      | Some _ =>
          FullCsvRow k action (slot0 a) (slot1 a) (t_totalthreats t)
            (t_profiles t) (t_tclasses t) (t_last_available t)
            (t_last_expiration t) (t_domain_checked t)
            (dict_get web_categories k)
      | None =>
          FullHumanRow k action (slot0 a) (slot1 a) (t_totalthreats t)
            (t_profiles t) (t_tclasses t) (t_last_available t)
            (t_last_expiration t) (t_domain_checked t)
            (dict_get web_categories k)
      end).
    destruct (IH (if slot0 a >? 0 then with_active + 1 else with_active,
                  if t_totalthreats t >? 0 then with_threats + 1
                  else with_threats)
                 (emit filehandle [row] w)) as [acc' [rows [Hloop Hrows]]].
    { intros k' Hin. apply Hkeys. right. exact Hin. }
    exists acc', (row :: rows). split.
    + cbn [for_in]. unfold bind at 1.
      assert (Hstep :
        full_item activethreats totalthreats web_categories filehandle
                  block_categories country_codes
                  (with_active, with_threats) k w =
        (Ret (if slot0 a >? 0 then with_active + 1 else with_active,
              if t_totalthreats t >? 0 then with_threats + 1
              else with_threats),
         emit filehandle [row] w)).
      { unfold full_item, bind, subscript. rewrite Ha, Ht.
        unfold row, action. destruct filehandle; reflexivity. }
      rewrite Hstep, Hloop, emit_app. reflexivity.
    + cbn [map]. rewrite Hrows, Ha, Ht. f_equal.
      unfold row. destruct filehandle; reflexivity.
Qed.

Lemma dict_get_nodup {V} (d : dict V) (k : string) (v : V) :
  NoDup (dict_keys d) -> In (k, v) d -> dict_get d k = Some v.
Proof.
  induction d as [|[k' v'] d IH]; simpl; [intros _ []|].
  intros Hnd Hin. inversion Hnd as [|? ? Hnotin Hnd']; subst.
  destruct Hin as [Heq | Hin].
  - injection Heq as -> ->. rewrite String.eqb_refl. reflexivity.
  - destruct (String.eqb_spec k' k) as [->|Hne].
    + exfalso. apply Hnotin. apply (in_map fst) in Hin. exact Hin.
    + exact (IH Hnd' Hin).
Qed.

Lemma count_active_keys (activethreats : dict ActiveEntry) :
  NoDup (dict_keys activethreats) ->
  Z.of_nat (List.length (filter (is_active activethreats)
                                (dict_keys activethreats))) =
  count_active activethreats.
Proof.
  intros Hnd. unfold count_active, dict_keys. f_equal.
  assert (Hsub : forall l : dict ActiveEntry,
    (forall k v, In (k, v) l -> dict_get activethreats k = Some v) ->
    List.length (filter (is_active activethreats) (map fst l)) =
    List.length (filter (fun e => 0 <? slot0 (snd e)) l)).
  { induction l as [|[k v] l IH]; intros Hl; [reflexivity|].
    cbn [map filter fst snd]. unfold is_active at 1.
    rewrite (Hl k v (or_introl eq_refl)), Z.gtb_ltb.
    assert (IH' := IH (fun k' v' H => Hl k' v' (or_intror H))).
    destruct (0 <? slot0 v); cbn [List.length]; rewrite IH'; reflexivity. }
  apply Hsub. intros k v. apply dict_get_nodup. exact Hnd.
Qed.

Lemma gen_report_active (activethreats : dict ActiveEntry)
    (web_categories : dict (list string)) filehandle (w : World) bc cc :
  files w "block_categories" = Some bc ->
  files w "country_codes" = Some cc ->
  let total := dict_len activethreats in
  let active :=
    Z.of_nat (List.length (filter (is_active activethreats)
                                  (dict_keys activethreats))) in
  let summary := ActiveSummary total active (total - active) in
  exists rows,
    forallb active_row rows = true /\
    gen_report activethreats [] web_categories filehandle w =
    (Ret tt,
     match filehandle with
     | Some name =>
         printed [summary; CsvWritten name]
                 (written (ActiveHeader :: rows ++ [summary]) w)
     | None => printed (rows ++ [summary]) w
     end).
Proof.
  intros Hbc Hcc total active summary.
  unfold gen_report, bind.
  rewrite (load_list_present _ _ _ Hbc), (load_list_present _ _ _ Hcc).
  change (dict_len (@nil (string * TideResult)) =? 0) with true.
  cbv iota.
  destruct filehandle as [name|]; cbn [when is_some].
  - change (print_file ActiveHeader w)
      with (Ret tt, emit (Some name) [ActiveHeader] w).
    destruct (active_only_loop activethreats (Some name)
                (dict_keys activethreats) 0
                (emit (Some name) [ActiveHeader] w) (fun k H => H))
      as [rows [Hloop Hrows]].
    exists rows. split; [exact Hrows|].
    rewrite Hloop, emit_app. unfold emit, written, printed, print,
      print_file, ret. cbn. rewrite <- !app_assoc. reflexivity.
  - change (ret tt w) with (Ret tt, w).
    destruct (active_only_loop activethreats None
                (dict_keys activethreats) 0 w (fun k H => H))
      as [rows [Hloop Hrows]].
    exists rows. split; [exact Hrows|].
    rewrite Hloop. unfold emit, written, printed, print, ret. cbn.
    rewrite <- !app_assoc. reflexivity.
Qed.

(** C9.  With the two list files in place, the report of a set of [N]
    indicators (the entries of [activethreats]) of which [K] have a
    positive active count, and of no historical data, ends with the line
    'Summary: Total = N, Active = K, Not active = N - K', on standard
    output and, when there is a CSV file, in the file as well. *)
Theorem C9_active_only_summary :
  forall (activethreats : dict ActiveEntry)
         (web_categories : dict (list string)) filehandle (w : World) bc cc,
    files w "block_categories" = Some bc ->
    files w "country_codes" = Some cc ->
    NoDup (dict_keys activethreats) ->
    let N := dict_len activethreats in
    let K := count_active activethreats in
    exists rows,
      forallb active_row rows = true /\
      gen_report activethreats [] web_categories filehandle w =
      (Ret tt,
       match filehandle with
       | Some name =>
           printed [ActiveSummary N K (N - K); CsvWritten name]
                   (written (ActiveHeader :: rows ++
                             [ActiveSummary N K (N - K)]) w)
       | None => printed (rows ++ [ActiveSummary N K (N - K)]) w
       end).
Proof.
  intros activethreats web_categories filehandle w bc cc Hbc Hcc Hnd N K.
  destruct (gen_report_active activethreats web_categories filehandle w
                              bc cc Hbc Hcc) as [rows [Hrows H]].
  exists rows. split; [exact Hrows|].
  rewrite H. unfold K. rewrite (count_active_keys _ Hnd). reflexivity.
Qed.

Lemma gen_report_full (activethreats : dict ActiveEntry)
    (totalthreats : dict TideResult) (web_categories : dict (list string))
    filehandle (w : World) bc cc :
  files w "block_categories" = Some bc ->
  files w "country_codes" = Some cc ->
  totalthreats <> [] ->
  (forall k, In k (dict_keys activethreats) ->
             In k (dict_keys totalthreats)) ->
  exists with_active with_threats rows,
    let summary :=
      FullSummary (dict_len activethreats) with_active with_threats
                  (dict_len activethreats - with_threats) in
    gen_report activethreats totalthreats web_categories filehandle w =
    (Ret tt,
     match filehandle with
     | Some name =>
         printed [summary; CsvWritten name]
                 (written (FullHeader :: rows ++ [summary]) w)
     | None => printed (rows ++ [summary]) w
     end) /\
    map row_label rows =
    map (fun k =>
           match dict_get activethreats k, dict_get totalthreats k with
           | Some a, Some t =>
               Some (k, action_of (slot0 a) (t_totalthreats t)
                                  (dict_get web_categories k) k
                                  (map rstrip bc) (map rstrip cc))
           | _, _ => None
           end) (dict_keys activethreats).
Proof.
  intros Hbc Hcc Hfull Hkeys.
  assert (Hlen : (dict_len totalthreats =? 0) = false).
  { destruct totalthreats as [|e T]; [contradiction|].
    unfold dict_len. cbn [List.length]. apply Z.eqb_neq. lia. }
  unfold gen_report, bind.
  rewrite (load_list_present _ _ _ Hbc), (load_list_present _ _ _ Hcc).
  rewrite Hlen.
  destruct filehandle as [name|]; cbn [when is_some].
  - change (print_file FullHeader w)
      with (Ret tt, emit (Some name) [FullHeader] w).
    destruct (full_loop activethreats totalthreats web_categories
                (Some name) (map rstrip bc) (map rstrip cc)
                (dict_keys activethreats) (0, 0)
                (emit (Some name) [FullHeader] w)
                (fun k H => conj H (Hkeys k H)))
      as [[with_active with_threats] [rows [Hloop Hrows]]].
    exists with_active, with_threats, rows. split; [|exact Hrows].
    rewrite Hloop, emit_app. unfold emit, written, printed, print,
      print_file, ret. cbn. rewrite <- !app_assoc. reflexivity.
  - change (ret tt w) with (Ret tt, w).
    destruct (full_loop activethreats totalthreats web_categories
                None (map rstrip bc) (map rstrip cc)
                (dict_keys activethreats) (0, 0) w
                (fun k H => conj H (Hkeys k H)))
      as [[with_active with_threats] [rows [Hloop Hrows]]].
    exists with_active, with_threats, rows. split; [|exact Hrows].
    rewrite Hloop. unfold emit, written, printed, print, ret. cbn.
    rewrite <- !app_assoc. reflexivity.
Qed.

Lemma action_of_spec (active total : Z) (webcats : option (list string))
    (item : string) (block_categories country_codes : list string) :
  let label :=
    action_of active total webcats item block_categories country_codes in
  (0 < active -> label = "Active") /\
  (active <= 0 -> 0 < total -> label = "Not Active") /\
  (active <= 0 -> total <= 0 ->
   checkwebcat webcats block_categories = true ->
   label = "Category Block") /\
  (active <= 0 -> total <= 0 ->
   checkwebcat webcats block_categories = false ->
   checkcountry item country_codes = true ->
   label = "Country Block") /\
  (active <= 0 -> total <= 0 ->
   checkwebcat webcats block_categories = false ->
   checkcountry item country_codes = false ->
   label = "").
Proof.
  unfold action_of. cbv zeta.
  destruct (Z.gtb_spec active 0) as [Ha|Ha].
  - repeat split; intros; try reflexivity; lia.
  - destruct (Z.gtb_spec total 0) as [Ht|Ht].
    + repeat split; intros; try reflexivity; lia.
    + destruct (checkwebcat webcats block_categories);
        destruct (checkcountry item country_codes);
        repeat split; intros; try reflexivity; try lia; discriminate.
Qed.

(** C1.  In the full report (historical data present, list files in
    place, every indicator with its historical entry), the row of an
    indicator carries one action label, and that label is: 'Active' when
    the active count is positive; otherwise 'Not Active' when the
    historical count is positive; otherwise 'Category Block' when
    [checkwebcat] accepts the categories of the indicator; otherwise
    'Country Block' when [checkcountry] accepts the indicator; otherwise
    the empty label. *)
Theorem C1_action_priority :
  forall (activethreats : dict ActiveEntry) (totalthreats : dict TideResult)
         (web_categories : dict (list string)) filehandle (w : World)
         bc cc item a t,
    files w "block_categories" = Some bc ->
    files w "country_codes" = Some cc ->
    totalthreats <> [] ->
    (forall k, In k (dict_keys activethreats) ->
               In k (dict_keys totalthreats)) ->
    dict_get activethreats item = Some a ->
    dict_get totalthreats item = Some t ->
    exists summary rows label,
      gen_report activethreats totalthreats web_categories filehandle w =
      (Ret tt,
       match filehandle with
       | Some name =>
           printed [summary; CsvWritten name]
                   (written (FullHeader :: rows ++ [summary]) w)
       | None => printed (rows ++ [summary]) w
       end) /\
      (exists row, In row rows /\ row_label row = Some (item, label)) /\
      (forall row l,
          In row rows -> row_label row = Some (item, l) -> l = label) /\
      (0 < slot0 a -> label = "Active") /\
      (slot0 a <= 0 -> 0 < t_totalthreats t -> label = "Not Active") /\
      (slot0 a <= 0 -> t_totalthreats t <= 0 ->
       checkwebcat (dict_get web_categories item) (map rstrip bc) = true ->
       label = "Category Block") /\
      (slot0 a <= 0 -> t_totalthreats t <= 0 ->
       checkwebcat (dict_get web_categories item) (map rstrip bc) = false ->
       checkcountry item (map rstrip cc) = true ->
       label = "Country Block") /\
      (slot0 a <= 0 -> t_totalthreats t <= 0 ->
       checkwebcat (dict_get web_categories item) (map rstrip bc) = false ->
       checkcountry item (map rstrip cc) = false ->
       label = "").
Proof.
  intros activethreats totalthreats web_categories filehandle w bc cc
         item a t Hbc Hcc Hfull Hkeys Ha Ht.
  destruct (gen_report_full activethreats totalthreats web_categories
              filehandle w bc cc Hbc Hcc Hfull Hkeys)
    as [with_active [with_threats [rows [Hrun Hrows]]]].
  eexists. exists rows.
  exists (action_of (slot0 a) (t_totalthreats t)
                    (dict_get web_categories item) item
                    (map rstrip bc) (map rstrip cc)).
  split; [exact Hrun|]. split; [|split].
  - assert (Hin : In (Some (item,
                      action_of (slot0 a) (t_totalthreats t)
                                (dict_get web_categories item) item
                                (map rstrip bc) (map rstrip cc)))
                     (map row_label rows)).
    { rewrite Hrows. apply in_map_iff. exists item.
      rewrite Ha, Ht. split; [reflexivity|].
      exact (dict_get_some_key _ _ _ Ha). }
    apply in_map_iff in Hin. destruct Hin as [row [Hlabel Hin]].
    exists row. auto.
  - intros row l Hin Hlabel.
    apply (in_map row_label) in Hin. rewrite Hlabel, Hrows in Hin.
    apply in_map_iff in Hin. destruct Hin as [k [Hk Hink]].
    destruct (dict_get activethreats k) as [a'|] eqn:Ha';
      [|discriminate].
    destruct (dict_get totalthreats k) as [t'|] eqn:Ht'; [|discriminate].
    injection Hk as -> <-. rewrite Ha in Ha'. rewrite Ht in Ht'.
    injection Ha' as <-. injection Ht' as <-. reflexivity.
  - apply action_of_spec.
Qed.

Lemma gen_report_missing (activethreats : dict ActiveEntry)
    (totalthreats : dict TideResult) (web_categories : dict (list string))
    filehandle (w : World) :
  files w "block_categories" = None \/ files w "country_codes" = None ->
  exists missing,
    gen_report activethreats totalthreats web_categories filehandle w =
    (Raise (IOError missing), w).
Proof.
  intros Hmissing. unfold gen_report, bind.
  destruct (files w "block_categories") as [bc|] eqn:Hbc.
  - destruct Hmissing as [Habs | Hcc]; [discriminate|].
    rewrite (load_list_present _ _ _ Hbc), (load_list_missing _ _ Hcc).
    eexists. reflexivity.
  - rewrite (load_list_missing _ _ Hbc). eexists. reflexivity.
Qed.

(** C5 (amended).  [load_list] raises [IOError] on a file that is not
    there, and [gen_report], which loads both lists before it prints,
    then raises the same error with nothing printed; a list file that is
    there and empty gives the empty list, on which [checkwebcat] and
    [checkcountry] answer false for every indicator. *)
Theorem C5_missing_list_file_raises :
  forall (activethreats : dict ActiveEntry) (totalthreats : dict TideResult)
         (web_categories : dict (list string)) filehandle (w : World)
         (filename : string),
    (files w filename = None ->
     load_list filename w = (Raise (IOError filename), w)) /\
    (files w "block_categories" = None \/ files w "country_codes" = None ->
     exists missing,
       gen_report activethreats totalthreats web_categories filehandle w =
       (Raise (IOError missing), w)) /\
    (files w filename = Some [] -> load_list filename w = (Ret [], w)) /\
    (forall webcats, checkwebcat webcats [] = false) /\
    (forall domain, checkcountry domain [] = false).
Proof.
  intros activethreats totalthreats web_categories filehandle w filename.
  split; [|split; [|split; [|split]]].
  - apply load_list_missing.
  - apply gen_report_missing.
  - intros H. rewrite (load_list_present _ _ _ H). reflexivity.
  - intros [[|c webcats]|]; reflexivity.
  - intros domain. unfold checkcountry. destruct (truthy_str domain);
      reflexivity.
Qed.

(* --------------------------------------------------------------------- *)
(** *** Runs on the local database *)
(* --------------------------------------------------------------------- *)

Lemma offline_refl (w : World) : offline_step_of w w.
Proof.
  repeat split. exists []. rewrite app_nil_r. auto.
Qed.

Lemma offline_trans (w1 w2 w3 : World) :
  offline_step_of w1 w2 -> offline_step_of w2 w3 -> offline_step_of w1 w3.
Proof.
  intros [Hf [Ho [Hc [calls [Hl Hq]]]]] [Hf' [Ho' [Hc' [calls' [Hl' Hq']]]]].
  repeat split; try congruence.
  exists (calls ++ calls')%list. split.
  - rewrite Hl', Hl, app_assoc. reflexivity.
  - rewrite forallb_app, Hq, Hq'. reflexivity.
Qed.

Lemma offline_called (c : ApiCall) (w : World) :
  is_querytide c = false -> offline_step_of w (called c w).
Proof.
  intros Hc. repeat split. exists [c]. split; [reflexivity|].
  cbn [forallb]. rewrite Hc. reflexivity.
Qed.

Lemma bind_ret_eq {A B} (m : M A) (k : A -> M B) (w w' : World) (a : A) :
  m w = (Ret a, w') -> bind m k w = k a w'.
Proof. intros H. unfold bind. rewrite H. reflexivity. Qed.

Lemma bind_raise_eq {A B} (m : M A) (k : A -> M B) (w w' : World) (e : Exn) :
  m w = (Raise e, w') -> bind m k w = (Raise e, w').
Proof. intros H. unfold bind. rewrite H. reflexivity. Qed.

(** Whatever the answer holds, [get_web_categories] makes one dossier
    query. *)
Lemma get_web_categories_step (query qtype : string) (w : World) :
  exists o,
    get_web_categories query qtype w =
    (o, called (DossierQuery query qtype) w).
Proof.
  cbv [get_web_categories bind log_call first_item get_of ret raise].
  destruct (status_ok (dossier_status (dossierquery query qtype)));
    [|eexists; reflexivity].
  destruct (dossier_results (dossierquery query qtype)) as [[|first rest]|];
    [eexists; reflexivity| |eexists; reflexivity].
  destruct (result_data first) as [d|]; [|eexists; reflexivity].
  destruct (data_results d) as [[|c cs]|]; eexists; reflexivity.
Qed.

Lemma get_web_categories_spec (query qtype : string) (w : World) :
  has_data query qtype = true ->
  exists cats,
    get_web_categories query qtype w =
    (Ret cats, called (DossierQuery query qtype) w).
Proof.
  cbv [has_data get_web_categories bind log_call first_item get_of ret
       raise].
  destruct (status_ok (dossier_status (dossierquery query qtype)));
    cbn [negb orb]; [|intros _; eexists; reflexivity].
  destruct (dossier_results (dossierquery query qtype)) as [[|first rest]|];
    try discriminate.
  destruct (result_data first) as [d|]; [intros _|discriminate].
  destruct (data_results d) as [[|c cs]|]; eexists; reflexivity.
Qed.

Lemma checkactive_offline depth :
  forall query qtype check_domain domain_checked w,
  exists o w',
    checkactive depth query qtype check_domain domain_checked w = (o, w') /\
    offline_step_of w w'.
Proof.
  induction depth as [|depth IH];
    intros query qtype check_domain domain_checked w.
  - exists (Raise RecursionError), w. split; [reflexivity|apply offline_refl].
  - assert (Hcall : offline_step_of w (called (QueryTideState qtype query) w))
      by (apply offline_called; reflexivity).
    destruct (status_ok (status_code (querytidestate qtype query))) eqn:Hok.
    + destruct (records (querytidestate qtype query)) as [|th ths] eqn:Hrec.
      * destruct check_domain.
        -- destruct (String.eqb_spec (strip_host query) query) as [Heq|Hne].
           ++ eexists. eexists.
              rewrite checkactive_nothing by auto. split; [reflexivity|].
              exact Hcall.
           ++ rewrite checkactive_fallback by assumption.
              destruct (IH (strip_host query) qtype false true
                           (called (QueryTideState qtype query) w))
                as [o [w' [H Hstep]]].
              exists o, w'. split; [exact H|].
              exact (offline_trans _ _ _ Hcall Hstep).
        -- eexists. eexists.
           rewrite checkactive_nothing by auto. split; [reflexivity|].
           exact Hcall.
      * destruct (checkactive_found depth query qtype check_domain
                    domain_checked w Hok) as [ps [cs H]];
          [rewrite Hrec; discriminate|].
        eexists. eexists. split; [exact H|exact Hcall].
    + eexists. eexists. rewrite checkactive_failed by exact Hok.
      split; [reflexivity|exact Hcall].
Qed.

(** One line of an active-only run: whether the lookups return or not,
    the step makes no call to the full-history service and prints
    nothing. *)
Lemma process_line_active_only depth (database : option (Cursor * Table))
    check_domain webcat bogus (st : Locals) (line : string) (w : World) :
  totalthreats st = [] ->
  exists o w',
    process_line depth database true check_domain webcat bogus st line w
    = (o, w') /\
    offline_step_of w w' /\
    forall st', o = Ret st' -> totalthreats st' = [].
Proof.
  intros Hempty. unfold process_line.
  destruct (negb (String.eqb (data_type (rstrip line)) "invalid")).
  - set (query := rstrip line). set (qtype := data_type query).
    assert (Hactive : exists o1 w1,
      match database with
      | Some (db_cursor, db_table) =>
          r <- checkoffline query qtype db_cursor db_table ;;
          (let '(n, profiles, tclasses) := r in
           ret (FromLocal n profiles tclasses))
      | None =>
          r <- checkactive depth query qtype check_domain false ;;
          ret (FromTide r)
      end w = (o1, w1) /\ offline_step_of w w1).
    { destruct database as [[db_cursor db_table]|].
      - destruct (checkoffline_spec query qtype db_cursor db_table w)
          as [profiles [tclasses [Hq _]]].
        eexists. eexists. erewrite bind_ret_eq by exact Hq.
        split; [reflexivity|apply offline_called; reflexivity].
      - destruct (checkactive_offline depth query qtype check_domain false w)
          as [[r|e] [w1 [Hq Hw1]]].
        + eexists. eexists. erewrite bind_ret_eq by exact Hq.
          split; [reflexivity|exact Hw1].
        + eexists. eexists. erewrite bind_raise_eq by exact Hq.
          split; [reflexivity|exact Hw1]. }
    destruct Hactive as [[a|e] [w1 [Ha Hw1]]].
    + erewrite bind_ret_eq by exact Ha.
      cbn [negb]. erewrite bind_ret_eq by reflexivity.
      destruct (String.eqb qtype "host" && webcat)%bool.
      * destruct (get_web_categories_step query qtype w1) as [[c|e] Hc].
        -- erewrite bind_ret_eq
             by (erewrite bind_ret_eq by exact Hc; reflexivity).
           eexists. eexists. split; [reflexivity|]. split.
           ++ eapply offline_trans; [exact Hw1|].
              apply offline_called. reflexivity.
           ++ intros st' H. injection H as <-. exact Hempty.
        -- erewrite bind_raise_eq
             by (erewrite bind_raise_eq by exact Hc; reflexivity).
           eexists. eexists. split; [reflexivity|]. split.
           ++ eapply offline_trans; [exact Hw1|].
              apply offline_called. reflexivity.
           ++ intros st' H. discriminate H.
      * erewrite bind_ret_eq by reflexivity.
        eexists. eexists. split; [reflexivity|].
        split; [exact Hw1|].
        intros st' H. injection H as <-. exact Hempty.
    + erewrite bind_raise_eq by exact Ha.
      eexists. eexists. split; [reflexivity|]. split; [exact Hw1|].
      intros st' H. discriminate H.
  - unfold bind, when, output_bogus, ret.
    destruct (is_some bogus); eexists; eexists;
      (split; [reflexivity|]);
      (split; [|intros st' H; injection H as <-; exact Hempty]).
    + repeat split. exists []. rewrite app_nil_r. auto.
    + apply offline_refl.
Qed.

Lemma process_lines_active_only depth (database : option (Cursor * Table))
    check_domain webcat bogus (file : list string) :
  forall (st : Locals) (w : World),
    totalthreats st = [] ->
    exists o w',
      for_in file
             (process_line depth database true check_domain webcat bogus)
             st w = (o, w') /\
      offline_step_of w w' /\
      forall st', o = Ret st' -> totalthreats st' = [].
Proof.
  induction file as [|line file IH]; intros st w Hempty.
  - exists (Ret st), w. split; [reflexivity|]. split; [apply offline_refl|].
    intros st' H. injection H as <-. exact Hempty.
  - destruct (process_line_active_only depth database check_domain webcat
                bogus st line w Hempty) as [[st1|e] [w1 [H1 [Hw1 He1]]]].
    + destruct (IH st1 w1 (He1 st1 eq_refl)) as [o [w2 [H2 [Hw2 He2]]]].
      exists o, w2. cbn [for_in]. erewrite bind_ret_eq by exact H1.
      split; [exact H2|]. split; [|exact He2].
      exact (offline_trans _ _ _ Hw1 Hw2).
    + exists (Raise e), w1. cbn [for_in]. erewrite bind_raise_eq by exact H1.
      split; [reflexivity|]. split; [exact Hw1|].
      intros st' H. discriminate H.
Qed.

Lemma process_file_active_only depth (database : option (Cursor * Table))
    check_domain webcat bogus (inputfile : string) (w : World) :
  exists o w',
    process_file depth database true check_domain webcat bogus inputfile w
    = (o, w') /\
    offline_step_of w w' /\
    forall st, o = Ret st -> totalthreats st = [].
Proof.
  unfold process_file.
  destruct (files w inputfile) as [file|] eqn:Hfile.
  - assert (Hread : read_lines inputfile w = (Ret file, w))
      by (unfold read_lines; rewrite Hfile; reflexivity).
    erewrite bind_ret_eq by exact Hread.
    apply process_lines_active_only. reflexivity.
  - assert (Hread : read_lines inputfile w = (Raise (IOError inputfile), w))
      by (unfold read_lines; rewrite Hfile; reflexivity).
    erewrite bind_raise_eq by exact Hread.
    eexists. eexists. split; [reflexivity|]. split; [apply offline_refl|].
    intros st H. discriminate H.
Qed.

Lemma main_setup_local (args : Args) (database : string) (w : World) :
  arg_local args = Some database ->
  database <> "" ->
  (exists code, main_setup args w = (Raise (SystemExit code), w)) \/
  (exists db_cursor db_table bogus outfile,
      main_setup args w =
      (Ret (true, Some (db_cursor, db_table), bogus, outfile), w)).
Proof.
  intros Hlocal Hname. unfold main_setup. rewrite Hlocal.
  assert (Htruthy : truthy_opt truthy_str (Some database) = true).
  { destruct database; [contradiction|reflexivity]. }
  rewrite Htruthy. unfold bind at 1.
  destruct (opendb database) as [db_cursor|];
    [|left; eexists; reflexivity].
  destruct (get_table db_cursor) as [db_table|];
    [|left; eexists; reflexivity].
  unfold ret at 1. unfold bind.
  destruct (truthy_opt truthy_str (arg_bogus args)).
  - destruct (arg_bogus args) as [bogusfilename|].
    + destruct (open_file bogusfilename) as [h|].
      * right. do 4 eexists. reflexivity.
      * left. eexists. reflexivity.
    + right. do 4 eexists. reflexivity.
  - right. do 4 eexists. reflexivity.
Qed.

Lemma active_row_schema (rows : list Line) :
  forallb active_row rows = true -> forallb active_schema rows = true.
Proof.
  induction rows as [|l rows IH]; [reflexivity|].
  cbn [forallb]. rewrite !andb_true_iff. intros [Hl Hrows].
  split; [destruct l; try discriminate; reflexivity | exact (IH Hrows)].
Qed.

(** Closes the description of a run that printed nothing. *)
Ltac silent_run :=
  refine (conj _ (conj _ (conj _ (conj _ (conj _ (conj _ _))))));
  [ reflexivity
  | first [assumption | symmetry; apply app_nil_r]
  | first [assumption | reflexivity]
  | first [rewrite app_nil_r; assumption | symmetry; apply app_nil_r]
  | first [rewrite app_nil_r; assumption | symmetry; apply app_nil_r]
  | reflexivity
  | intros Habs; discriminate Habs ].

(** The [try] statement of [main] in an active-only run, whatever its
    outcome. *)
Lemma main_try_active_only depth (database : option (Cursor * Table))
    bogus outfile check_domain webcat (inputfile : string) (w : World) :
  exists o w' calls new_out new_csv,
    main_try depth true database bogus outfile check_domain webcat inputfile w
    = (o, w') /\
    api_log w' = (api_log w ++ calls)%list /\
    forallb (fun c => negb (is_querytide c)) calls = true /\
    stdout w' = (stdout w ++ new_out)%list /\
    csv_out w' = (csv_out w ++ new_csv)%list /\
    forallb active_schema (new_out ++ new_csv) = true /\
    (o = Ret 0 ->
     exists total active,
       In (ActiveSummary total active (total - active)) new_out).
Proof.
  unfold main_try, except_IOError. cbv zeta.
  destruct (process_file_active_only depth database check_domain webcat bogus
              inputfile w) as [[st|e] [w1 [Hpf [Hstep Hempty]]]].
  - erewrite bind_ret_eq by exact Hpf. rewrite (Hempty st eq_refl).
    destruct Hstep as [Hfiles [Hout [Hcsv [calls [Hlog Hcalls]]]]].
    destruct (files w1 "block_categories") as [bc|] eqn:Hbc;
      [destruct (files w1 "country_codes") as [cc|] eqn:Hcc|].
    + destruct (gen_report_active (activethreats st) (web_cats st) outfile
                                  w1 bc cc Hbc Hcc) as [rows [Hrows Hrep]].
      cbv zeta in Hrep.
      erewrite bind_ret_eq by exact Hrep. unfold ret.
      apply active_row_schema in Hrows.
      destruct outfile as [name|]; eexists; eexists; exists calls;
        eexists; eexists;
        (refine (conj eq_refl (conj _ (conj Hcalls (conj _ (conj _
                  (conj _ _))))));
         cbn [api_log stdout csv_out printed written]).
      * exact Hlog.
      * rewrite Hout. reflexivity.
      * rewrite Hcsv. reflexivity.
      * cbn [app forallb]. rewrite !forallb_app, Hrows. reflexivity.
      * intros _. do 2 eexists. left. reflexivity.
      * exact Hlog.
      * rewrite Hout. reflexivity.
      * rewrite Hcsv. symmetry. apply app_nil_r.
      * rewrite app_nil_r, forallb_app, Hrows. reflexivity.
      * intros _. do 2 eexists. apply in_or_app. right. left.
        reflexivity.
    + destruct (gen_report_missing (activethreats st) [] (web_cats st)
                  outfile w1 (or_intror Hcc)) as [missing Hrep].
      exists (Ret 1), w1, calls, [], [].
      erewrite bind_raise_eq by exact Hrep. silent_run.
    + destruct (gen_report_missing (activethreats st) [] (web_cats st)
                  outfile w1 (or_introl Hbc)) as [missing Hrep].
      exists (Ret 1), w1, calls, [], [].
      erewrite bind_raise_eq by exact Hrep. silent_run.
  - erewrite bind_raise_eq by exact Hpf.
    destruct Hstep as [Hfiles [Hout [Hcsv [calls [Hlog Hcalls]]]]].
    destruct e; eexists; exists w1, calls, [], []; silent_run.
Qed.

(** What a run on the local database does to the world. *)
Lemma main_local (depth : nat) (args : Args) (database : string) (w : World) :
  arg_local args = Some database ->
  database <> "" ->
  exists o w' calls new_out new_csv,
    main_from_options depth args w = (o, w') /\
    api_log w' = (api_log w ++ calls)%list /\
    forallb (fun c => negb (is_querytide c)) calls = true /\
    stdout w' = (stdout w ++ new_out)%list /\
    csv_out w' = (csv_out w ++ new_csv)%list /\
    forallb active_schema (new_out ++ new_csv) = true /\
    (o = Ret 0 ->
     exists total active,
       In (ActiveSummary total active (total - active)) new_out).
Proof.
  intros Hlocal Hname.
  destruct (main_setup_local args database w Hlocal Hname)
    as [[code Hsetup] | [c [t [b [out Hsetup]]]]].
  - exists (Raise (SystemExit code)), w, [], [], [].
    unfold main_from_options. erewrite bind_raise_eq by exact Hsetup.
    silent_run.
  - unfold main_from_options. erewrite bind_ret_eq by exact Hsetup.
    cbv beta iota zeta. apply main_try_active_only.
Qed.

(** C10.  With a local database named on the command line, whatever the
    other options: the statements of [main] that follow the reading of
    the options make no call to the full-history service, the map
    [totalthreats] is empty when the loop on the input ends, and every
    line the run prints or writes belongs to the four-column report (no
    row with an action label); a run that ends with exit code 0 has
    printed the summary of that report.  [main] itself, which calls
    [parseargs] with an argument, ends in an exception at that call and
    leaves the world as it was. *)
Theorem C10_local_database_forces_active_only :
  forall depth (args : Args) (database : string) (w : World),
    arg_local args = Some database ->
    database <> "" ->
    (exists o w' calls new_out new_csv,
        main_from_options depth args w = (o, w') /\
        api_log w' = (api_log w ++ calls)%list /\
        forallb (fun c => negb (is_querytide c)) calls = true /\
        stdout w' = (stdout w ++ new_out)%list /\
        csv_out w' = (csv_out w ++ new_csv)%list /\
        forallb active_schema (new_out ++ new_csv) = true /\
        (o = Ret 0 ->
         exists total active,
           In (ActiveSummary total active (total - active)) new_out)) /\
    (forall activeonly db bogus outfile w1 st w2,
        main_setup args w = (Ret (activeonly, db, bogus, outfile), w1) ->
        process_file depth db activeonly (arg_check_domains args)
                     (arg_webcat args) bogus (arg_input args) w1
        = (Ret st, w2) ->
        activeonly = true /\ totalthreats st = []) /\
    (forall raw_args, exists e, main depth raw_args w = (Raise e, w)).
Proof.
  intros depth args database w Hlocal Hname.
  split; [exact (main_local depth args database w Hlocal Hname)|].
  split; [|intros raw_args; eexists; reflexivity].
  intros activeonly db bogus outfile w1 st w2 Hsetup Hfile.
  destruct (main_setup_local args database w Hlocal Hname)
    as [[code H] | [c [t [b [out H]]]]]; rewrite H in Hsetup;
    [discriminate|].
  injection Hsetup as <- <- <- <- <-. split; [reflexivity|].
  destruct (process_file_active_only depth (Some (c, t))
              (arg_check_domains args) (arg_webcat args) b (arg_input args)
              w) as [o [w' [Hpf [_ Hempty]]]].
  rewrite Hfile in Hpf. injection Hpf as <- _. exact (Hempty st eq_refl).
Qed.

(* --------------------------------------------------------------------- *)
(** *** What the loop of [main] hands to [gen_report] *)
(* --------------------------------------------------------------------- *)

Lemma dict_keys_set {V} (d : dict V) (k : string) (v : V) :
  dict_keys (dict_set d k v) = keys_add (dict_keys d) k.
Proof.
  induction d as [|[k' v'] d IH]; [reflexivity|].
  cbn [dict_set dict_keys map fst keys_add].
  destruct (String.eqb k' k); [reflexivity|].
  cbn [map fst]. f_equal. exact IH.
Qed.

Lemma keys_add_in (keys : list string) (k x : string) :
  In x (keys_add keys k) <-> In x keys \/ x = k.
Proof.
  induction keys as [|k' keys IH]; cbn [keys_add].
  - cbn [In]. split.
    + intros [-> | []]. right. reflexivity.
    + intros [[] | ->]. left. reflexivity.
  - destruct (String.eqb_spec k' k) as [->|Hne]; cbn [In].
    + split; [intros H; left; exact H|].
      intros [H | ->]; [exact H | left; reflexivity].
    + rewrite IH. split.
      * intros [H | [H | H]]; auto.
      * intros [[H | H] | H]; auto.
Qed.

Lemma keys_add_nodup (keys : list string) (k : string) :
  NoDup keys -> NoDup (keys_add keys k).
Proof.
  induction keys as [|k' keys IH]; cbn [keys_add]; intros Hnd.
  - constructor; [intros []|constructor].
  - destruct (String.eqb_spec k' k) as [->|Hne]; [exact Hnd|].
    inversion Hnd as [|? ? Hnotin Hnd']; subst. constructor.
    + rewrite keys_add_in. intros [H | H]; [contradiction|congruence].
    + exact (IH Hnd').
Qed.

Lemma frame_refl (w : World) : frame w w.
Proof. repeat split. Qed.

Lemma frame_trans (w1 w2 w3 : World) :
  frame w1 w2 -> frame w2 w3 -> frame w1 w3.
Proof.
  intros [Hf [Ho Hc]] [Hf' [Ho' Hc']]. repeat split; congruence.
Qed.

Lemma frame_called (c : ApiCall) (w : World) : frame w (called c w).
Proof. repeat split. Qed.

Lemma checkactive_returns depth query qtype check_domain domain_checked w :
  exists r w',
    checkactive (S (S depth)) query qtype check_domain domain_checked w
    = (Ret r, w') /\ frame w w'.
Proof.
  destruct (checkactive_cases (S depth) query qtype check_domain
                              domain_checked w)
    as [[r [H _]] | [-> [Hok [Hrec Hne]]]].
  - exists r. eexists. split; [exact H|apply frame_called].
  - destruct (checkactive_direct depth (strip_host query) qtype true
                (called (QueryTideState qtype query) w)) as [r [H _]].
    exists r. eexists. rewrite checkactive_fallback by assumption.
    split; [exact H|].
    eapply frame_trans; apply frame_called.
Qed.

Lemma checktide_returns depth query qtype check_domain domain_checked w :
  exists r w',
    checktide (S (S depth)) query qtype check_domain domain_checked w
    = (Ret r, w') /\ frame w w'.
Proof.
  destruct (checktide_cases (S depth) query qtype check_domain
                            domain_checked w)
    as [[r [H _]] | [-> [Hok [Hrec Hne]]]].
  - exists r. eexists. split; [exact H|apply frame_called].
  - destruct (checktide_direct depth (strip_host query) qtype true
                (called (QueryTide qtype query) w)) as [r [H _]].
    exists r. eexists. rewrite checktide_fallback_eq by assumption.
    split; [exact H|].
    eapply frame_trans; apply frame_called.
Qed.

Lemma process_line_total depth (database : option (Cursor * Table))
    activeonly check_domain webcat bogus (st : Locals) (line : string)
    (w : World) :
  (webcat = true -> data_type (rstrip line) = "host" ->
   has_data (rstrip line) "host" = true) ->
  run_inv activeonly st ->
  exists st' w',
    process_line (S (S depth)) database activeonly check_domain webcat bogus
                 st line w = (Ret st', w') /\
    frame w w' /\ run_inv activeonly st' /\
    dict_keys (activethreats st') =
    if is_valid line
    then keys_add (dict_keys (activethreats st)) (rstrip line)
    else dict_keys (activethreats st).
Proof.
  intros Hdata [Hnd Htotal]. unfold process_line, is_valid.
  destruct (negb (String.eqb (data_type (rstrip line)) "invalid")).
  - set (query := rstrip line). set (qtype := data_type query).
    assert (Hactive : exists a w1,
      match database with
      | Some (db_cursor, db_table) =>
          r <- checkoffline query qtype db_cursor db_table ;;
          (let '(n, profiles, tclasses) := r in
           ret (FromLocal n profiles tclasses))
      | None =>
          r <- checkactive (S (S depth)) query qtype check_domain false ;;
          ret (FromTide r)
      end w = (Ret a, w1) /\ frame w w1).
    { destruct database as [[db_cursor db_table]|].
      - destruct (checkoffline_spec query qtype db_cursor db_table w)
          as [profiles [tclasses [Hq _]]].
        eexists. eexists. erewrite bind_ret_eq by exact Hq.
        split; [reflexivity|apply frame_called].
      - destruct (checkactive_returns depth query qtype check_domain false w)
          as [r [w1 [Hq Hw1]]].
        eexists. eexists. erewrite bind_ret_eq by exact Hq.
        split; [reflexivity|exact Hw1]. }
    destruct Hactive as [a [w1 [Ha Hw1]]].
    erewrite bind_ret_eq by exact Ha.
    assert (Htide : exists T w2,
      (if negb activeonly
       then t <- checktide (S (S depth)) query qtype check_domain false ;;
            ret (dict_set (totalthreats st) query t)
       else ret (totalthreats st)) w1 = (Ret T, w2) /\
      frame w1 w2 /\
      if activeonly then T = []
      else dict_keys T = keys_add (dict_keys (activethreats st)) query).
    { destruct activeonly; cbn [negb].
      - eexists. eexists. split; [reflexivity|].
        split; [apply frame_refl|exact Htotal].
      - destruct (checktide_returns depth query qtype check_domain false w1)
          as [t [w2 [Hq Hw2]]].
        eexists. eexists. erewrite bind_ret_eq by exact Hq.
        split; [reflexivity|]. split; [exact Hw2|].
        rewrite dict_keys_set, Htotal. reflexivity. }
    destruct Htide as [T [w2 [Ht [Hw2 HT]]]].
    erewrite bind_ret_eq by exact Ht.
    assert (Hcats : exists C w3,
      (if (String.eqb qtype "host" && webcat)%bool
       then c <- get_web_categories query qtype ;;
            ret (dict_set (web_cats st) query c)
       else ret (web_cats st)) w2 = (Ret C, w3) /\ frame w2 w3).
    { destruct (String.eqb_spec qtype "host") as [Hhost|Hhost];
        destruct webcat; cbn [andb];
        try solve [eexists; eexists; split; [reflexivity|apply frame_refl]].
      destruct (get_web_categories_spec query qtype w2) as [cats Hc].
      { rewrite Hhost. exact (Hdata eq_refl Hhost). }
      eexists. eexists. erewrite bind_ret_eq by exact Hc.
      split; [reflexivity|apply frame_called]. }
    destruct Hcats as [C [w3 [Hc Hw3]]].
    erewrite bind_ret_eq by exact Hc.
    eexists. eexists. split; [reflexivity|].
    split; [exact (frame_trans _ _ _ Hw1 (frame_trans _ _ _ Hw2 Hw3))|].
    unfold run_inv. cbn [activethreats totalthreats].
    rewrite dict_keys_set. split; [|reflexivity].
    split; [apply keys_add_nodup; exact Hnd|].
    destruct activeonly; [exact HT|].
    rewrite HT. reflexivity.
  - unfold bind, when, output_bogus, ret.
    destruct (is_some bogus); eexists; eexists;
      (split; [reflexivity|]);
      (split; [repeat split|]);
      (split; [split; [exact Hnd|exact Htotal]|reflexivity]).
Qed.

Lemma process_lines_total depth (database : option (Cursor * Table))
    activeonly check_domain webcat bogus (file : list string) :
  lookups_have_data webcat file ->
  forall (st : Locals) (w : World),
    run_inv activeonly st ->
    exists st' w',
      for_in file
             (process_line (S (S depth)) database activeonly check_domain
                           webcat bogus) st w = (Ret st', w') /\
      frame w w' /\ run_inv activeonly st' /\
      forall k,
        In k (dict_keys (activethreats st')) <->
        In k (dict_keys (activethreats st)) \/
        exists line, In line file /\ is_valid line = true /\ k = rstrip line.
Proof.
  induction file as [|line file IH]; intros Hdata st w Hinv.
  - exists st, w. split; [reflexivity|]. split; [apply frame_refl|].
    split; [exact Hinv|].
    intros k. split; [auto|]. intros [H | [line [[] _]]]. exact H.
  - destruct (process_line_total depth database activeonly check_domain
                webcat bogus st line w
                (fun Hw => Hdata Hw line (or_introl eq_refl)) Hinv)
      as [st1 [w1 [H1 [Hw1 [Hinv1 Hkeys1]]]]].
    destruct (IH (fun Hw l Hl => Hdata Hw l (or_intror Hl)) st1 w1 Hinv1)
      as [st2 [w2 [H2 [Hw2 [Hinv2 Hkeys2]]]]].
    exists st2, w2. cbn [for_in]. erewrite bind_ret_eq by exact H1.
    split; [exact H2|]. split; [exact (frame_trans _ _ _ Hw1 Hw2)|].
    split; [exact Hinv2|].
    intros k. rewrite Hkeys2, Hkeys1.
    destruct (is_valid line) eqn:Hvalid.
    + rewrite keys_add_in. split.
      * intros [[H | ->] | [l [Hin [Hv Hk]]]].
        -- left. exact H.
        -- right. exists line. cbn [In]. auto.
        -- right. exists l. cbn [In]. auto.
      * intros [H | [l [[<- | Hin] [Hv Hk]]]].
        -- left. left. exact H.
        -- left. right. exact Hk.
        -- right. exists l. auto.
    + split.
      * intros [H | [l [Hin [Hv Hk]]]]; [left; exact H|].
        right. exists l. cbn [In]. auto.
      * intros [H | [l [[<- | Hin] [Hv Hk]]]].
        -- left. exact H.
        -- congruence.
        -- right. exists l. auto.
Qed.

(** With two frames for the lookups, the loop of [main] on a readable
    input whose category lookups find the data they read ends, prints
    nothing, and hands [gen_report] an
    [activethreats] with one entry for each distinct valid line and a
    [totalthreats] with the same keys (full run) or empty (active-only
    run). *)
Lemma process_file_total depth (database : option (Cursor * Table))
    activeonly check_domain webcat bogus (inputfile : string)
    (file : list string) (w : World) :
  files w inputfile = Some file ->
  lookups_have_data webcat file ->
  exists st w',
    process_file (S (S depth)) database activeonly check_domain webcat bogus
                 inputfile w = (Ret st, w') /\
    frame w w' /\ run_inv activeonly st /\
    forall k,
      In k (dict_keys (activethreats st)) <->
      exists line, In line file /\ is_valid line = true /\ k = rstrip line.
Proof.
  intros Hfile Hdata.
  destruct (process_lines_total depth database activeonly check_domain
              webcat bogus file Hdata initial_locals w)
    as [st [w' [Hrun [Hw' [Hinv Hkeys]]]]].
  { split; [constructor|]. destruct activeonly; reflexivity. }
  exists st, w'. unfold process_file, read_lines.
  assert (Hread : (fun w0 : World =>
                     match files w0 inputfile with
                     | Some ls => (Ret ls, w0)
                     | None => (Raise (IOError inputfile), w0)
                     end) w = (Ret file, w)) by (rewrite Hfile; reflexivity).
  erewrite bind_ret_eq by exact Hread.
  split; [exact Hrun|]. split; [exact Hw'|]. split; [exact Hinv|].
  intros k. rewrite Hkeys. cbn [initial_locals activethreats dict_keys map].
  split; [intros [[] | H]; exact H | auto].
Qed.

(* --------------------------------------------------------------------- *)
(** *** Profiles, classes and dates of an aggregate *)
(* --------------------------------------------------------------------- *)

Lemma getkeys_keys (cc : Counter) : getkeys cc = dict_keys cc.
Proof.
  unfold getkeys, dict_keys.
  exact (fold_append_map fst cc []).
Qed.

Lemma getkeys_incr (cc : Counter) (k : string) :
  getkeys (counter_incr cc k) = keys_add (getkeys cc) k.
Proof.
  rewrite !getkeys_keys. unfold counter_incr.
  destruct (dict_get cc k); apply dict_keys_set.
Qed.

Lemma dedup_from_in (l acc : list string) (x : string) :
  In x (fold_left keys_add l acc) <-> In x acc \/ In x l.
Proof.
  revert acc. induction l as [|k l IH]; intros acc; cbn [fold_left In].
  - split; [intros H; left; exact H | intros [H | []]; exact H].
  - rewrite IH, keys_add_in. split.
    + intros [[H | ->] | H];
        [left; exact H | right; left; reflexivity | right; right; exact H].
    + intros [H | [<- | H]];
        [left; left; exact H | left; right; reflexivity | right; exact H].
Qed.

Lemma dedup_from_nodup (l acc : list string) :
  NoDup acc -> NoDup (fold_left keys_add l acc).
Proof.
  revert acc. induction l as [|k l IH]; intros acc Hnd; cbn [fold_left].
  - exact Hnd.
  - apply IH, keys_add_nodup, Hnd.
Qed.

Lemma dedup_spec (l : list string) :
  NoDup (dedup l) /\ forall x, In x (dedup l) <-> In x l.
Proof.
  split.
  - apply dedup_from_nodup. constructor.
  - intros x. unfold dedup. rewrite dedup_from_in. cbn [In].
    split; [intros [[] | H]; exact H | intros H; right; exact H].
Qed.

Lemma most_recent_max (t1 t2 : datetime) : most_recent t1 t2 = Z.max t1 t2.
Proof.
  unfold most_recent. destruct (Z.gtb_spec t1 t2); lia.
Qed.

Lemma active_loop_keys (threats : list Threat) n ps cs n' ps' cs' :
  fold_left active_step threats (n, ps, cs) = (n', ps', cs') ->
  getkeys ps' = fold_left keys_add (map profile threats) (getkeys ps) /\
  getkeys cs' = fold_left keys_add (map class threats) (getkeys cs).
Proof.
  revert n ps cs. induction threats as [|th threats IH]; intros n ps cs H.
  - injection H as _ <- <-. auto.
  - cbn [fold_left active_step] in H. apply IH in H.
    rewrite !getkeys_incr in H. exact H.
Qed.

Lemma offline_loop_keys (rows : list DbRow) n ps cs n' ps' cs' :
  fold_left offline_step rows (n, ps, cs) = (n', ps', cs') ->
  getkeys ps' = fold_left keys_add (map row_profile rows) (getkeys ps) /\
  getkeys cs' = fold_left keys_add (map row_class rows) (getkeys cs).
Proof.
  revert n ps cs. induction rows as [|row rows IH]; intros n ps cs H.
  - injection H as _ <- <-. auto.
  - cbn [fold_left offline_step] in H. apply IH in H.
    rewrite !getkeys_incr in H. exact H.
Qed.

Lemma tide_loop_keys (threats : list Threat) n ps cs la le n' ps' cs' la' le' :
  fold_left tide_step threats (n, ps, cs, la, le) = (n', ps', cs', la', le') ->
  getkeys ps' = fold_left keys_add (map profile threats) (getkeys ps) /\
  getkeys cs' = fold_left keys_add (map class threats) (getkeys cs) /\
  la' = fold_left Z.max (map imported threats) la /\
  le' = fold_left Z.max (expirations threats) le.
Proof.
  revert n ps cs la le.
  induction threats as [|th threats IH]; intros n ps cs la le H.
  - injection H as _ <- <- <- <-. auto.
  - cbn [fold_left tide_step] in H. apply IH in H.
    rewrite !getkeys_incr, most_recent_max in H.
    destruct H as [Hp [Hc [Ha He]]].
    repeat split; try assumption.
    rewrite He. unfold expirations. cbn [flat_map].
    rewrite fold_left_app.
    destruct (expiration th) as [e|]; cbn [fold_left];
      [rewrite most_recent_max|]; reflexivity.
Qed.

(** The result of a lookup that found records, in closed form. *)
Lemma checkactive_found_exact depth query qtype check_domain domain_checked w :
  status_ok (status_code (querytidestate qtype query)) = true ->
  records (querytidestate qtype query) <> [] ->
  checkactive (S depth) query qtype check_domain domain_checked w =
  (Ret (mkActive
          (Z.of_nat (List.length (records (querytidestate qtype query))))
          (ProfileList
             (dedup (map profile (records (querytidestate qtype query)))))
          (dedup (map class (records (querytidestate qtype query))))
          domain_checked),
   called (QueryTideState qtype query) w).
Proof.
  intros Hok Hrec. simpl. unfold bind, log_call. rewrite Hok.
  unfold records in *.
  destruct (threat (querytidestate qtype query)) as [[|th ths]|];
    try congruence.
  match goal with
  | |- context [fold_left active_step ?l ?a] =>
      destruct (fold_left active_step l a) as [[n ps] cs] eqn:E
  end.
  destruct (active_loop_keys _ _ _ _ _ _ _ E) as [-> ->].
  apply active_loop_count in E. subst n. reflexivity.
Qed.

Lemma checktide_found_exact depth query qtype check_domain domain_checked w :
  status_ok (status_code (querytide qtype query)) = true ->
  records (querytide qtype query) <> [] ->
  checktide (S depth) query qtype check_domain domain_checked w =
  (Ret (mkTide
          (Z.of_nat (List.length (records (querytide qtype query))))
          (ProfileList (dedup (map profile (records (querytide qtype query)))))
          (dedup (map class (records (querytide qtype query))))
          (reported (latest (map imported (records (querytide qtype query)))))
          (reported (latest (expirations (records (querytide qtype query)))))
          domain_checked),
   called (QueryTide qtype query) w).
Proof.
  intros Hok Hrec. simpl. unfold bind, log_call. rewrite Hok.
  unfold records in *.
  destruct (threat (querytide qtype query)) as [[|th ths]|];
    try congruence.
  match goal with
  | |- context [fold_left tide_step ?l ?a] =>
      destruct (fold_left tide_step l a) as [[[[n ps] cs] la] le] eqn:E
  end.
  destruct (tide_loop_keys _ _ _ _ _ _ _ _ _ _ _ E) as [-> [-> [-> ->]]].
  apply tide_loop_spec in E. destruct E as [-> _]. reflexivity.
Qed.

Lemma checkoffline_exact query qtype (db_cursor : Cursor) (db_table : Table) w :
  checkoffline query qtype db_cursor db_table w =
  (Ret (Z.of_nat (List.length (db_query db_cursor db_table qtype query)),
        dedup (map row_profile (db_query db_cursor db_table qtype query)),
        dedup (map row_class (db_query db_cursor db_table qtype query))),
   called (DbQuery qtype query) w).
Proof.
  unfold checkoffline, bind, log_call.
  destruct (db_query db_cursor db_table qtype query) as [|row rows] eqn:E.
  - reflexivity.
  - cbn [truthy_list].
    match goal with
    | |- context [fold_left offline_step ?l ?a] =>
        destruct (fold_left offline_step l a) as [[n ps] cs] eqn:El
    end.
    destruct (offline_loop_keys _ _ _ _ _ _ _ El) as [-> ->].
    apply offline_loop_count in El. subst n. reflexivity.
Qed.

(** X1.  The profiles and the classes an adapter reports for the records
    of its query are the distinct profile and class values of those
    records, each once, in the order of their first occurrence: no value
    is repeated and none is lost.  This holds for [checkactive],
    [checktide] and [checkoffline]. *)
Theorem X1_profiles_distinct_first_seen :
  forall depth query qtype check_domain domain_checked w
         (db_cursor : Cursor) (db_table : Table),
    (status_ok (status_code (querytidestate qtype query)) = true ->
     records (querytidestate qtype query) <> [] ->
     exists n profiles tclasses,
       checkactive (S depth) query qtype check_domain domain_checked w =
       (Ret (mkActive n (ProfileList profiles) tclasses domain_checked),
        called (QueryTideState qtype query) w) /\
       profiles = dedup (map profile (records (querytidestate qtype query)))
       /\ tclasses = dedup (map class (records (querytidestate qtype query)))
       /\ NoDup profiles /\ NoDup tclasses /\
       (forall p, In p profiles <->
                  exists th, In th (records (querytidestate qtype query)) /\
                             profile th = p) /\
       (forall c, In c tclasses <->
                  exists th, In th (records (querytidestate qtype query)) /\
                             class th = c)) /\
    (status_ok (status_code (querytide qtype query)) = true ->
     records (querytide qtype query) <> [] ->
     exists r profiles,
       checktide (S depth) query qtype check_domain domain_checked w =
       (Ret r, called (QueryTide qtype query) w) /\
       t_profiles r = ProfileList profiles /\
       profiles = dedup (map profile (records (querytide qtype query))) /\
       t_tclasses r = dedup (map class (records (querytide qtype query))) /\
       NoDup profiles /\ NoDup (t_tclasses r) /\
       (forall p, In p profiles <->
                  exists th, In th (records (querytide qtype query)) /\
                             profile th = p) /\
       (forall c, In c (t_tclasses r) <->
                  exists th, In th (records (querytide qtype query)) /\
                             class th = c)) /\
    (exists n profiles tclasses,
        checkoffline query qtype db_cursor db_table w =
        (Ret (n, profiles, tclasses), called (DbQuery qtype query) w) /\
        profiles =
          dedup (map row_profile (db_query db_cursor db_table qtype query)) /\
        tclasses =
          dedup (map row_class (db_query db_cursor db_table qtype query)) /\
        NoDup profiles /\ NoDup tclasses /\
        (forall p, In p profiles <->
                   exists row,
                     In row (db_query db_cursor db_table qtype query) /\
                     row_profile row = p) /\
        (forall c, In c tclasses <->
                   exists row,
                     In row (db_query db_cursor db_table qtype query) /\
                     row_class row = c)).
Proof.
  intros depth query qtype check_domain domain_checked w db_cursor db_table.
  assert (Hmap : forall (A : Type) (f : A -> string) (l : list A) (x : string),
             In x (dedup (map f l)) <-> exists a, In a l /\ f a = x).
  { intros A f l x. rewrite (proj2 (dedup_spec _)), in_map_iff.
    split; intros [a [H1 H2]]; exists a; auto. }
  split; [|split].
  - intros Hok Hrec. do 3 eexists.
    split; [apply checkactive_found_exact; assumption|].
    split; [reflexivity|]. split; [reflexivity|].
    split; [apply dedup_spec|]. split; [apply dedup_spec|].
    split; intros x; apply Hmap.
  - intros Hok Hrec. do 2 eexists.
    split; [apply checktide_found_exact; assumption|].
    cbn [t_profiles t_tclasses].
    split; [reflexivity|]. split; [reflexivity|]. split; [reflexivity|].
    split; [apply dedup_spec|]. split; [apply dedup_spec|].
    split; intros x; apply Hmap.
  - do 3 eexists. split; [apply checkoffline_exact|].
    split; [reflexivity|]. split; [reflexivity|].
    split; [apply dedup_spec|]. split; [apply dedup_spec|].
    split; intros x; apply Hmap.
Qed.

Lemma fold_max_ge (l : list Z) (a : Z) :
  a <= fold_left Z.max l a /\ forall x, In x l -> x <= fold_left Z.max l a.
Proof.
  revert a. induction l as [|y l IH]; intros a; cbn [fold_left].
  - split; [lia|intros x []].
  - destruct (IH (Z.max a y)) as [H1 H2]. split; [lia|].
    intros x [<- | Hin]; [lia|exact (H2 x Hin)].
Qed.

Lemma fold_max_in (l : list Z) (a : Z) :
  fold_left Z.max l a = a \/ In (fold_left Z.max l a) l.
Proof.
  revert a. induction l as [|y l IH]; intros a; cbn [fold_left].
  - left. reflexivity.
  - destruct (IH (Z.max a y)) as [H | H].
    + rewrite H. destruct (Z.max_spec a y) as [[_ ->] | [_ ->]];
        [right; left; reflexivity | left; reflexivity].
    + right. right. exact H.
Qed.

Lemma reported_latest (l : list datetime) :
  ((forall x, In x l -> x <= epoch) -> reported (latest l) = NoDate) /\
  ((exists x, In x l /\ epoch < x) ->
   exists m, reported (latest l) = DateTime m /\ epoch < m /\
             (forall x, In x l -> x <= m) /\ In m l).
Proof.
  unfold latest. destruct (fold_max_ge l epoch) as [Hge Hall].
  destruct (fold_max_in l epoch) as [Heq | Hin]; split.
  - intros _. rewrite Heq. reflexivity.
  - intros [x [Hx Hlt]]. specialize (Hall x Hx). lia.
  - intros Hle. specialize (Hle _ Hin).
    assert (fold_left Z.max l epoch = epoch) as -> by lia. reflexivity.
  - intros [x [Hx Hlt]]. exists (fold_left Z.max l epoch).
    pose proof (Hall x Hx) as Hxm.
    split; [|split; [lia|split; [exact Hall|exact Hin]]].
    unfold reported, is_epoch.
    destruct (Z.eqb_spec (fold_left Z.max l epoch) epoch); [lia|reflexivity].
Qed.

Lemma in_expirations (threats : list Threat) (e : datetime) :
  In e (expirations threats) <->
  exists th, In th threats /\ expiration th = Some e.
Proof.
  unfold expirations. rewrite in_flat_map. split.
  - intros [th [Hin He]]. exists th. split; [exact Hin|].
    destruct (expiration th) as [e'|]; [|destruct He].
    destruct He as [<- | []]. reflexivity.
  - intros [th [Hin He]]. exists th. split; [exact Hin|].
    rewrite He. left. reflexivity.
Qed.

(** X2.  For a query with records, [checktide] reports as last-seen date
    the most recent imported timestamp and as last-expiry date the most
    recent expiration timestamp (a timestamp of one of the records, not
    earlier than any other).  A timestamp at or before
    [datetime.fromtimestamp(0)] never shows: when no imported timestamp
    (no expiration) lies after that instant the slot holds ['']. *)
Theorem X2_dates_are_the_most_recent :
  forall depth query qtype check_domain domain_checked w,
    status_ok (status_code (querytide qtype query)) = true ->
    records (querytide qtype query) <> [] ->
    exists r,
      checktide (S depth) query qtype check_domain domain_checked w =
      (Ret r, called (QueryTide qtype query) w) /\
      ((forall th, In th (records (querytide qtype query)) ->
                   imported th <= epoch) ->
       t_last_available r = NoDate) /\
      ((exists th, In th (records (querytide qtype query)) /\
                   epoch < imported th) ->
       exists m,
         t_last_available r = DateTime m /\ epoch < m /\
         (forall th, In th (records (querytide qtype query)) ->
                     imported th <= m) /\
         (exists th, In th (records (querytide qtype query)) /\
                     imported th = m)) /\
      ((forall th e, In th (records (querytide qtype query)) ->
                     expiration th = Some e -> e <= epoch) ->
       t_last_expiration r = NoDate) /\
      ((exists th e, In th (records (querytide qtype query)) /\
                     expiration th = Some e /\ epoch < e) ->
       exists m,
         t_last_expiration r = DateTime m /\ epoch < m /\
         (forall th e, In th (records (querytide qtype query)) ->
                       expiration th = Some e -> e <= m) /\
         (exists th, In th (records (querytide qtype query)) /\
                     expiration th = Some m)).
Proof.
  intros depth query qtype check_domain domain_checked w Hok Hrec.
  eexists. split; [apply checktide_found_exact; assumption|].
  cbn [t_last_available t_last_expiration].
  set (R := records (querytide qtype query)).
  destruct (reported_latest (map imported R)) as [Ha1 Ha2].
  destruct (reported_latest (expirations R)) as [He1 He2].
  split; [|split; [|split]].
  - intros Hle. apply Ha1. intros x Hx.
    apply in_map_iff in Hx. destruct Hx as [th [<- Hin]]. auto.
  - intros [th [Hin Hlt]].
    destruct Ha2 as [m [Hm [Hpos [Hmax Hmem]]]].
    { exists (imported th). split; [apply in_map; exact Hin|exact Hlt]. }
    exists m. split; [exact Hm|]. split; [exact Hpos|]. split.
    + intros th' Hin'. apply Hmax. apply in_map. exact Hin'.
    + apply in_map_iff in Hmem. destruct Hmem as [th' [Heq Hin']].
      exists th'. auto.
  - intros Hle. apply He1. intros x Hx.
    apply in_expirations in Hx. destruct Hx as [th [Hin He]]. eauto.
  - intros [th [e [Hin [He Hlt]]]].
    destruct He2 as [m [Hm [Hpos [Hmax Hmem]]]].
    { exists e. split; [apply in_expirations; eauto|exact Hlt]. }
    exists m. split; [exact Hm|]. split; [exact Hpos|]. split.
    + intros th' e' Hin' He'. apply Hmax. apply in_expirations. eauto.
    + apply in_expirations in Hmem. exact Hmem.
Qed.

(* --------------------------------------------------------------------- *)
(** *** The country evaluator and blank lines in the list files *)
(* --------------------------------------------------------------------- *)

Lemma country_codes_loop_spec (domain : string) (country_codes : list string) :
  country_codes_loop domain country_codes = true <->
  exists co, In co country_codes /\ str_in co domain = true.
Proof.
  induction country_codes as [|co codes IH]; cbn [country_codes_loop].
  - split; [discriminate|intros [co [[] _]]].
  - destruct (str_in co domain) eqn:E.
    + split; [|reflexivity]. intros _. exists co. cbn [In]. auto.
    + rewrite IH. split.
      * intros [co' [Hin H]]. exists co'. cbn [In]. auto.
      * intros [co' [[<- | Hin] H]]; [congruence|]. exists co'. auto.
Qed.

(** X3.  [checkcountry] answers true exactly when the indicator is not
    empty and one of the country codes occurs in it as a substring, the
    case of the letters being significant. *)
Theorem X3_checkcountry_substring_match :
  forall (domain : string) (country_codes : list string),
    checkcountry domain country_codes = true <->
    domain <> "" /\
    exists co, In co country_codes /\ occurs_in co domain.
Proof.
  intros domain country_codes. unfold checkcountry.
  destruct domain as [|c domain]; cbn [truthy_str].
  - split; [discriminate|intros [H _]; contradiction].
  - rewrite country_codes_loop_spec. split.
    + intros [co [Hin H]]. split; [discriminate|].
      exists co. split; [exact Hin|apply str_in_spec; exact H].
    + intros [_ [co [Hin H]]]. exists co.
      split; [exact Hin|apply str_in_spec; exact H].
Qed.

Lemma rstrip_all_space (s : string) : all_space s = true -> rstrip s = "".
Proof.
  induction s as [|c s IH]; cbn [all_space rstrip]; [reflexivity|].
  rewrite andb_true_iff. intros [Hc Hs]. rewrite (IH Hs), Hc. reflexivity.
Qed.

Lemma str_in_empty (hay : string) : str_in "" hay = true.
Proof. destruct hay; reflexivity. Qed.

(** X4.  A blank line in a list file is loaded as the empty entry, and the
    empty entry matches everything: with it in the country codes
    [checkcountry] accepts every indicator that is not empty, and with it
    in the block categories [checkwebcat] accepts every category list that
    is not empty. *)
Theorem X4_blank_line_matches_everything :
  forall (w : World) (filename : string) (ls : list string) (blank : string),
    files w filename = Some ls ->
    In blank ls ->
    all_space blank = true ->
    exists items,
      load_list filename w = (Ret items, w) /\
      In "" items /\
      (forall domain, domain <> "" -> checkcountry domain items = true) /\
      (forall cat cats, checkwebcat (Some (cat :: cats)) items = true).
Proof.
  intros w filename ls blank Hfile Hin Hblank.
  exists (map rstrip ls). split; [apply load_list_present; exact Hfile|].
  assert (Hempty : In "" (map rstrip ls)).
  { rewrite <- (rstrip_all_space blank Hblank). apply in_map. exact Hin. }
  split; [exact Hempty|]. split.
  - intros domain Hne. unfold checkcountry.
    destruct domain as [|c domain]; [contradiction|]. cbn [truthy_str].
    apply country_codes_loop_spec. exists "".
    split; [exact Hempty|apply str_in_empty].
  - intros cat cats. unfold checkwebcat, checkwebcat_run.
    destruct (webcat_items (map rstrip ls) (cat :: cats)) as [r tests] eqn:E.
    destruct r; [reflexivity|]. exfalso.
    pose proof (webcat_items_false _ _ _ E "" cat Hempty
                                   (or_introl eq_refl)) as Hno.
    unfold hit in Hno. cbn [fst snd lower] in Hno.
    rewrite str_in_empty in Hno. discriminate.
Qed.

(* --------------------------------------------------------------------- *)
(** *** When the flag [domain_checked] is set *)
(* --------------------------------------------------------------------- *)

(** X5.  As [main] calls the two remote adapters (flag [domain_checked] at
    its default), the result has [domain_checked] true exactly when the
    fallback ran: the lookup was asked to check domains, the query on the
    indicator succeeded without records, and [strip_host] changed the
    indicator. *)
Theorem X5_domain_checked_iff_fallback :
  forall depth query qtype check_domain w,
    (exists r w',
        checkactive (S (S depth)) query qtype check_domain false w
        = (Ret r, w') /\
        (a_domain_checked r = true <->
         check_domain = true /\
         status_ok (status_code (querytidestate qtype query)) = true /\
         records (querytidestate qtype query) = [] /\
         strip_host query <> query)) /\
    (exists r w',
        checktide (S (S depth)) query qtype check_domain false w
        = (Ret r, w') /\
        (t_domain_checked r = true <->
         check_domain = true /\
         status_ok (status_code (querytide qtype query)) = true /\
         records (querytide qtype query) = [] /\
         strip_host query <> query)).
Proof.
  intros depth query qtype check_domain w. split.
  - destruct (checkactive_cases (S depth) query qtype check_domain false w)
      as [[r [H Hdc]] | [-> [Hok [Hrec Hne]]]].
    + exists r. eexists. split; [exact H|]. split.
      * intros Htrue. congruence.
      * intros [-> [Hok [Hrec Hne]]].
        destruct (checkactive_direct depth (strip_host query) qtype true
                    (called (QueryTideState qtype query) w))
          as [r' [H' Hdc']].
        rewrite checkactive_fallback in H by assumption.
        rewrite H' in H. injection H as <-. exact Hdc'.
    + destruct (checkactive_direct depth (strip_host query) qtype true
                  (called (QueryTideState qtype query) w)) as [r [H Hdc]].
      exists r. eexists. rewrite checkactive_fallback by assumption.
      split; [exact H|]. split; auto.
  - destruct (checktide_cases (S depth) query qtype check_domain false w)
      as [[r [H [Hdc _]]] | [-> [Hok [Hrec Hne]]]].
    + exists r. eexists. split; [exact H|]. split.
      * intros Htrue. congruence.
      * intros [-> [Hok [Hrec Hne]]].
        destruct (checktide_direct depth (strip_host query) qtype true
                    (called (QueryTide qtype query) w))
          as [r' [H' [Hdc' _]]].
        rewrite checktide_fallback_eq in H by assumption.
        rewrite H' in H. injection H as <-. exact Hdc'.
    + destruct (checktide_direct depth (strip_host query) qtype true
                  (called (QueryTide qtype query) w)) as [r [H [Hdc _]]].
      exists r. eexists. rewrite checktide_fallback_eq by assumption.
      split; [exact H|]. split; auto.
Qed.

(* --------------------------------------------------------------------- *)
(** *** The rows and the counters of the two reports *)
(* --------------------------------------------------------------------- *)

Lemma count_by_keys {V} (d : dict V) (P : V -> bool) :
  NoDup (dict_keys d) ->
  List.length (filter (fun k => match dict_get d k with
                                | Some v => P v
                                | None => false
                                end) (dict_keys d)) =
  List.length (filter (fun e => P (snd e)) d).
Proof.
  intros Hnd. unfold dict_keys.
  assert (Hsub : forall l : dict V,
    (forall k v, In (k, v) l -> dict_get d k = Some v) ->
    List.length (filter (fun k => match dict_get d k with
                                  | Some v => P v
                                  | None => false
                                  end) (map fst l)) =
    List.length (filter (fun e => P (snd e)) l)).
  { induction l as [|[k v] l IH]; intros Hl; [reflexivity|].
    cbn [map filter fst snd]. rewrite (Hl k v (or_introl eq_refl)).
    assert (IH' := IH (fun k' v' H => Hl k' v' (or_intror H))).
    destruct (P v); cbn [List.length]; rewrite IH'; reflexivity. }
  apply Hsub. intros k v. apply dict_get_nodup. exact Hnd.
Qed.

Lemma count_threats_keys (totalthreats : dict TideResult) :
  NoDup (dict_keys totalthreats) ->
  Z.of_nat (List.length (filter (has_threats totalthreats)
                                (dict_keys totalthreats))) =
  count_threats totalthreats.
Proof.
  intros Hnd. unfold count_threats. f_equal.
  rewrite <- (count_by_keys totalthreats (fun t => 0 <? t_totalthreats t) Hnd).
  f_equal. apply filter_ext. intros k. unfold has_threats.
  destruct (dict_get totalthreats k); [apply Z.gtb_ltb|reflexivity].
Qed.

Lemma active_only_loop_exact (activethreats : dict ActiveEntry) filehandle
    (l : dict ActiveEntry) :
  forall acc w,
    (forall k v, In (k, v) l -> dict_get activethreats k = Some v) ->
    for_in (dict_keys l) (active_only_item activethreats filehandle) acc w =
    (Ret (acc + Z.of_nat (List.length
                            (filter (is_active activethreats) (dict_keys l)))),
     emit filehandle (map (active_line filehandle) l) w).
Proof.
  induction l as [|[k v] l IH]; intros acc w Hl.
  - cbn. rewrite emit_nil, Z.add_0_r. reflexivity.
  - pose proof (Hl k v (or_introl eq_refl)) as Hk.
    cbn [dict_keys map fst for_in]. unfold bind at 1.
    assert (Hstep :
      active_only_item activethreats filehandle acc k w =
      (Ret (if slot0 v >? 0 then acc + 1 else acc),
       emit filehandle [active_line filehandle (k, v)] w)).
    { unfold active_only_item, bind, subscript. rewrite Hk.
      unfold active_line. destruct filehandle; reflexivity. }
    rewrite Hstep.
    change (map fst l) with (dict_keys l).
    rewrite IH by (intros k' v' H; apply Hl; right; exact H).
    rewrite emit_app. cbn [filter map app].
    unfold is_active at 2. rewrite Hk.
    destruct (slot0 v >? 0); [|reflexivity].
    cbn [List.length]. rewrite Nat2Z.inj_succ. do 2 f_equal. lia.
Qed.

(** X7.  The active-only report has one row for each entry of
    [activethreats], in the order of the entries, showing the indicator
    with the count, the profiles and the classes of its entry; the header
    line goes to the CSV file only, before the rows, and the rows go to
    the file when there is one and to standard output otherwise. *)
Theorem X7_active_only_rows :
  forall (activethreats : dict ActiveEntry)
         (web_categories : dict (list string)) filehandle (w : World) bc cc,
    files w "block_categories" = Some bc ->
    files w "country_codes" = Some cc ->
    NoDup (dict_keys activethreats) ->
    let summary :=
      ActiveSummary (dict_len activethreats) (count_active activethreats)
                    (dict_len activethreats - count_active activethreats) in
    gen_report activethreats [] web_categories filehandle w =
    (Ret tt,
     match filehandle with
     | Some name =>
         printed [summary; CsvWritten name]
                 (written (ActiveHeader ::
                           map (active_line filehandle) activethreats ++
                           [summary]) w)
     | None =>
         printed (map (active_line filehandle) activethreats ++ [summary]) w
     end).
Proof.
  intros activethreats web_categories filehandle w bc cc Hbc Hcc Hnd summary.
  unfold summary. rewrite <- (count_active_keys _ Hnd).
  unfold gen_report, bind.
  rewrite (load_list_present _ _ _ Hbc), (load_list_present _ _ _ Hcc).
  change (dict_len (@nil (string * TideResult)) =? 0) with true.
  cbv iota.
  assert (Hget : forall k v, In (k, v) activethreats ->
                             dict_get activethreats k = Some v).
  { intros k v. apply dict_get_nodup. exact Hnd. }
  destruct filehandle as [name|]; cbn [when is_some].
  - change (print_file ActiveHeader w)
      with (Ret tt, emit (Some name) [ActiveHeader] w).
    cbv beta iota.
    rewrite (active_only_loop_exact activethreats (Some name) activethreats
               0 (emit (Some name) [ActiveHeader] w) Hget), emit_app.
    unfold emit, written, printed, print, print_file, ret. cbn.
    rewrite <- !app_assoc. reflexivity.
  - change (ret tt w) with (Ret tt, w).
    cbv beta iota.
    rewrite (active_only_loop_exact activethreats None activethreats
               0 w Hget).
    unfold emit, written, printed, print, ret. cbn.
    rewrite <- !app_assoc. reflexivity.
Qed.

Lemma full_loop_counts (activethreats : dict ActiveEntry)
    (totalthreats : dict TideResult) (web_categories : dict (list string))
    filehandle block_categories country_codes keys :
  forall with_active with_threats w,
    (forall k, In k keys ->
               In k (dict_keys activethreats) /\
               In k (dict_keys totalthreats)) ->
    exists rows,
      for_in keys
             (full_item activethreats totalthreats web_categories filehandle
                        block_categories country_codes)
             (with_active, with_threats) w =
      (Ret (with_active +
            Z.of_nat (List.length (filter (is_active activethreats) keys)),
            with_threats +
            Z.of_nat (List.length (filter (has_threats totalthreats) keys))),
       emit filehandle rows w) /\
      map row_item rows = map Some keys /\
      map row_label rows =
      map (fun k =>
             match dict_get activethreats k, dict_get totalthreats k with
             | Some a, Some t =>
                 Some (k, action_of (slot0 a) (t_totalthreats t)
                                    (dict_get web_categories k) k
                                    block_categories country_codes)
             | _, _ => None
             end) keys.
Proof.
  induction keys as [|k keys IH]; intros with_active with_threats w Hkeys.
  - exists []. rewrite emit_nil. cbn. rewrite !Z.add_0_r. auto.
  - destruct (Hkeys k (or_introl eq_refl)) as [HkA HkT].
    destruct (dict_get_key activethreats k HkA) as [a Ha].
    destruct (dict_get_key totalthreats k HkT) as [t Ht].
    set (action := action_of (slot0 a) (t_totalthreats t)
                             (dict_get web_categories k) k
                             block_categories country_codes).
    set (row :=
      match filehandle with
      | Some _ =>
          FullCsvRow k action (slot0 a) (slot1 a) (t_totalthreats t)
            (t_profiles t) (t_tclasses t) (t_last_available t)
            (t_last_expiration t) (t_domain_checked t)
            (dict_get web_categories k)
      | None =>
          FullHumanRow k action (slot0 a) (slot1 a) (t_totalthreats t)
            (t_profiles t) (t_tclasses t) (t_last_available t)
            (t_last_expiration t) (t_domain_checked t)
            (dict_get web_categories k)
      end).
    destruct (IH (if slot0 a >? 0 then with_active + 1 else with_active)
                 (if t_totalthreats t >? 0 then with_threats + 1
                  else with_threats)
                 (emit filehandle [row] w)) as [rows [Hloop [Hitems Hrows]]].
    { intros k' Hin. apply Hkeys. right. exact Hin. }
    exists (row :: rows). split; [|split].
    + cbn [for_in]. unfold bind at 1.
      assert (Hstep :
        full_item activethreats totalthreats web_categories filehandle
                  block_categories country_codes
                  (with_active, with_threats) k w =
        (Ret (if slot0 a >? 0 then with_active + 1 else with_active,
              if t_totalthreats t >? 0 then with_threats + 1
              else with_threats),
         emit filehandle [row] w)).
      { unfold full_item, bind, subscript. rewrite Ha, Ht.
        unfold row, action. destruct filehandle; reflexivity. }
      rewrite Hstep, Hloop, emit_app. cbn [filter].
      unfold is_active at 2. unfold has_threats at 2. rewrite Ha, Ht.
      do 2 f_equal. f_equal.
      * destruct (slot0 a >? 0); [|reflexivity].
        cbn [List.length]. rewrite Nat2Z.inj_succ. lia.
      * destruct (t_totalthreats t >? 0); [|reflexivity].
        cbn [List.length]. rewrite Nat2Z.inj_succ. lia.
    + cbn [map]. rewrite Hitems. f_equal.
      unfold row. destruct filehandle; reflexivity.
    + cbn [map]. rewrite Hrows, Ha, Ht. f_equal.
      unfold row. destruct filehandle; reflexivity.
Qed.

Lemma gen_report_full_counts (activethreats : dict ActiveEntry)
    (totalthreats : dict TideResult) (web_categories : dict (list string))
    filehandle (w : World) bc cc :
  files w "block_categories" = Some bc ->
  files w "country_codes" = Some cc ->
  totalthreats <> [] ->
  (forall k, In k (dict_keys activethreats) ->
             In k (dict_keys totalthreats)) ->
  let total := dict_len activethreats in
  let active :=
    Z.of_nat (List.length (filter (is_active activethreats)
                                  (dict_keys activethreats))) in
  let threats :=
    Z.of_nat (List.length (filter (has_threats totalthreats)
                                  (dict_keys activethreats))) in
  let summary := FullSummary total active threats (total - threats) in
  exists rows,
    gen_report activethreats totalthreats web_categories filehandle w =
    (Ret tt,
     match filehandle with
     | Some name =>
         printed [summary; CsvWritten name]
                 (written (FullHeader :: rows ++ [summary]) w)
     | None => printed (rows ++ [summary]) w
     end) /\
    map row_item rows = map Some (dict_keys activethreats) /\
    map row_label rows =
    map (fun k =>
           match dict_get activethreats k, dict_get totalthreats k with
           | Some a, Some t =>
               Some (k, action_of (slot0 a) (t_totalthreats t)
                                  (dict_get web_categories k) k
                                  (map rstrip bc) (map rstrip cc))
           | _, _ => None
           end) (dict_keys activethreats).
Proof.
  intros Hbc Hcc Hfull Hkeys total active threats summary.
  assert (Hlen : (dict_len totalthreats =? 0) = false).
  { destruct totalthreats as [|e T]; [contradiction|].
    unfold dict_len. cbn [List.length]. apply Z.eqb_neq. lia. }
  unfold gen_report, bind.
  rewrite (load_list_present _ _ _ Hbc), (load_list_present _ _ _ Hcc).
  rewrite Hlen.
  destruct filehandle as [name|]; cbn [when is_some].
  - change (print_file FullHeader w)
      with (Ret tt, emit (Some name) [FullHeader] w).
    destruct (full_loop_counts activethreats totalthreats web_categories
                (Some name) (map rstrip bc) (map rstrip cc)
                (dict_keys activethreats) 0 0
                (emit (Some name) [FullHeader] w)
                (fun k H => conj H (Hkeys k H)))
      as [rows [Hloop [Hitems Hrows]]].
    exists rows. split; [|split; assumption].
    rewrite Hloop, emit_app. unfold emit, written, printed, print,
      print_file, ret. cbn. rewrite <- !app_assoc. reflexivity.
  - change (ret tt w) with (Ret tt, w).
    destruct (full_loop_counts activethreats totalthreats web_categories
                None (map rstrip bc) (map rstrip cc)
                (dict_keys activethreats) 0 0 w
                (fun k H => conj H (Hkeys k H)))
      as [rows [Hloop [Hitems Hrows]]].
    exists rows. split; [|split; assumption].
    rewrite Hloop. unfold emit, written, printed, print, ret. cbn.
    rewrite <- !app_assoc. reflexivity.
Qed.

(** X6.  The full report of maps with the same keys (as [main] builds
    them) has one row for each indicator, in the order of the entries, and
    ends with the line 'Summary: Total = N, Active = K, Threats = T,
    No info = N - T', where N is the number of indicators, K the number
    with a positive active count and T the number with a positive
    historical count; the header line goes to the CSV file only. *)
Theorem X6_full_report_summary :
  forall (activethreats : dict ActiveEntry) (totalthreats : dict TideResult)
         (web_categories : dict (list string)) filehandle (w : World) bc cc,
    files w "block_categories" = Some bc ->
    files w "country_codes" = Some cc ->
    totalthreats <> [] ->
    NoDup (dict_keys activethreats) ->
    dict_keys totalthreats = dict_keys activethreats ->
    let N := dict_len activethreats in
    let K := count_active activethreats in
    let T := count_threats totalthreats in
    exists rows,
      gen_report activethreats totalthreats web_categories filehandle w =
      (Ret tt,
       match filehandle with
       | Some name =>
           printed [FullSummary N K T (N - T); CsvWritten name]
                   (written (FullHeader :: rows ++
                             [FullSummary N K T (N - T)]) w)
       | None => printed (rows ++ [FullSummary N K T (N - T)]) w
       end) /\
      map row_item rows = map Some (dict_keys activethreats).
Proof.
  intros activethreats totalthreats web_categories filehandle w bc cc
         Hbc Hcc Hfull Hnd Hsame N K T.
  destruct (gen_report_full_counts activethreats totalthreats web_categories
              filehandle w bc cc Hbc Hcc Hfull)
    as [rows [Hrun [Hitems _]]].
  { intros k Hk. rewrite Hsame. exact Hk. }
  exists rows. split; [|exact Hitems].
  rewrite Hrun. unfold K, T.
  rewrite <- (count_active_keys _ Hnd).
  rewrite <- (count_threats_keys totalthreats) by (rewrite Hsame; exact Hnd).
  rewrite Hsame. reflexivity.
Qed.

(** X8.  A row of the full report is labelled 'Category Block' only for an
    indicator that has a category list which is not empty, an active count
    and a historical count that are not positive; in particular no
    indicator gets that label when no categories were collected. *)
Theorem X8_category_block_needs_categories :
  forall (activethreats : dict ActiveEntry) (totalthreats : dict TideResult)
         (web_categories : dict (list string)) filehandle (w : World) bc cc,
    files w "block_categories" = Some bc ->
    files w "country_codes" = Some cc ->
    totalthreats <> [] ->
    (forall k, In k (dict_keys activethreats) ->
               In k (dict_keys totalthreats)) ->
    exists summary rows,
      gen_report activethreats totalthreats web_categories filehandle w =
      (Ret tt,
       match filehandle with
       | Some name =>
           printed [summary; CsvWritten name]
                   (written (FullHeader :: rows ++ [summary]) w)
       | None => printed (rows ++ [summary]) w
       end) /\
      forall row item,
        In row rows ->
        row_label row = Some (item, "Category Block") ->
        exists a t cat cats,
          dict_get activethreats item = Some a /\ slot0 a <= 0 /\
          dict_get totalthreats item = Some t /\ t_totalthreats t <= 0 /\
          dict_get web_categories item = Some (cat :: cats) /\
          checkwebcat (Some (cat :: cats)) (map rstrip bc) = true.
Proof.
  intros activethreats totalthreats web_categories filehandle w bc cc
         Hbc Hcc Hfull Hkeys.
  destruct (gen_report_full activethreats totalthreats web_categories
              filehandle w bc cc Hbc Hcc Hfull Hkeys)
    as [with_active [with_threats [rows [Hrun Hrows]]]].
  eexists. exists rows. split; [exact Hrun|].
  intros row item Hin Hlabel.
  apply (in_map row_label) in Hin. rewrite Hlabel, Hrows in Hin.
  apply in_map_iff in Hin. destruct Hin as [k [Hk _]].
  destruct (dict_get activethreats k) as [a|] eqn:Ha; [|discriminate].
  destruct (dict_get totalthreats k) as [t|] eqn:Ht; [|discriminate].
  injection Hk as -> Haction. unfold action_of in Haction.
  destruct (Z.gtb_spec (slot0 a) 0) as [Hpos|Hle]; [discriminate|].
  destruct (Z.gtb_spec (t_totalthreats t) 0) as [Htpos|Htle];
    [discriminate|].
  destruct (checkwebcat (dict_get web_categories item) (map rstrip bc))
    eqn:Hweb.
  - destruct (dict_get web_categories item) as [[|cat cats]|] eqn:Hw;
      try discriminate.
    exists a, t, cat, cats. auto 10.
  - destruct (checkcountry item (map rstrip cc)); discriminate.
Qed.

(* --------------------------------------------------------------------- *)
(** *** The loop of [main], line by line *)
(* --------------------------------------------------------------------- *)

Lemma ran_nil (w : World) : ran [] [] w = w.
Proof. destruct w. unfold ran. cbn. rewrite !app_nil_r. reflexivity. Qed.

Lemma ran_ran calls1 bogus1 calls2 bogus2 (w : World) :
  ran calls2 bogus2 (ran calls1 bogus1 w) =
  ran (calls1 ++ calls2) (bogus1 ++ bogus2) w.
Proof. unfold ran. cbn. rewrite <- !app_assoc. reflexivity. Qed.

Lemma called_ran (c : ApiCall) (w : World) : called c w = ran [c] [] w.
Proof. unfold called, ran. rewrite app_nil_r. reflexivity. Qed.

Lemma dict_get_set {V} (d : dict V) (k k' : string) (v : V) :
  dict_get (dict_set d k v) k' =
  if String.eqb k k' then Some v else dict_get d k'.
Proof.
  induction d as [|[k0 v0] d IH]; cbn [dict_set dict_get].
  - destruct (String.eqb k k'); reflexivity.
  - destruct (String.eqb_spec k0 k) as [->|Hne]; cbn [dict_get].
    + destruct (String.eqb k k'); reflexivity.
    + rewrite IH. destruct (String.eqb_spec k0 k') as [->|Hne'];
        [|reflexivity].
      destruct (String.eqb_spec k k'); [congruence|reflexivity].
Qed.

Lemma checkactive_calls depth query qtype check_domain domain_checked w :
  exists r calls,
    checkactive (S (S depth)) query qtype check_domain domain_checked w
    = (Ret r, ran calls [] w) /\
    forallb (fun c => negb (is_querytide c)) calls = true.
Proof.
  destruct (checkactive_cases (S depth) query qtype check_domain
                              domain_checked w)
    as [[r [H _]] | [-> [Hok [Hrec Hne]]]].
  - exists r, [QueryTideState qtype query]. rewrite H, called_ran. auto.
  - destruct (checkactive_direct depth (strip_host query) qtype true
                (called (QueryTideState qtype query) w)) as [r [H _]].
    exists r, [QueryTideState qtype query;
               QueryTideState qtype (strip_host query)].
    rewrite checkactive_fallback by assumption.
    rewrite H, !called_ran, ran_ran. auto.
Qed.

Lemma checktide_calls depth query qtype check_domain domain_checked w :
  exists r calls,
    checktide (S (S depth)) query qtype check_domain domain_checked w
    = (Ret r, ran calls [] w).
Proof.
  destruct (checktide_cases (S depth) query qtype check_domain
                            domain_checked w)
    as [[r [H _]] | [-> [Hok [Hrec Hne]]]].
  - exists r, [QueryTide qtype query]. rewrite H, called_ran. reflexivity.
  - destruct (checktide_direct depth (strip_host query) qtype true
                (called (QueryTide qtype query) w)) as [r [H _]].
    exists r, [QueryTide qtype query; QueryTide qtype (strip_host query)].
    rewrite checktide_fallback_eq by assumption.
    rewrite H, !called_ran, ran_ran. reflexivity.
Qed.

Lemma process_line_invalid depth (database : option (Cursor * Table))
    activeonly check_domain webcat bogus (st : Locals) (line : string)
    (w : World) :
  is_valid line = false ->
  process_line depth database activeonly check_domain webcat bogus st line w
  = (Ret (mkLocals (activethreats st) (totalthreats st) (web_cats st)
                   (linecount st + 1) (bogus_lines st + 1)),
     ran [] (if is_some bogus then [(linecount st + 1, rstrip line)] else [])
         w).
Proof.
  unfold is_valid. intros Hinv. unfold process_line. rewrite Hinv.
  unfold bind, when, output_bogus, ret.
  destruct (is_some bogus); [|rewrite ran_nil; reflexivity].
  unfold ran. rewrite app_nil_r. reflexivity.
Qed.

Lemma process_line_valid depth (database : option (Cursor * Table))
    activeonly check_domain webcat bogus (st : Locals) (line : string)
    (w : World) :
  is_valid line = true ->
  (webcat = true -> data_type (rstrip line) = "host" ->
   has_data (rstrip line) "host" = true) ->
  exists a T C calls,
    process_line (S (S depth)) database activeonly check_domain webcat bogus
                 st line w
    = (Ret (mkLocals (dict_set (activethreats st) (rstrip line) a) T C
                     (linecount st + 1) (bogus_lines st)),
       ran calls [] w) /\
    calls <> [] /\
    (activeonly = true ->
     T = totalthreats st /\
     forallb (fun c => negb (is_querytide c)) calls = true) /\
    (forall k cats,
        dict_get C k = Some cats ->
        dict_get (web_cats st) k = Some cats \/
        (k = rstrip line /\ webcat = true /\ data_type k = "host")).
Proof.
  unfold is_valid. intros Hvalid Hdata. unfold process_line. rewrite Hvalid.
  set (query := rstrip line). set (qtype := data_type query).
  assert (Hactive : exists a calls,
    match database with
    | Some (db_cursor, db_table) =>
        r <- checkoffline query qtype db_cursor db_table ;;
        (let '(n, profiles, tclasses) := r in
         ret (FromLocal n profiles tclasses))
    | None =>
        r <- checkactive (S (S depth)) query qtype check_domain false ;;
        ret (FromTide r)
    end w = (Ret a, ran calls [] w) /\ calls <> [] /\
    forallb (fun c => negb (is_querytide c)) calls = true).
  { destruct database as [[db_cursor db_table]|].
    - eexists. exists [DbQuery qtype query].
      erewrite bind_ret_eq by apply checkoffline_exact.
      rewrite called_ran. split; [reflexivity|]. split; [discriminate|auto].
    - destruct (checkactive_calls depth query qtype check_domain false w)
        as [r [calls [Hq Hcalls]]].
      eexists. exists calls. erewrite bind_ret_eq by exact Hq.
      split; [reflexivity|]. split; [|exact Hcalls].
      intros ->. rewrite ran_nil in Hq.
      destruct (checkactive_cases (S depth) query qtype check_domain false w)
        as [[r' [H' _]] | [-> [Hok [Hrec Hne]]]].
      + rewrite H' in Hq. injection Hq as _ Hw.
        apply (f_equal api_log) in Hw. cbn in Hw.
        apply (f_equal (@List.length ApiCall)) in Hw.
        rewrite length_app in Hw. cbn in Hw. lia.
      + destruct (checkactive_direct depth (strip_host query) qtype true
                    (called (QueryTideState qtype query) w)) as [r' [H' _]].
        rewrite checkactive_fallback in Hq by assumption.
        rewrite H' in Hq. injection Hq as _ Hw.
        apply (f_equal api_log) in Hw. cbn in Hw.
        apply (f_equal (@List.length ApiCall)) in Hw.
        rewrite !length_app in Hw. cbn in Hw. lia. }
  destruct Hactive as [a [calls1 [Ha [Hne1 Hq1]]]].
  erewrite bind_ret_eq by exact Ha.
  assert (Htide : exists T calls,
    (if negb activeonly
     then t <- checktide (S (S depth)) query qtype check_domain false ;;
          ret (dict_set (totalthreats st) query t)
     else ret (totalthreats st)) (ran calls1 [] w)
    = (Ret T, ran calls [] (ran calls1 [] w)) /\
    (activeonly = true -> T = totalthreats st /\ calls = [])).
  { destruct activeonly; cbn [negb].
    - exists (totalthreats st), []. rewrite ran_nil. auto.
    - destruct (checktide_calls depth query qtype check_domain false
                  (ran calls1 [] w)) as [t [calls Hq]].
      eexists. exists calls. erewrite bind_ret_eq by exact Hq.
      split; [reflexivity|discriminate]. }
  destruct Htide as [T [calls2 [Ht HT]]].
  erewrite bind_ret_eq by exact Ht.
  assert (Hcats : exists C calls,
    (if (String.eqb qtype "host" && webcat)%bool
     then c <- get_web_categories query qtype ;;
          ret (dict_set (web_cats st) query c)
     else ret (web_cats st)) (ran calls2 [] (ran calls1 [] w))
    = (Ret C, ran calls [] (ran calls2 [] (ran calls1 [] w))) /\
    forallb (fun c => negb (is_querytide c)) calls = true /\
    (forall k cats,
        dict_get C k = Some cats ->
        dict_get (web_cats st) k = Some cats \/
        (k = query /\ webcat = true /\ data_type k = "host"))).
  { destruct (String.eqb_spec qtype "host") as [Hhost|Hhost];
      destruct webcat; cbn [andb];
      try solve [exists (web_cats st), []; rewrite ran_nil; auto].
    destruct (get_web_categories_spec query qtype
                (ran calls2 [] (ran calls1 [] w))) as [cats Hc].
    { rewrite Hhost. exact (Hdata eq_refl Hhost). }
    eexists. exists [DossierQuery query qtype].
    erewrite bind_ret_eq by exact Hc. rewrite called_ran.
    split; [reflexivity|]. split; [reflexivity|].
    intros k cats' Hget. rewrite dict_get_set in Hget.
    destruct (String.eqb_spec query k) as [<-|Hne]; [|auto].
    right. auto. }
  destruct Hcats as [C [calls3 [Hc [Hq3 HC]]]].
  erewrite bind_ret_eq by exact Hc.
  exists a, T, C, (calls1 ++ calls2 ++ calls3)%list.
  unfold ret. rewrite !ran_ran. cbn [app].
  split; [reflexivity|]. split.
  - destruct calls1; [contradiction|discriminate].
  - split; [|exact HC].
    intros Hao. destruct (HT Hao) as [-> ->]. split; [reflexivity|].
    cbn [app]. rewrite forallb_app, Hq1, Hq3. reflexivity.
Qed.

Lemma process_lines_exact depth (database : option (Cursor * Table))
    activeonly check_domain webcat bogus (file : list string) :
  lookups_have_data webcat file ->
  forall (st : Locals) (w : World),
  exists st' calls,
    for_in file
           (process_line (S (S depth)) database activeonly check_domain
                         webcat bogus) st w
    = (Ret st',
       ran calls (if is_some bogus then bogus_lines_of (linecount st) file
                  else []) w) /\
    linecount st' = linecount st + Z.of_nat (List.length file) /\
    bogus_lines st' =
      bogus_lines st +
      Z.of_nat (List.length (filter (fun l => negb (is_valid l)) file)) /\
    dict_keys (activethreats st') =
      fold_left keys_add (map rstrip (filter is_valid file))
                (dict_keys (activethreats st)) /\
    (activeonly = true ->
     totalthreats st' = totalthreats st /\
     forallb (fun c => negb (is_querytide c)) calls = true) /\
    ((forall l, In l file -> is_valid l = false) ->
     calls = [] /\ activethreats st' = activethreats st) /\
    (forall k cats,
        dict_get (web_cats st') k = Some cats ->
        dict_get (web_cats st) k = Some cats \/
        (webcat = true /\ data_type k = "host" /\
         In k (map rstrip (filter is_valid file)))).
Proof.
  induction file as [|line file IH]; intros Hdata st w;
    [|specialize (IH (fun Hw l Hl => Hdata Hw l (or_intror Hl)))].
  - exists st, []. cbn [for_in bogus_lines_of filter map fold_left List.length].
    replace (if is_some bogus then [] else []) with (@nil (Z * string))
      by (destruct (is_some bogus); reflexivity).
    rewrite ran_nil, !Z.add_0_r.
    repeat split; auto.
  - cbn [for_in filter bogus_lines_of List.length].
    destruct (is_valid line) eqn:Hvalid; cbn [negb map fold_left].
    + destruct (process_line_valid depth database activeonly check_domain
                  webcat bogus st line w Hvalid
                  (fun Hw => Hdata Hw line (or_introl eq_refl)))
        as [a [T [C [calls1 [Hline [Hne [Hao HC]]]]]]].
      destruct (IH (mkLocals (dict_set (activethreats st) (rstrip line) a)
                             T C (linecount st + 1) (bogus_lines st))
                   (ran calls1 [] w))
        as [st' [calls2 [Hrest [Hlc [Hbl [Hkeys [Hao' [Hinv Hcats]]]]]]]].
      cbn [activethreats totalthreats web_cats linecount bogus_lines]
        in Hrest, Hlc, Hbl, Hkeys, Hao', Hinv, Hcats.
      exists st', (calls1 ++ calls2)%list.
      erewrite bind_ret_eq by exact Hline.
      rewrite Hrest, ran_ran. cbn [app].
      split; [reflexivity|].
      split; [rewrite Hlc, Nat2Z.inj_succ; lia|].
      split; [exact Hbl|].
      split; [rewrite Hkeys, dict_keys_set; reflexivity|].
      split; [|split].
      * intros Hact. destruct (Hao Hact) as [-> Hq1].
        destruct (Hao' Hact) as [-> Hq2].
        split; [reflexivity|]. rewrite forallb_app, Hq1, Hq2. reflexivity.
      * intros Hall. specialize (Hall line (or_introl eq_refl)). congruence.
      * intros k cats Hget. destruct (Hcats k cats Hget) as [H | [H1 [H2 H3]]].
        -- destruct (HC k cats H) as [H' | [-> [H1 H2]]]; [left; exact H'|].
           right. cbn [In]. auto.
        -- right. cbn [In]. auto.
    + erewrite bind_ret_eq by (apply process_line_invalid; exact Hvalid).
      destruct (IH (mkLocals (activethreats st) (totalthreats st)
                             (web_cats st) (linecount st + 1)
                             (bogus_lines st + 1))
                   (ran [] (if is_some bogus
                            then [(linecount st + 1, rstrip line)] else [])
                        w))
        as [st' [calls2 [Hrest [Hlc [Hbl [Hkeys [Hao' [Hinv Hcats]]]]]]]].
      cbn [activethreats totalthreats web_cats linecount bogus_lines]
        in Hrest, Hlc, Hbl, Hkeys, Hao', Hinv, Hcats.
      exists st', calls2.
      rewrite Hrest, ran_ran. cbn [app].
      split; [destruct (is_some bogus); reflexivity|].
      split; [rewrite Hlc, Nat2Z.inj_succ; lia|].
      split; [rewrite Hbl; cbn [List.length]; rewrite Nat2Z.inj_succ; lia|].
      split; [exact Hkeys|]. split; [exact Hao'|]. split; [|exact Hcats].
      intros Hall. apply Hinv. intros l Hl. apply Hall. right. exact Hl.
Qed.

Lemma in_bogus_lines_of (lines : list string) :
  forall (n num : Z) (text : string),
    In (num, text) (bogus_lines_of n lines) <->
    exists i line,
      nth_error lines i = Some line /\ is_valid line = false /\
      num = n + Z.of_nat i + 1 /\ text = rstrip line.
Proof.
  induction lines as [|l lines IH]; intros n num text.
  - cbn [bogus_lines_of In]. split; [intros []|].
    intros [i [line [H _]]]. destruct i; discriminate.
  - cbn [bogus_lines_of].
    assert (Htail :
      In (num, text) (bogus_lines_of (n + 1) lines) <->
      exists i line,
        nth_error (l :: lines) (S i) = Some line /\ is_valid line = false /\
        num = n + Z.of_nat (S i) + 1 /\ text = rstrip line).
    { rewrite IH. split; intros [i [line [H1 [H2 [H3 H4]]]]];
        exists i, line; cbn [nth_error] in *;
        (repeat split; [assumption | assumption | lia | assumption]). }
    destruct (is_valid l) eqn:Hvalid.
    + rewrite Htail. split.
      * intros [i [line H]]. exists (S i), line. exact H.
      * intros [[|i] [line [H1 [H2 [H3 H4]]]]].
        -- cbn [nth_error] in H1. injection H1 as <-. congruence.
        -- exists i, line. auto.
    + cbn [In]. rewrite Htail. split.
      * intros [Heq | [i [line H]]].
        -- injection Heq as <- <-. exists 0%nat, l. cbn [nth_error].
           repeat split; [assumption | cbn; lia].
        -- exists (S i), line. exact H.
      * intros [[|i] [line [H1 [H2 [H3 H4]]]]].
        -- cbn [nth_error] in H1. injection H1 as <-. left.
           subst. f_equal. cbn. lia.
        -- right. exists i, line. auto.
Qed.

(** The loop of [main] on a readable input, in full. *)
Lemma process_file_exact depth (database : option (Cursor * Table))
    activeonly check_domain webcat bogus (inputfile : string)
    (file : list string) (w : World) :
  files w inputfile = Some file ->
  lookups_have_data webcat file ->
  exists st calls,
    process_file (S (S depth)) database activeonly check_domain webcat bogus
                 inputfile w
    = (Ret st,
       ran calls (if is_some bogus then bogus_lines_of 0 file else []) w) /\
    linecount st = Z.of_nat (List.length file) /\
    bogus_lines st =
      Z.of_nat (List.length (filter (fun l => negb (is_valid l)) file)) /\
    dict_keys (activethreats st) = indicators file /\
    run_inv activeonly st /\
    (activeonly = true ->
     forallb (fun c => negb (is_querytide c)) calls = true) /\
    ((forall l, In l file -> is_valid l = false) ->
     calls = [] /\ activethreats st = []) /\
    (forall k cats,
        dict_get (web_cats st) k = Some cats ->
        webcat = true /\ data_type k = "host" /\ In k (indicators file)).
Proof.
  intros Hfile Hdata.
  destruct (process_lines_exact depth database activeonly check_domain
              webcat bogus file Hdata initial_locals w)
    as [st [calls [Hrun [Hlc [Hbl [Hkeys [Hao [Hinv Hcats]]]]]]]].
  cbn [initial_locals activethreats totalthreats web_cats linecount
       bogus_lines dict_keys map] in Hrun, Hlc, Hbl, Hkeys, Hao, Hinv, Hcats.
  destruct (process_file_total depth database activeonly check_domain
              webcat bogus inputfile file w Hfile Hdata)
    as [st2 [w2 [Hrun2 [_ [Hrun_inv _]]]]].
  assert (Hread : read_lines inputfile w = (Ret file, w)).
  { unfold read_lines. rewrite Hfile. reflexivity. }
  assert (Hpf :
    process_file (S (S depth)) database activeonly check_domain webcat bogus
                 inputfile w
    = (Ret st,
       ran calls (if is_some bogus then bogus_lines_of 0 file else []) w)).
  { unfold process_file. erewrite bind_ret_eq by exact Hread. exact Hrun. }
  rewrite Hpf in Hrun2. injection Hrun2 as <- _.
  exists st, calls. split; [exact Hpf|].
  split; [lia|]. split; [lia|]. split; [exact Hkeys|].
  split; [exact Hrun_inv|]. split; [intros H; apply Hao; exact H|].
  split; [exact Hinv|].
  intros k cats Hget. destruct (Hcats k cats Hget) as [H | [H1 [H2 H3]]].
  - discriminate.
  - split; [exact H1|]. split; [exact H2|].
    unfold indicators. apply dedup_spec. exact H3.
Qed.

Lemma bind_ret_inv {A B} (m : M A) (k : A -> M B) (w w' : World) (b : B) :
  bind m k w = (Ret b, w') ->
  exists a w1, m w = (Ret a, w1) /\ k a w1 = (Ret b, w').
Proof.
  unfold bind. destruct (m w) as [[a|e] w1]; [|discriminate].
  intros H. exists a, w1. split; [reflexivity|exact H].
Qed.

Lemma get_web_categories_raises (query qtype : string) (w : World) :
  has_data query qtype = false ->
  exists e,
    get_web_categories query qtype w =
    (Raise e, called (DossierQuery query qtype) w).
Proof.
  cbv [has_data get_web_categories bind log_call first_item get_of ret
       raise].
  destruct (status_ok (dossier_status (dossierquery query qtype)));
    cbn [negb orb]; [|discriminate].
  destruct (dossier_results (dossierquery query qtype)) as [[|first rest]|];
    [intros _; eexists; reflexivity| |intros _; eexists; reflexivity].
  destruct (result_data first) as [d|]; [discriminate|].
  intros _. eexists. reflexivity.
Qed.

(** A line whose category lookup lacks the data does not get through the
    body of the loop. *)
Lemma process_line_returns depth (database : option (Cursor * Table))
    activeonly check_domain bogus (st st' : Locals) (line : string)
    (w w' : World) :
  process_line depth database activeonly check_domain true bogus st line w
  = (Ret st', w') ->
  data_type (rstrip line) = "host" ->
  has_data (rstrip line) "host" = true.
Proof.
  intros Hrun Hhost. unfold process_line in Hrun. rewrite Hhost in Hrun.
  change (negb (String.eqb "host" "invalid")) with true in Hrun.
  change (String.eqb "host" "host" && true)%bool with true in Hrun.
  cbv beta iota in Hrun.
  apply bind_ret_inv in Hrun. destruct Hrun as [a [w1 [_ Hrun]]].
  apply bind_ret_inv in Hrun. destruct Hrun as [T [w2 [_ Hrun]]].
  apply bind_ret_inv in Hrun. destruct Hrun as [C [w3 [Hrun _]]].
  apply bind_ret_inv in Hrun. destruct Hrun as [c [w4 [Hrun _]]].
  destruct (has_data (rstrip line) "host") eqn:Hdata; [reflexivity|].
  destruct (get_web_categories_raises (rstrip line) "host" w2 Hdata)
    as [e He].
  rewrite He in Hrun. discriminate Hrun.
Qed.

Lemma process_lines_returns depth (database : option (Cursor * Table))
    activeonly check_domain webcat bogus (file : list string) :
  forall (st st' : Locals) (w w' : World),
    for_in file
           (process_line depth database activeonly check_domain webcat bogus)
           st w = (Ret st', w') ->
    lookups_have_data webcat file.
Proof.
  induction file as [|line file IH]; intros st st' w w' Hrun Hw l Hin Hhost.
  - destruct Hin.
  - cbn [for_in] in Hrun. apply bind_ret_inv in Hrun.
    destruct Hrun as [st1 [w1 [H1 H2]]]. destruct Hin as [<- | Hin].
    + subst webcat. exact (process_line_returns _ _ _ _ _ _ _ _ _ _ H1 Hhost).
    + exact (IH st1 st' w1 w' H2 Hw l Hin Hhost).
Qed.

(* --------------------------------------------------------------------- *)
(** *** Properties of the loop of [main] *)
(* --------------------------------------------------------------------- *)



(* --------------------------------------------------------------------- *)
(** *** Properties of [main] *)
(* --------------------------------------------------------------------- *)

Lemma main_setup_cases (args : Args) (w : World) :
  (exists code, main_setup args w = (Raise (SystemExit code), w)) \/
  (exists activeonly database bogus outfile,
      main_setup args w = (Ret (activeonly, database, bogus, outfile), w) /\
      (arg_active args = true -> activeonly = true) /\
      (database = None -> activeonly = arg_active args)).
Proof.
  unfold main_setup.
  assert (Hrest : forall activeonly database,
    (arg_active args = true -> activeonly = true) ->
    (database = None -> activeonly = arg_active args) ->
    (exists code,
        bind (ret (activeonly, database))
             (fun r : bool * option (Cursor * Table) =>
                let '(activeonly, database) := r in
                bogus_out <-
                  (if truthy_opt truthy_str (arg_bogus args) then
                     match arg_bogus args with
                     | Some bogusfilename =>
                         match open_file bogusfilename with
                         | Some h => ret (Some h)
                         | None => raise (SystemExit 1)
                         end
                     | None => ret None
                     end
                   else ret None) ;;
                let outfile :=
                  if truthy_opt truthy_str (arg_output args) then
                    match arg_output args with
                    | Some outputfile => open_file outputfile
                    | None => None
                    end
                  else None in
                ret (activeonly, database, bogus_out, outfile)) w
        = (Raise (SystemExit code), w)) \/
    (exists activeonly' database' bogus outfile,
        bind (ret (activeonly, database))
             (fun r : bool * option (Cursor * Table) =>
                let '(activeonly, database) := r in
                bogus_out <-
                  (if truthy_opt truthy_str (arg_bogus args) then
                     match arg_bogus args with
                     | Some bogusfilename =>
                         match open_file bogusfilename with
                         | Some h => ret (Some h)
                         | None => raise (SystemExit 1)
                         end
                     | None => ret None
                     end
                   else ret None) ;;
                let outfile :=
                  if truthy_opt truthy_str (arg_output args) then
                    match arg_output args with
                    | Some outputfile => open_file outputfile
                    | None => None
                    end
                  else None in
                ret (activeonly, database, bogus_out, outfile)) w
        = (Ret (activeonly', database', bogus, outfile), w) /\
        (arg_active args = true -> activeonly' = true) /\
        (database' = None -> activeonly' = arg_active args))).
  { intros activeonly database H1 H2. unfold bind, ret.
    destruct (truthy_opt truthy_str (arg_bogus args)).
    - destruct (arg_bogus args) as [bogusfilename|].
      + destruct (open_file bogusfilename) as [h|].
        * right. do 4 eexists. split; [reflexivity|auto].
        * left. eexists. reflexivity.
      + right. do 4 eexists. split; [reflexivity|auto].
    - right. do 4 eexists. split; [reflexivity|auto]. }
  destruct (truthy_opt truthy_str (arg_local args)).
  - destruct (arg_local args) as [database|].
    + destruct (opendb database) as [db_cursor|];
        [|left; eexists; reflexivity].
      destruct (get_table db_cursor) as [db_table|];
        [|left; eexists; reflexivity].
      apply Hrest; [reflexivity|discriminate].
    + apply Hrest; auto.
  - apply Hrest; auto.
Qed.

(** X13.  With the option [active] set, whatever the other options, the
    statements of [main] that follow the reading of the options make no
    call to the full-history service and every line they print or write
    belongs to the four-column report; a run that ends with exit code 0
    has printed the summary of that report.  [main] itself, which calls
    [parseargs] with an argument, ends in an exception at that call and
    leaves the world as it was. *)
Theorem X13_active_flag_skips_history :
  forall depth (args : Args) (w : World),
    arg_active args = true ->
    (exists o w' calls new_out new_csv,
        main_from_options (S (S depth)) args w = (o, w') /\
        api_log w' = (api_log w ++ calls)%list /\
        forallb (fun c => negb (is_querytide c)) calls = true /\
        stdout w' = (stdout w ++ new_out)%list /\
        csv_out w' = (csv_out w ++ new_csv)%list /\
        forallb active_schema (new_out ++ new_csv) = true /\
        (o = Ret 0 ->
         exists total active,
           In (ActiveSummary total active (total - active)) new_out)) /\
    (forall raw_args, exists e, main (S (S depth)) raw_args w = (Raise e, w)).
Proof.
  intros depth args w Hactive.
  split; [|intros raw_args; eexists; reflexivity].
  destruct (main_setup_cases args w)
    as [[code Hsetup] | [ao [db [b [out [Hsetup [Hao _]]]]]]].
  - exists (Raise (SystemExit code)), w, [], [], [].
    unfold main_from_options. erewrite bind_raise_eq by exact Hsetup.
    silent_run.
  - rewrite (Hao Hactive) in Hsetup. unfold main_from_options.
    erewrite bind_ret_eq by exact Hsetup. cbv beta iota zeta.
    apply main_try_active_only.
Qed.


(** X11.  The two output files fail differently in the set-up of [main].
    For a file that [open_file] cannot open and has not moved aside (it
    moves an existing file to its '.bak' name before it reopens it): as
    the CSV file it is not fatal, and the set-up ends as it does without
    the option; as the bogus-line file it is, and with no local database
    in the way the set-up leaves through [exit(1)]. *)
Theorem X11_output_file_failures :
  forall (args : Args) (filename : string) (w : World),
    open_file filename = None ->
    (isfile filename && can_backup filename)%bool = false ->
    (arg_output args = Some filename ->
     main_setup args w =
     main_setup
       (mkArgs (arg_input args) None (arg_bogus args) (arg_active args)
               (arg_check_domains args) (arg_webcat args) (arg_local args))
       w) /\
    (arg_bogus args = Some filename ->
     filename <> "" ->
     arg_local args = None ->
     main_setup args w = (Raise (SystemExit 1), w)).
Proof.
  intros args filename w Hopen _. split.
  - intros Hout. destruct args as [input output bogus active cd wc local].
    cbn [arg_output] in Hout. subst output.
    unfold main_setup.
    cbn [arg_input arg_output arg_bogus arg_active arg_check_domains
         arg_webcat arg_local truthy_opt].
    rewrite Hopen. destruct (truthy_str filename); reflexivity.
  - intros Hbogus Hname Hlocal. unfold main_setup.
    rewrite Hlocal, Hbogus. cbn [truthy_opt].
    assert (Htruthy : truthy_str filename = true).
    { destruct filename; [contradiction|reflexivity]. }
    rewrite Htruthy, Hopen. reflexivity.
Qed.

(** X12.  Without a readable input file the [try] statement of [main]
    looks nothing up and prints nothing: the handler of [IOError] sets
    the exit code to 1, and the log of calls and the output streams are
    as they were. *)
Theorem X12_missing_input_file :
  forall depth activeonly (database : option (Cursor * Table)) bogus outfile
         check_domain webcat (inputfile : string) (w : World),
    files w inputfile = None ->
    main_try depth activeonly database bogus outfile check_domain webcat
             inputfile w = (Ret 1, w).
Proof.
  intros depth activeonly database bogus outfile check_domain webcat
         inputfile w Hfile.
  unfold main_try, except_IOError, process_file, bind, read_lines.
  rewrite Hfile. reflexivity.
Qed.

Lemma dict_keys_nil {V} (d : dict V) : dict_keys d = [] -> d = [].
Proof. destruct d; [reflexivity|discriminate]. Qed.

Lemma dict_len_keys {V} (d : dict V) :
  dict_len d = Z.of_nat (List.length (dict_keys d)).
Proof. unfold dict_len, dict_keys. rewrite length_map. reflexivity. Qed.


(* --------------------------------------------------------------------- *)
(** *** A run on the local database, lookup by lookup *)
(* --------------------------------------------------------------------- *)

Lemma process_line_local depth (db_cursor : Cursor) (db_table : Table)
    check_domain bogus (st : Locals) (line : string) (w : World) :
  is_valid line = true ->
  process_line depth (Some (db_cursor, db_table)) true check_domain false
               bogus st line w
  = (Ret (mkLocals (dict_set (activethreats st) (rstrip line)
                             (local_entry db_cursor db_table (rstrip line)))
                   (totalthreats st) (web_cats st) (linecount st + 1)
                   (bogus_lines st)),
     ran [DbQuery (data_type (rstrip line)) (rstrip line)] [] w).
Proof.
  unfold is_valid. intros Hvalid. unfold process_line. rewrite Hvalid.
  erewrite bind_ret_eq
    by (erewrite bind_ret_eq by apply checkoffline_exact; reflexivity).
  cbn [negb]. erewrite bind_ret_eq by reflexivity.
  rewrite andb_false_r. erewrite bind_ret_eq by reflexivity.
  rewrite called_ran. reflexivity.
Qed.

Lemma process_lines_local depth (db_cursor : Cursor) (db_table : Table)
    check_domain bogus (file : list string) :
  forall (st : Locals) (w : World),
  exists st',
    for_in file
           (process_line depth (Some (db_cursor, db_table)) true check_domain
                         false bogus) st w
    = (Ret st',
       ran (map (fun q => DbQuery (data_type q) q)
                (map rstrip (filter is_valid file)))
           (if is_some bogus then bogus_lines_of (linecount st) file else [])
           w) /\
    totalthreats st' = totalthreats st /\
    web_cats st' = web_cats st /\
    forall k,
      (In k (map rstrip (filter is_valid file)) ->
       dict_get (activethreats st') k
       = Some (local_entry db_cursor db_table k)) /\
      (~ In k (map rstrip (filter is_valid file)) ->
       dict_get (activethreats st') k = dict_get (activethreats st) k).
Proof.
  induction file as [|line file IH]; intros st w.
  - exists st. cbn [for_in bogus_lines_of filter map].
    replace (if is_some bogus then [] else []) with (@nil (Z * string))
      by (destruct (is_some bogus); reflexivity).
    rewrite ran_nil. repeat split; auto. intros [].
  - cbn [for_in filter bogus_lines_of].
    destruct (is_valid line) eqn:Hvalid; cbn [map].
    + erewrite bind_ret_eq by (apply process_line_local; exact Hvalid).
      destruct (IH (mkLocals
                      (dict_set (activethreats st) (rstrip line)
                         (local_entry db_cursor db_table (rstrip line)))
                      (totalthreats st) (web_cats st) (linecount st + 1)
                      (bogus_lines st))
                   (ran [DbQuery (data_type (rstrip line)) (rstrip line)]
                        [] w))
        as [st' [Hrest [HT [HC Hget]]]].
      cbn [activethreats totalthreats web_cats linecount] in Hrest, HT, HC,
        Hget.
      exists st'. rewrite Hrest, ran_ran. cbn [app].
      split; [reflexivity|]. split; [exact HT|]. split; [exact HC|].
      intros k. destruct (Hget k) as [Hin Hout]. split.
      * intros [<- | Hk]; [|exact (Hin Hk)].
        destruct (in_dec string_dec (rstrip line)
                         (map rstrip (filter is_valid file))) as [Hk|Hk].
        -- exact (Hin Hk).
        -- rewrite (Hout Hk), dict_get_set, String.eqb_refl. reflexivity.
      * intros Hk. rewrite Hout by (intros H; apply Hk; right; exact H).
        rewrite dict_get_set.
        destruct (String.eqb_spec (rstrip line) k) as [Heq|Hne];
          [|reflexivity].
        exfalso. apply Hk. left. exact Heq.
    + erewrite bind_ret_eq by (apply process_line_invalid; exact Hvalid).
      destruct (IH (mkLocals (activethreats st) (totalthreats st)
                             (web_cats st) (linecount st + 1)
                             (bogus_lines st + 1))
                   (ran [] (if is_some bogus
                            then [(linecount st + 1, rstrip line)] else [])
                        w))
        as [st' [Hrest [HT [HC Hget]]]].
      cbn [activethreats totalthreats web_cats linecount] in Hrest, HT, HC,
        Hget.
      exists st'. rewrite Hrest, ran_ran. cbn [app].
      split; [destruct (is_some bogus); reflexivity|].
      split; [exact HT|]. split; [exact HC|exact Hget].
Qed.

(** X16.  A run on the local database without web categories makes
    exactly one database query for each valid line, in the order of the
    input, and no other call; when the loop ends [totalthreats] and
    [web_cats] are empty and [activethreats] holds, for each indicator of
    the input, the number of rows of its query with their distinct
    profiles and classes. *)
Theorem X16_local_run_lookups :
  forall depth (db_cursor : Cursor) (db_table : Table) check_domain bogus
         (inputfile : string) (file : list string) (w : World),
    files w inputfile = Some file ->
    exists st,
      process_file depth (Some (db_cursor, db_table)) true check_domain false
                   bogus inputfile w
      = (Ret st,
         ran (map (fun q => DbQuery (data_type q) q)
                  (map rstrip (filter is_valid file)))
             (if is_some bogus then bogus_lines_of 0 file else []) w) /\
      totalthreats st = [] /\
      web_cats st = [] /\
      forall k,
        (In k (indicators file) ->
         dict_get (activethreats st) k =
         Some (FromLocal
                 (Z.of_nat (List.length
                              (db_query db_cursor db_table (data_type k) k)))
                 (dedup (map row_profile
                             (db_query db_cursor db_table (data_type k) k)))
                 (dedup (map row_class
                             (db_query db_cursor db_table (data_type k) k)))))
        /\
        (~ In k (indicators file) -> dict_get (activethreats st) k = None).
Proof.
  intros depth db_cursor db_table check_domain bogus inputfile file w Hfile.
  destruct (process_lines_local depth db_cursor db_table check_domain bogus
              file initial_locals w) as [st [Hrun [HT [HC Hget]]]].
  cbn [initial_locals activethreats totalthreats web_cats linecount] in *.
  assert (Hread : read_lines inputfile w = (Ret file, w)).
  { unfold read_lines. rewrite Hfile. reflexivity. }
  exists st. unfold process_file. erewrite bind_ret_eq by exact Hread.
  split; [exact Hrun|]. split; [exact HT|]. split; [exact HC|].
  intros k. destruct (Hget k) as [Hin Hout]. unfold indicators.
  rewrite (proj2 (dedup_spec _)). split; [exact Hin|exact Hout].
Qed.

(* --------------------------------------------------------------------- *)
(** *** The category lookup, and a report on maps that do not match *)
(* --------------------------------------------------------------------- *)

(** X17.  [get_web_categories] makes one dossier query, whatever comes
    of it.  A status outside [return_codes_ok] gives the empty list, and
    only such a status does.  With a good status the answer is read as
    [results[0].get('data').get('results')]: an answer without 'results'
    raises [TypeError], one with an empty 'results' raises [IndexError],
    one whose first result has no 'data' raises [AttributeError], none of
    them the [IOError] that [main] handles; an answer whose data hold no
    category gives the single entry 'Uncategorised', and one whose data
    hold categories gives their names in the order of the answer. *)
Theorem X17_web_categories_outcomes :
  forall (query qtype : string) (w : World),
  exists o,
    get_web_categories query qtype w =
    (o, called (DossierQuery query qtype) w) /\
    (o = Ret [] <->
     status_ok (dossier_status (dossierquery query qtype)) = false) /\
    ((exists cats, o = Ret cats) <-> has_data query qtype = true) /\
    (forall filename, o <> Raise (IOError filename)) /\
    (status_ok (dossier_status (dossierquery query qtype)) = true ->
     match dossier_results (dossierquery query qtype) with
     | None => exists message, o = Raise (TypeError message)
     | Some [] => exists message, o = Raise (IndexError message)
     | Some (first :: _) =>
         match result_data first with
         | None => exists message, o = Raise (AttributeError message)
         | Some d =>
             match data_results d with
             | Some (name :: names) => o = Ret (name :: names)
             | _ => o = Ret ["Uncategorised"]
             end
         end
     end).
Proof.
  intros query qtype w.
  cbv [has_data get_web_categories bind log_call first_item get_of ret
       raise called].
  destruct (status_ok (dossier_status (dossierquery query qtype)));
    cbn [negb orb].
  - destruct (dossier_results (dossierquery query qtype))
      as [[|first rest]|].
    + eexists. split; [reflexivity|].
      split; [split; discriminate|].
      split; [split; [intros [cats H]|]; discriminate|].
      split; [discriminate|]. intros _. eexists. reflexivity.
    + destruct (result_data first) as [d|]; cbn [is_some].
      * destruct (data_results d) as [[|name names]|];
          cbn [truthy_opt truthy_list]; try rewrite fold_append_map, map_id;
          eexists; (split; [reflexivity|]);
          (split; [split; discriminate|]);
          (split; [split; [reflexivity|eexists; reflexivity]|]);
          (split; [discriminate|reflexivity]).
      * eexists. split; [reflexivity|].
        split; [split; discriminate|].
        split; [split; [intros [cats H]|]; discriminate|].
        split; [discriminate|]. intros _. eexists. reflexivity.
    + eexists. split; [reflexivity|].
      split; [split; discriminate|].
      split; [split; [intros [cats H]|]; discriminate|].
      split; [discriminate|]. intros _. eexists. reflexivity.
  - exists (Ret []). split; [reflexivity|].
    split; [split; reflexivity|].
    split; [split; [reflexivity|eexists; reflexivity]|].
    split; [discriminate|discriminate].
Qed.

Lemma for_in_app {A S} (l1 l2 : list A) (body : S -> A -> M S) (acc : S)
    (w : World) :
  for_in (l1 ++ l2) body acc w =
  bind (for_in l1 body acc) (for_in l2 body) w.
Proof.
  revert acc w. induction l1 as [|x l1 IH]; intros acc w.
  - reflexivity.
  - cbn [app for_in]. unfold bind.
    destruct (body acc x w) as [[a|e] w1]; [|reflexivity].
    rewrite IH. reflexivity.
Qed.

Lemma dict_get_none {V} (d : dict V) (k : string) :
  ~ In k (dict_keys d) -> dict_get d k = None.
Proof.
  intros Hk. destruct (dict_get d k) as [v|] eqn:E; [|reflexivity].
  exfalso. apply Hk. exact (dict_get_some_key _ _ _ E).
Qed.

(** X18.  [gen_report] in full mode needs a historical entry for every
    indicator: at the first indicator of [activethreats] that has none it
    raises [KeyError] for it, after the header and the rows of the
    indicators before it; no summary line is printed. *)
Theorem X18_full_report_missing_entry :
  forall (before after : dict ActiveEntry) (item : string) (a : ActiveEntry)
         (totalthreats : dict TideResult)
         (web_categories : dict (list string)) filehandle (w : World) bc cc,
    files w "block_categories" = Some bc ->
    files w "country_codes" = Some cc ->
    totalthreats <> [] ->
    (forall k, In k (dict_keys before) -> In k (dict_keys totalthreats)) ->
    ~ In item (dict_keys totalthreats) ->
    exists rows,
      gen_report (before ++ (item, a) :: after)%list totalthreats
                 web_categories filehandle w =
      (Raise (KeyError item),
       match filehandle with
       | Some _ => written (FullHeader :: rows) w
       | None => printed rows w
       end) /\
      map row_item rows = map Some (dict_keys before).
Proof.
  intros before after item a totalthreats web_categories filehandle w bc cc
         Hbc Hcc Hfull Hbefore Hitem.
  set (activethreats := (before ++ (item, a) :: after)%list).
  assert (Hlen : (dict_len totalthreats =? 0) = false).
  { destruct totalthreats as [|e T]; [contradiction|].
    unfold dict_len. cbn [List.length]. apply Z.eqb_neq. lia. }
  assert (Hkeys : dict_keys activethreats =
                  (dict_keys before ++ item :: dict_keys after)%list).
  { unfold activethreats, dict_keys. rewrite map_app. reflexivity. }
  assert (Hin : forall k, In k (dict_keys before) ->
                          In k (dict_keys activethreats) /\
                          In k (dict_keys totalthreats)).
  { intros k Hk. split; [|exact (Hbefore k Hk)].
    rewrite Hkeys. apply in_or_app. left. exact Hk. }
  assert (Hget : exists a', dict_get activethreats item = Some a').
  { apply dict_get_key. rewrite Hkeys. apply in_or_app. right. left.
    reflexivity. }
  destruct Hget as [a' Ha'].
  assert (Hstop : forall acc w0,
    for_in (item :: dict_keys after)
           (full_item activethreats totalthreats web_categories filehandle
                      (map rstrip bc) (map rstrip cc)) acc w0
    = (Raise (KeyError item), w0)).
  { intros [wa wt] w0. cbn [for_in]. unfold bind at 1.
    unfold full_item, bind, subscript.
    rewrite Ha', (dict_get_none _ _ Hitem). reflexivity. }
  unfold gen_report, bind.
  rewrite (load_list_present _ _ _ Hbc), (load_list_present _ _ _ Hcc).
  rewrite Hlen, Hkeys.
  destruct filehandle as [name|]; cbn [when is_some].
  - change (print_file FullHeader w)
      with (Ret tt, emit (Some name) [FullHeader] w).
    cbv beta iota.
    destruct (full_loop_counts activethreats totalthreats web_categories
                (Some name) (map rstrip bc) (map rstrip cc)
                (dict_keys before) 0 0 (emit (Some name) [FullHeader] w) Hin)
      as [rows [Hloop [Hitems _]]].
    exists rows. split; [|exact Hitems].
    rewrite for_in_app. unfold bind at 1. rewrite Hloop, Hstop, emit_app.
    reflexivity.
  - change (ret tt w) with (Ret tt, w). cbv beta iota.
    destruct (full_loop_counts activethreats totalthreats web_categories
                None (map rstrip bc) (map rstrip cc)
                (dict_keys before) 0 0 w Hin)
      as [rows [Hloop [Hitems _]]].
    exists rows. split; [|exact Hitems].
    rewrite for_in_app. unfold bind at 1. rewrite Hloop, Hstop.
    reflexivity.
Qed.

End Script.

(* ===================================================================== *)
(** ** The sample installation, run *)
(* ===================================================================== *)

#[local] Notation "'sample_checkactive'" :=
  (checkactive Sample.return_codes_ok Sample.querytidestate
               Sample.strip_host).

#[local] Notation "'sample_checktide'" :=
  (checktide Sample.return_codes_ok Sample.querytide Sample.strip_host).

#[local] Notation "'sample_run'" :=
  (main_from_options Sample.return_codes_ok Sample.querytidestate
     Sample.querytide Sample.dossierquery Sample.strip_host Sample.data_type
     unit unit Sample.opendb Sample.get_table Sample.db_query Sample.isfile
     Sample.can_backup Sample.can_write).

#[local] Notation "'sample_main'" :=
  (main Sample.return_codes_ok Sample.querytidestate Sample.querytide
        Sample.dossierquery Sample.strip_host Sample.data_type unit unit
        Sample.opendb Sample.get_table Sample.db_query Sample.isfile
        Sample.can_backup Sample.can_write (Ret sample_args)).

Example rstrip_line : rstrip (Sample.line "evil.com  ") = "evil.com".
Proof. reflexivity. Qed.

Example checkwebcat_malware_ish :
  checkwebcat (Some ["Malware-ish"]) ["malware"] = true.
Proof. reflexivity. Qed.

Example checkwebcat_stops_at_first_hit :
  checkwebcat_run (Some ["News"; "Malware-ish"; "Malware sites"])
                  ["adult"; "malware"; "news"] =
  (true, [("adult", "News"); ("adult", "Malware-ish");
          ("adult", "Malware sites"); ("malware", "News");
          ("malware", "Malware-ish")]).
Proof. reflexivity. Qed.

Example checkcountry_site_ru : checkcountry "site.ru" [".ru"] = true.
Proof. reflexivity. Qed.

(** [main] stops at its call of [parseargs]. *)
Example sample_main_stops :
  sample_main 2%nat None Sample.world =
  (Raise (TypeError
            "parseargs() takes 0 positional arguments but 1 was given"),
   Sample.world).
Proof. reflexivity. Qed.

(** The statements that follow, on the sample input in full: one row for
    each valid line, with the five action labels. *)
Example sample_full_run :
  let (o, w) := sample_run 2%nat sample_args Sample.world in
  o = Ret 0 /\
  stdout w =
  [FullHumanRow "evil.com" "Active" 2 (ProfileList ["IID"; "AISCOMM"]) 3
     (ProfileList ["IID"; "AISCOMM"]) ["Phishing"; "Malware"]
     (DateTime 1700000000000000) (DateTime 1800000000000000) false
     (Some ["Uncategorised"]);
   FullHumanRow "old.example" "Not Active" 0 (ProfileList []) 1
     (ProfileList ["IID"]) ["Phishing"] (DateTime 1500000000000000) NoDate
     false (Some ["Uncategorised"]);
   FullHumanRow "shop.example" "Category Block" 0 (ProfileList []) 0
     (ProfileList []) [] NoDate NoDate true (Some ["Malware-ish"]);
   FullHumanRow "site.ru" "Country Block" 0 (ProfileList []) 0
     (ProfileList []) [] NoDate NoDate true (Some ["Uncategorised"]);
   FullHumanRow "bare" "" 0 (ProfileList []) 0 (ProfileList []) [] NoDate
     NoDate false (Some ["Uncategorised"]);
   FullSummary 5 1 2 3].
Proof. vm_compute. split; reflexivity. Qed.

(** One frame is not enough for a lookup that falls back. *)
Example one_frame_is_short :
  fst (sample_checkactive 1%nat "shop.example" "host" true false
                          Sample.world) = Raise RecursionError.
Proof. reflexivity. Qed.

(* --------------------------------------------------------------------- *)
(** *** The theorems at the sample installation *)
(* --------------------------------------------------------------------- *)

Lemma C1_witness :
  files Sample.world "block_categories" = Some [Sample.line "malware"] /\
  files Sample.world "country_codes"
    = Some [Sample.line ".ru"; Sample.line ".cn"] /\
  Sample.totalthreats <> [] /\
  dict_get Sample.activethreats "shop.example" = Some Sample.nothing_active /\
  dict_get Sample.totalthreats "shop.example" = Some Sample.nothing_known /\
  exists rows row,
    stdout (snd (gen_report Sample.activethreats Sample.totalthreats
                            Sample.web_categories None Sample.world))
    = (rows ++ [FullSummary 3 1 1 2])%list /\
    In row rows /\
    row_label row = Some ("shop.example", "Category Block").
Proof.
  repeat (split; [first [reflexivity | discriminate]|]).
  destruct (C1_action_priority
              Sample.activethreats Sample.totalthreats Sample.web_categories
              None Sample.world [Sample.line "malware"]
              [Sample.line ".ru"; Sample.line ".cn"] "shop.example"
              Sample.nothing_active Sample.nothing_known
              eq_refl eq_refl)
    as [summary [rows [label [Hrun [[row [Hin Hlabel]] [_ [_ [_ [Hcat _]]]]]]]]].
  - discriminate.
  - intros k Hk. exact Hk.
  - reflexivity.
  - reflexivity.
  - exists rows, row. rewrite Hrun. cbn [snd printed stdout].
    rewrite <- Hcat; [|cbn; lia|cbn; lia|reflexivity].
    split; [|auto].
    assert (Hsum :
      stdout (snd (gen_report Sample.activethreats Sample.totalthreats
                              Sample.web_categories None Sample.world))
      = (rows ++ [summary])%list) by (rewrite Hrun; reflexivity).
    vm_compute in Hsum.
    apply (f_equal (@rev Line)) in Hsum. rewrite rev_app_distr in Hsum.
    cbn [rev app] in Hsum. injection Hsum as <- _. reflexivity.
Defined.

Lemma C2_witness :
  status_ok Sample.return_codes_ok
            (status_code (Sample.querytidestate "host" "down.example"))
    = false /\
  exists r,
    sample_checkactive 1%nat "down.example" "host" true false Sample.world =
    (Ret r, called (QueryTideState "host" "down.example") Sample.world) /\
    r = mkActive (-1) (ProfileMsg "API Exception Occurred") [] false /\
    a_totalthreats r <> 0 /\ a_profiles r <> ProfileList [].
Proof.
  split; [reflexivity|].
  apply (proj1 (C2_failed_query_sentinel
                  Sample.return_codes_ok Sample.querytidestate
                  Sample.querytide Sample.strip_host 0 "down.example" "host"
                  true false Sample.world)).
  reflexivity.
Defined.

Lemma C4_witness :
  status_ok Sample.return_codes_ok
            (status_code (Sample.querytidestate "host" "shop.example"))
    = true /\
  records (Sample.querytidestate "host" "shop.example") = [] /\
  Sample.strip_host "shop.example" <> "shop.example" /\
  exists r w',
    sample_checkactive 2%nat "shop.example" "host" true false Sample.world
    = (Ret r, w') /\
    sample_checkactive 1%nat (Sample.strip_host "shop.example") "host" false
      true (called (QueryTideState "host" "shop.example") Sample.world)
    = (Ret r, w') /\
    w' = called (QueryTideState "host" (Sample.strip_host "shop.example"))
                (called (QueryTideState "host" "shop.example") Sample.world)
    /\ a_domain_checked r = true.
Proof.
  split; [reflexivity|]. split; [reflexivity|]. split; [discriminate|].
  apply (proj1 (proj1 (C4_domain_fallback
                         Sample.return_codes_ok Sample.querytidestate
                         Sample.querytide Sample.strip_host 0 "shop.example"
                         "host" Sample.world) eq_refl eq_refl)).
  discriminate.
Defined.

Lemma C5_counterexample :
  files Sample.world_without_lists "block_categories" = None /\
  load_list "block_categories" Sample.world_without_lists =
  (Raise (IOError "block_categories"), Sample.world_without_lists) /\
  load_list "block_categories" Sample.world_without_lists <>
  (Ret [], Sample.world_without_lists) /\
  (let (o, w) := sample_run 2%nat sample_args Sample.world_without_lists in
   o = Ret 1 /\ stdout w = [] /\ csv_out w = []).
Proof.
  split; [reflexivity|]. split; [reflexivity|]. split; [discriminate|].
  vm_compute. auto.
Qed.

Lemma C5_witness :
  files Sample.world_without_lists "country_codes" = None /\
  exists missing,
    gen_report Sample.activethreats Sample.totalthreats
               Sample.web_categories None Sample.world_without_lists =
    (Raise (IOError missing), Sample.world_without_lists).
Proof.
  split; [reflexivity|].
  apply (proj1 (proj2 (C5_missing_list_file_raises
                         Sample.activethreats Sample.totalthreats
                         Sample.web_categories None
                         Sample.world_without_lists "country_codes"))).
  right. reflexivity.
Defined.

Lemma C6_witness :
  status_ok Sample.return_codes_ok
            (status_code (Sample.querytidestate "host" "evil.com")) = true /\
  records (Sample.querytidestate "host" "evil.com") <> [] /\
  exists r,
    sample_checkactive 1%nat "evil.com" "host" true false Sample.world =
    (Ret r, called (QueryTideState "host" "evil.com") Sample.world) /\
    a_totalthreats r = 2.
Proof.
  split; [reflexivity|]. split; [discriminate|].
  destruct (proj1 (C6_count_is_number_of_records
                     Sample.return_codes_ok Sample.querytidestate
                     Sample.querytide Sample.strip_host unit unit
                     Sample.db_query 0 "evil.com" "host" true false
                     Sample.world) eq_refl)
    as [r [Hrun [Hcount _]]].
  - left. discriminate.
  - exists r. split; [exact Hrun|exact Hcount].
Defined.

Lemma C7_witness :
  (forall th, In th (records (Sample.querytide "host" "old.example")) ->
              expiration th = None) /\
  exists r w',
    sample_checktide 2%nat "old.example" "host" true false Sample.world
    = (Ret r, w') /\
    t_totalthreats r = 1 /\
    t_last_expiration r = NoDate /\
    t_last_available r <> DateTime epoch.
Proof.
  assert (Hnone :
    forall th, In th (records (Sample.querytide "host" "old.example")) ->
               expiration th = None).
  { intros th [<- | []]. reflexivity. }
  split; [exact Hnone|].
  destruct (C7_dates_absent_not_epoch
              Sample.return_codes_ok Sample.querytide Sample.strip_host
              0 "old.example" "host" true false Sample.world)
    as [r [w' [queries [Hrun [Hlog [_ [_ [Havail [Hexp _]]]]]]]]].
  exists r, w'. split; [exact Hrun|].
  split; [|split; [|exact Havail]].
  - vm_compute in Hrun. injection Hrun as <- _. reflexivity.
  - apply Hexp. intros q th Hq Hth.
    assert (Hqueries : queries = ["old.example"]).
    { vm_compute in Hrun. injection Hrun as _ <-.
      cbn [api_log Sample.world app] in Hlog.
      destruct queries as [|q1 [|q2 queries]]; try discriminate Hlog.
      injection Hlog as <-. reflexivity. }
    rewrite Hqueries in Hq. destruct Hq as [<- | []].
    exact (Hnone th Hth).
Defined.

Lemma C9_witness :
  files Sample.world "block_categories" = Some [Sample.line "malware"] /\
  files Sample.world "country_codes"
    = Some [Sample.line ".ru"; Sample.line ".cn"] /\
  NoDup (dict_keys Sample.activethreats) /\
  exists rows,
    forallb active_row rows = true /\
    gen_report Sample.activethreats [] Sample.web_categories None
               Sample.world =
    (Ret tt, printed (rows ++ [ActiveSummary 3 1 (3 - 1)]) Sample.world).
Proof.
  assert (Hnd : NoDup (dict_keys Sample.activethreats)).
  { repeat constructor; cbn; intuition discriminate. }
  split; [reflexivity|]. split; [reflexivity|]. split; [exact Hnd|].
  exact (C9_active_only_summary
           Sample.activethreats Sample.web_categories None Sample.world
           [Sample.line "malware"] [Sample.line ".ru"; Sample.line ".cn"]
           eq_refl eq_refl Hnd).
Defined.

Lemma C10_witness :
  arg_local sample_args_local = Some "tide.db" /\
  "tide.db" <> "" /\
  exists o w' calls new_out new_csv,
    sample_run 2%nat sample_args_local Sample.world = (o, w') /\
    api_log w' = (api_log Sample.world ++ calls)%list /\
    forallb (fun c => negb (is_querytide c)) calls = true /\
    stdout w' = (stdout Sample.world ++ new_out)%list /\
    csv_out w' = (csv_out Sample.world ++ new_csv)%list /\
    forallb active_schema (new_out ++ new_csv) = true /\
    (o = Ret 0 ->
     exists total active,
       In (ActiveSummary total active (total - active)) new_out).
Proof.
  split; [reflexivity|]. split; [discriminate|].
  apply (proj1 (C10_local_database_forces_active_only
                  Sample.return_codes_ok Sample.querytidestate
                  Sample.querytide Sample.dossierquery Sample.strip_host
                  Sample.data_type unit unit Sample.opendb Sample.get_table
                  Sample.db_query Sample.isfile Sample.can_backup
                  Sample.can_write (Ret sample_args_local) 2
                  sample_args_local "tide.db" Sample.world
                  eq_refl ltac:(discriminate))).
Defined.

(** The run on the local database, in full. *)
Example sample_local_run :
  let (o, w) := sample_run 2%nat sample_args_local Sample.world in
  o = Ret 0 /\
  api_log w =
  [DbQuery "host" "evil.com"; DossierQuery "evil.com" "host";
   DbQuery "host" "old.example"; DossierQuery "old.example" "host";
   DbQuery "host" "shop.example"; DossierQuery "shop.example" "host";
   DbQuery "host" "site.ru"; DossierQuery "site.ru" "host";
   DbQuery "host" "bare"; DossierQuery "bare" "host"] /\
  stdout w = [ActiveSummary 5 1 4; CsvWritten "out.csv"] /\
  csv_out w =
  [ActiveHeader;
   ActiveCsvRow "evil.com" 1 (ProfileList ["IID"]) ["Phishing"];
   ActiveCsvRow "old.example" 0 (ProfileList []) [];
   ActiveCsvRow "shop.example" 0 (ProfileList []) [];
   ActiveCsvRow "site.ru" 0 (ProfileList []) [];
   ActiveCsvRow "bare" 0 (ProfileList []) [];
   ActiveSummary 5 1 4].
Proof. vm_compute. repeat split; reflexivity. Qed.

(* --------------------------------------------------------------------- *)
(** *** Further properties at the sample installation *)
(* --------------------------------------------------------------------- *)

#[local] Notation "'sample_process_file'" :=
  (process_file Sample.return_codes_ok Sample.querytidestate Sample.querytide
                Sample.dossierquery Sample.strip_host Sample.data_type
                unit unit Sample.db_query).

#[local] Notation "'sample_is_valid'" := (is_valid Sample.data_type).

Lemma X1_witness :
  status_ok Sample.return_codes_ok
            (status_code (Sample.querytide "host" "evil.com")) = true /\
  records (Sample.querytide "host" "evil.com") <> [] /\
  exists r,
    sample_checktide 1%nat "evil.com" "host" true false Sample.world =
    (Ret r, called (QueryTide "host" "evil.com") Sample.world) /\
    t_totalthreats r = 3 /\
    t_profiles r = ProfileList ["IID"; "AISCOMM"] /\
    t_tclasses r = ["Phishing"; "Malware"].
Proof.
  split; [reflexivity|]. split; [discriminate|].
  destruct (proj1 (proj2 (X1_profiles_distinct_first_seen
              Sample.return_codes_ok Sample.querytidestate Sample.querytide
              Sample.strip_host unit unit Sample.db_query 0 "evil.com" "host"
              true false Sample.world tt tt)) eq_refl)
    as [r [profiles [Hrun [Hp [-> [Hc _]]]]]]; [discriminate|].
  exists r. split; [exact Hrun|]. split; [|split].
  - vm_compute in Hrun. injection Hrun as <-. reflexivity.
  - exact Hp.
  - exact Hc.
Defined.

Lemma X2_witness :
  status_ok Sample.return_codes_ok
            (status_code (Sample.querytide "host" "evil.com")) = true /\
  records (Sample.querytide "host" "evil.com") <> [] /\
  exists r,
    sample_checktide 1%nat "evil.com" "host" true false Sample.world =
    (Ret r, called (QueryTide "host" "evil.com") Sample.world) /\
    exists m, t_last_expiration r = DateTime m /\ epoch < m.
Proof.
  split; [reflexivity|]. split; [discriminate|].
  destruct (X2_dates_are_the_most_recent
              Sample.return_codes_ok Sample.querytide Sample.strip_host
              0 "evil.com" "host" true false Sample.world eq_refl)
    as [r [Hrun [_ [_ [_ Hexp]]]]]; [discriminate|].
  exists r. split; [exact Hrun|].
  destruct Hexp as [m [Hm [Hpos _]]].
  - exists Sample.iid_phishing, 1800000000000000.
    split; [left; reflexivity|]. split; reflexivity.
  - exists m. auto.
Defined.

Lemma X4_witness :
  let w := mkWorld (fun _ => Some [Sample.line ".ru"; Sample.line "  "])
                   [] [] [] [] in
  In (Sample.line "  ") [Sample.line ".ru"; Sample.line "  "] /\
  all_space (Sample.line "  ") = true /\
  exists items,
    load_list "country_codes" w = (Ret items, w) /\
    checkcountry "example.com" items = true.
Proof.
  intros w. split; [right; left; reflexivity|]. split; [reflexivity|].
  destruct (X4_blank_line_matches_everything
              w "country_codes" [Sample.line ".ru"; Sample.line "  "]
              (Sample.line "  ") eq_refl (or_intror (or_introl eq_refl))
              eq_refl)
    as [items [Hload [_ [Hcountry _]]]].
  exists items. split; [exact Hload|]. apply Hcountry. discriminate.
Defined.

Lemma sample_maps_nodup : NoDup (dict_keys Sample.activethreats).
Proof. repeat constructor; cbn; intuition discriminate. Qed.

Lemma X6_witness :
  Sample.totalthreats <> [] /\
  NoDup (dict_keys Sample.activethreats) /\
  dict_keys Sample.totalthreats = dict_keys Sample.activethreats /\
  exists rows,
    gen_report Sample.activethreats Sample.totalthreats
               Sample.web_categories None Sample.world =
    (Ret tt, printed (rows ++ [FullSummary 3 1 1 (3 - 1)]) Sample.world) /\
    map row_item rows = [Some "evil.com"; Some "shop.example"; Some "site.ru"].
Proof.
  split; [discriminate|]. split; [exact sample_maps_nodup|].
  split; [reflexivity|].
  exact (X6_full_report_summary
           Sample.activethreats Sample.totalthreats Sample.web_categories
           None Sample.world [Sample.line "malware"]
           [Sample.line ".ru"; Sample.line ".cn"] eq_refl eq_refl
           ltac:(discriminate) sample_maps_nodup eq_refl).
Defined.

Lemma X7_witness :
  NoDup (dict_keys Sample.activethreats) /\
  gen_report Sample.activethreats [] Sample.web_categories (Some "out.csv")
             Sample.world =
  (Ret tt,
   printed [ActiveSummary 3 1 2; CsvWritten "out.csv"]
     (written
        [ActiveHeader;
         ActiveCsvRow "evil.com" 2 (ProfileList ["IID"; "AISCOMM"])
                      ["Phishing"; "Malware"];
         ActiveCsvRow "shop.example" 0 (ProfileList []) [];
         ActiveCsvRow "site.ru" 0 (ProfileList []) [];
         ActiveSummary 3 1 2] Sample.world)).
Proof.
  split; [exact sample_maps_nodup|].
  exact (X7_active_only_rows
           Sample.activethreats Sample.web_categories (Some "out.csv")
           Sample.world [Sample.line "malware"]
           [Sample.line ".ru"; Sample.line ".cn"] eq_refl eq_refl
           sample_maps_nodup).
Defined.

Lemma X8_witness :
  Sample.totalthreats <> [] /\
  exists summary rows,
    gen_report Sample.activethreats Sample.totalthreats
               Sample.web_categories None Sample.world =
    (Ret tt, printed (rows ++ [summary]) Sample.world) /\
    forall row item,
      In row rows ->
      row_label row = Some (item, "Category Block") ->
      exists cat cats,
        dict_get Sample.web_categories item = Some (cat :: cats).
Proof.
  split; [discriminate|].
  destruct (X8_category_block_needs_categories
              Sample.activethreats Sample.totalthreats Sample.web_categories
              None Sample.world [Sample.line "malware"]
              [Sample.line ".ru"; Sample.line ".cn"] eq_refl eq_refl
              ltac:(discriminate) (fun k H => H))
    as [summary [rows [Hrun Hcat]]].
  exists summary, rows. split; [exact Hrun|].
  intros row item Hin Hlabel.
  destruct (Hcat row item Hin Hlabel)
    as [a [t [cat [cats [_ [_ [_ [_ [Hget _]]]]]]]]].
  exists cat, cats. exact Hget.
Defined.

#[local] Notation "'sample_lookups_have_data'" :=
  (lookups_have_data Sample.return_codes_ok Sample.dossierquery
                     Sample.data_type).

#[local] Notation "'sample_main_setup'" :=
  (main_setup unit unit Sample.opendb Sample.get_table Sample.isfile
              Sample.can_backup).

#[local] Notation "'sample_main_try'" :=
  (main_try Sample.return_codes_ok Sample.querytidestate Sample.querytide
            Sample.dossierquery Sample.strip_host Sample.data_type unit unit
            Sample.db_query).

Lemma sample_input_has_data (webcat : bool) :
  sample_lookups_have_data webcat Sample.input_lines.
Proof.
  intros _ line Hin _. cbn [Sample.input_lines In] in Hin.
  repeat (destruct Hin as [<- | Hin]; [reflexivity|]). destruct Hin.
Qed.



Lemma X11_witness :
  open_file Sample.isfile Sample.can_backup (fun _ => false) "out.csv"
    = None /\
  (Sample.isfile "out.csv" && Sample.can_backup "out.csv")%bool = false /\
  sample_main_setup (fun _ => false)
    (mkArgs "iocs.txt" (Some "out.csv") None true false false None)
    Sample.world =
  sample_main_setup (fun _ => false)
    (mkArgs "iocs.txt" None None true false false None) Sample.world.
Proof.
  split; [reflexivity|]. split; [reflexivity|].
  apply (proj1 (X11_output_file_failures
                  unit unit Sample.opendb Sample.get_table Sample.isfile
                  Sample.can_backup (fun _ => false)
                  (mkArgs "iocs.txt" (Some "out.csv") None true false false
                          None)
                  "out.csv" Sample.world eq_refl eq_refl)).
  reflexivity.
Defined.

Lemma X12_witness :
  files Sample.world "nothing.txt" = None /\
  sample_main_try 2%nat false None None None true true "nothing.txt"
                  Sample.world = (Ret 1, Sample.world).
Proof.
  split; [reflexivity|].
  exact (X12_missing_input_file
           Sample.return_codes_ok Sample.querytidestate Sample.querytide
           Sample.dossierquery Sample.strip_host Sample.data_type unit unit
           Sample.db_query 2 false None None None true true "nothing.txt"
           Sample.world eq_refl).
Defined.

Lemma X13_witness :
  arg_active (mkArgs "iocs.txt" None None true true true None) = true /\
  exists o w' calls new_out new_csv,
    sample_run 2%nat (mkArgs "iocs.txt" None None true true true None)
                Sample.world = (o, w') /\
    api_log w' = (api_log Sample.world ++ calls)%list /\
    forallb (fun c => negb (is_querytide c)) calls = true /\
    stdout w' = (stdout Sample.world ++ new_out)%list /\
    csv_out w' = (csv_out Sample.world ++ new_csv)%list /\
    forallb active_schema (new_out ++ new_csv) = true /\
    (o = Ret 0 ->
     exists total active,
       In (ActiveSummary total active (total - active)) new_out).
Proof.
  split; [reflexivity|].
  exact (proj1 (X13_active_flag_skips_history
           Sample.return_codes_ok Sample.querytidestate Sample.querytide
           Sample.dossierquery Sample.strip_host Sample.data_type unit unit
           Sample.opendb Sample.get_table Sample.db_query Sample.isfile
           Sample.can_backup Sample.can_write
           (Ret (mkArgs "iocs.txt" None None true true true None)) 0
           (mkArgs "iocs.txt" None None true true true None) Sample.world
           eq_refl)).
Defined.



(** A host for which the dossier answers without results: the lookup
    raises after its query, the loop stops there, and the handler of
    [main] does not catch the exception. *)
Example sample_lookup_without_results :
  let w := mkWorld (fun _ => Some [Sample.line "new.example";
                                   Sample.line "evil.com"]) [] [] [] [] in
  sample_main_try 2%nat true None None None false true "iocs.txt" w =
  (Raise (IndexError "list index out of range"),
   ran [QueryTideState "host" "new.example";
        DossierQuery "new.example" "host"] [] w).
Proof. reflexivity. Qed.

Lemma X16_witness :
  files Sample.world "iocs.txt" = Some Sample.input_lines /\
  exists st,
    sample_process_file 0%nat (Some (tt, tt)) true true false None "iocs.txt"
                        Sample.world
    = (Ret st,
       ran [DbQuery "host" "evil.com"; DbQuery "host" "old.example";
            DbQuery "host" "shop.example"; DbQuery "host" "site.ru";
            DbQuery "host" "bare"] [] Sample.world) /\
    dict_get (activethreats st) "evil.com"
    = Some (FromLocal 1 ["IID"] ["Phishing"]) /\
    dict_get (activethreats st) "unknown.example" = None.
Proof.
  split; [reflexivity|].
  destruct (X16_local_run_lookups
              Sample.return_codes_ok Sample.querytidestate Sample.querytide
              Sample.dossierquery Sample.strip_host Sample.data_type
              unit unit Sample.db_query 0 tt tt true None
              "iocs.txt" Sample.input_lines Sample.world eq_refl)
    as [st [Hrun [_ [_ Hget]]]].
  exists st. split; [exact Hrun|]. split.
  - apply (proj1 (Hget "evil.com")). vm_compute. auto.
  - apply (proj2 (Hget "unknown.example")). vm_compute.
    intuition discriminate.
Defined.

Lemma X18_witness :
  ~ In "shop.example" (dict_keys [("evil.com", Sample.nothing_known)]) /\
  exists rows,
    gen_report Sample.activethreats [("evil.com", Sample.nothing_known)]
               Sample.web_categories None Sample.world =
    (Raise (KeyError "shop.example"), printed rows Sample.world) /\
    map row_item rows = [Some "evil.com"].
Proof.
  assert (Hnot : ~ In "shop.example"
                      (dict_keys [("evil.com", Sample.nothing_known)])).
  { cbn. intros [H | []]. discriminate H. }
  split; [exact Hnot|].
  apply (X18_full_report_missing_entry
           [("evil.com",
             FromTide (mkActive 2 (ProfileList ["IID"; "AISCOMM"])
                                ["Phishing"; "Malware"] false))]
           [("site.ru", Sample.nothing_active)]
           "shop.example" Sample.nothing_active
           [("evil.com", Sample.nothing_known)] Sample.web_categories None
           Sample.world [Sample.line "malware"]
           [Sample.line ".ru"; Sample.line ".cn"] eq_refl eq_refl).
  - discriminate.
  - intros k Hk. exact Hk.
  - exact Hnot.
Defined.

End Report.
